(** * A shallow embedding of [src/main.py]: the request engine of the
    Amazon KDP scraper (class [AmazonKDPScraper]).

    Conventions of the embedding.
    - Python [int] is [Z]; Python [float] is an exact rational [Q].  The one
      place where the conversion from [int] to [float] can fail (an
      [OverflowError] for integers of 2^1024 and more, as in
      [2.0 * (2 ** 1024)]) is kept, because it changes the control flow; so
      are the [ValueError]s of [int] and [float] on a text that is no
      number.
    - [str] is [string], read as a sequence of code points 0..255.
    - A coroutine is a function in the monad [M]: it threads the scraper
      object and the outside world (random source, transport, clock, the
      sequence of observable actions) and either returns or raises.
    - Log lines are not part of the model.

    The file has the built-ins of Python that the source uses (module [Py]),
    the data model, the monad, the methods of the class in the order of the
    source, the notions the statements need, and then the proofs: general
    rules for runs first, the claims C1 to C10 after them. *)

From Stdlib Require Import ZArith QArith Qround Lia Lqa String Ascii List.
From stdpp Require Import base strings gmap list.
Import ListNotations.
Set Warnings "-register-all".
Open Scope Z_scope.

(** ** Exceptions

    Every exception of the model is an instance of [Exception], so the
    [except Exception] clauses of the source catch all of them. *)

Inductive Exn := TypeError | ValueError | OverflowError | TransportError.

Inductive Res (A : Type) :=
  | Ok (a : A)
  | Raise (e : Exn).
Arguments Ok {A} a.
Arguments Raise {A} e.

(** ** Python built-ins used by the source *)

Module Py.

(** [c.lower()] on code points 0..255: A-Z and the accented capitals
    192..222 (but not the multiplication sign 215) move up by 32. *)
Definition lower_char (c : ascii) : ascii :=
  let n := N_of_ascii c in
  if ((65 <=? n) && (n <=? 90) ||
      (192 <=? n) && (n <=? 222) && negb (n =? 215))%N
  then ascii_of_N (n + 32) else c.

Fixpoint lower (s : string) : string :=
  match s with
  | EmptyString => EmptyString
  | String c s' => String (lower_char c) (lower s')
  end.

(** [pat in s] *)
Fixpoint contains (pat s : string) : bool :=
  if String.prefix pat s then true
  else match s with
       | EmptyString => false
       | String _ s' => contains pat s'
       end.

(** [any(p in s for p in pats)] *)
Definition any_in (pats : list string) (s : string) : bool :=
  existsb (fun p => contains p s) pats.

Definition is_decimal (c : ascii) : bool :=
  let n := N_of_ascii c in ((48 <=? n) && (n <=? 57))%N.

(** [c.isdigit()]: the decimal digits and the superscripts 2, 3 and 1
    (code points 178, 179, 185). *)
Definition isdigit_char (c : ascii) : bool :=
  let n := N_of_ascii c in
  is_decimal c || (n =? 178)%N || (n =? 179)%N || (n =? 185)%N.

Fixpoint all_chars (p : ascii -> bool) (s : string) : bool :=
  match s with
  | EmptyString => true
  | String c s' => p c && all_chars p s'
  end.

(** [s.isdigit()]: at least one character, all of them digits. *)
Definition isdigit (s : string) : bool :=
  match s with
  | EmptyString => false
  | _ => all_chars isdigit_char s
  end.

Fixpoint digits_value (acc : Z) (s : string) : Z :=
  match s with
  | EmptyString => acc
  | String c s' => digits_value (10 * acc + (Z.of_N (N_of_ascii c) - 48)) s'
  end.

(** The longest literal that [int] reads, [sys.get_int_max_str_digits()]. *)
Definition int_max_str_digits : Z := 4300.

(** [int(s)] for a string of digits: the superscript digits are digits for
    [isdigit] but no literal for [int], and a literal of more than
    [int_max_str_digits] digits is refused, leading zeros counted. *)
Definition int (s : string) : Res Z :=
  if negb (s =? "")%string && all_chars is_decimal s
     && (Z.of_nat (String.length s) <=? int_max_str_digits)
  then Ok (digits_value 0 s) else Raise ValueError.

(** [s.replace(c, '')] for a single character [c]. *)
Fixpoint remove (c : ascii) (s : string) : string :=
  match s with
  | EmptyString => EmptyString
  | String x s' =>
      if Ascii.eqb x c then remove c s' else String x (remove c s')
  end.

(** The part of [s] before its first point, and the part after that point
    when there is one. *)
Fixpoint split_point (s : string) : string * option string :=
  match s with
  | EmptyString => (EmptyString, None)
  | String x s' =>
      if Ascii.eqb x "." then (EmptyString, Some s')
      else let (whole, rest) := split_point s' in (String x whole, rest)
  end.

(** [float(s)] for a string of digits and points, which is what the
    patterns of the source hand to it: a literal has digits, at most one
    point among them, and at least one digit; there is no limit on its
    length. *)
Definition float (s : string) : Res Q :=
  let (whole, rest) := split_point s in
  let frac := default EmptyString rest in
  if all_chars is_decimal whole && all_chars is_decimal frac
     && negb ((whole =? "")%string && (frac =? "")%string)
  then Ok (inject_Z (digits_value 0 (whole +:+ frac))
           / inject_Z (10 ^ Z.of_nat (String.length frac)))%Q
  else Raise ValueError.

(** Largest magnitude that still rounds to a finite double. *)
Definition float_limit : Z := 2 ^ 1024 - 2 ^ 970.

(** The implicit conversion of an [int] operand in [float * int] and
    [int + float]. *)
Definition float_of_int (n : Z) : Res Q :=
  if (Z.abs n <? float_limit) then Ok (inject_Z n) else Raise OverflowError.

(** [min(a, b)] *)
Definition min (a b : Q) : Q := if Qlt_le_dec b a then b else a.

(** Dictionaries that keep insertion order ([dict] used as a record). *)
Section Dict.
Context {V : Type}.

Fixpoint dict_get (k : string) (d : list (string * V)) : option V :=
    match d with
    | [] => None
    | (k', v) :: d' => if (k =? k')%string then Some v else dict_get k d'
    end.

Fixpoint dict_set (k : string) (v : V) (d : list (string * V))
    : list (string * V) :=
    match d with
    | [] => [(k, v)]
    | (k', v') :: d' =>
        if (k =? k')%string then (k, v) :: d' else (k', v') :: dict_set k v d'
    end.

Definition dict_pop (k : string) (d : list (string * V))
    : list (string * V) :=
    filter (fun kv => negb (k =? fst kv)%string) d.

(** [d.update(e)] *)
Definition dict_update (e d : list (string * V)) : list (string * V) :=
    fold_left (fun acc kv => dict_set (fst kv) (snd kv) acc) e d.
End Dict.

(** Values of dynamic type, as far as [book_data] holds them. *)
Inductive Val :=
  | VNone
  | VBool (b : bool)
  | VNum (q : Q)
  | VStr (s : string)
  | VList (l : list Val)
  | VDict (d : list (string * Val)).

(** Truth value of an object. *)
Definition truthy (v : Val) : bool :=
  match v with
  | VNone => false
  | VBool b => b
  | VNum q => negb (Qeq_bool q 0)
  | VStr s => negb (s =? "")%string
  | VList l => match l with [] => false | _ => true end
  | VDict d => match d with [] => false | _ => true end
  end.

Definition as_number (v : Val) : option Q :=
  match v with
  | VNum q => Some q
  | VBool b => Some (if b then 1 else 0)%Q
  | _ => None
  end.

(** [v < q] and [v <= q], [q <= v] for a number [q]: only numbers are
    ordered against numbers, everything else is a [TypeError]. *)
Definition lt_num (v : Val) (q : Q) : Res bool :=
  match as_number v with
  | Some x => Ok (if Qlt_le_dec x q then true else false)
  | None => Raise TypeError
  end.

Definition le_num (v : Val) (q : Q) : Res bool :=
  match as_number v with
  | Some x => Ok (Qle_bool x q)
  | None => Raise TypeError
  end.

Definition num_le (q : Q) (v : Val) : Res bool :=
  match as_number v with
  | Some x => Ok (Qle_bool q x)
  | None => Raise TypeError
  end.

End Py.

(** ** Data model *)

(** What the transport hands back for one GET: [httpx.Response]. *)
Record Response := {
  status_code : Z;
  resp_headers : list (string * string);
  resp_cookies : gmap string string;
  resp_text : string;
  resp_url : string;
}.

(** [response.headers.get(name)]: header names compare without case, the
    values of a repeated header are joined. *)
Definition headers_get (name : string) (h : list (string * string))
  : option string :=
  match filter (fun kv => (Py.lower (fst kv) =? Py.lower name)%string) h with
  | [] => None
  | kvs => Some (String.concat ", " (map snd kvs))
  end.

(** The headers whose values [httpx] does not print. *)
Definition sensitive_headers : list string :=
  ["authorization"; "proxy-authorization"].

(** A header as [httpx] prints it: the name in lower case, and [[secure]]
    for the value of a sensitive header. *)
Definition printed_header (kv : string * string) : string * string :=
  let name := Py.lower (fst kv) in
  (name, if existsb (String.eqb name) sensitive_headers then "[secure]"
         else snd kv).

Fixpoint has_duplicates (names : list string) : bool :=
  match names with
  | [] => false
  | name :: rest => existsb (String.eqb name) rest || has_duplicates rest
  end.

(** [str(response.headers)]: a dictionary when no name comes twice, a list
    of pairs otherwise.  Names and values are put between single quotes,
    which is how Python prints a string without quotes and escapes of its
    own. *)
Definition headers_str (h : list (string * string)) : string :=
  let items := map printed_header h in
  if has_duplicates (map fst items) then
    "Headers([" +:+
    String.concat ", "
      (map (fun kv => "('" +:+ fst kv +:+ "', '" +:+ snd kv +:+ "')") items)
    +:+ "])"
  else
    "Headers({" +:+
    String.concat ", "
      (map (fun kv => "'" +:+ fst kv +:+ "': '" +:+ snd kv +:+ "'") items)
    +:+ "})".

(** A parsed page.  BeautifulSoup and the selector look-ups are
    collaborators of the engine: a page is represented by what each
    [_extract_*] helper of the source finds in it.  Where a helper converts
    what it found with [int] or [float] and the conversion can fail (rating,
    number of reviews, number of pages, rating of a review), the page gives
    the text that the pattern of the helper matched, and the conversion is
    done by the helper, below.  The price is given as a number: its pattern,
    digits and commas, a point and two digits, only matches what [float]
    reads once the commas are gone. *)
Record Review := {
  rv_rating : option string;
  rv_title : string;
  rv_text : string;
  rv_author : string;
  rv_date : string;
}.

Record Soup := {
  book_hrefs : list string;
  sp_title : string;
  sp_author : string;
  sp_price : option Q;
  sp_rating : option string;
  sp_review_count : option string;
  sp_description : string;
  sp_publication_date : string;
  sp_page_count : option string;
  sp_language : string;
  sp_isbn : string;
  sp_categories : list string;
  sp_image_url : string;
  sp_features : list string;
  sp_thumbnails : list string;
  sp_availability : option string;
  sp_seller : option (string * option string);
  sp_publisher : option string;
  sp_dimensions : option string;
  sp_reviews : list Review;
}.

(** The Actor input, [config]: a key that is absent is [None]. *)
Record PriceRange := { pr_min : option Q; pr_max : option Q }.

Record Config := {
  requestDelay : option Q;
  maxResults : option Z;
  minRating : option Q;
  priceRange : option PriceRange;
  sortBy : option string;
  includeReviews : option bool;
}.

(** The attributes of a [AmazonKDPScraper] object.  [client_closed] is the
    state of [self.client]; [_session_warmed] is
    [hasattr(self, '_session_warmed')]. *)
Record Scraper := {
  config : Config;
  request_delay : Q;
  client_closed : bool;
  _last_error_code : option Z;
  _session_cookies : gmap string string;
  _consecutive_failures : Z;
  _last_success_time : option Q;
  _session_warmed : bool;
}.

(** [AmazonKDPScraper.__init__] *)
Definition init (cfg : Config) : Scraper := {|
  config := cfg;
  request_delay := default 2%Q (requestDelay cfg);
  client_closed := false;
  _last_error_code := None;
  _session_cookies := ∅;
  _consecutive_failures := 0;
  _last_success_time := None;
  _session_warmed := false;
|}.

(** Why the engine sleeps: one constructor per [asyncio.sleep] of the
    source. *)
Inductive Pause :=
  | AdaptiveDelay (attempt : nat) (error_code : option Z)
  | HumanDelay
  | RetryAfterDelay
  | IntelligentBackoff (consecutive_failures : Z)
  | CaptchaDelay (attempt : nat)
  | WarmupPause
  | ItemDelay.

(** What the engine does to the outside world, in order. *)
Inductive Event :=
  | Sleep (why : Pause) (d : Q)
  | Get (url : string) (hdrs : list (string * string))
  | AClose.

(** What the transport answers to a request. *)
Inductive Outcome :=
  | Resp (r : Response)
  | Fail.

(** The outside world.  [rng n] is the n-th value that [random.random()]
    yields and [net n] the outcome of the n-th call of [self.client.get]: a
    response, or an exception of the call, whatever its reason (the network,
    or a client that was closed before and not set up again); [draws] and
    [sent] count how many of them were used. *)
Record World := {
  rng : nat -> Q;
  draws : nat;
  net : nat -> Outcome;
  sent : nat;
  lxml : string -> Soup;
  clock : Q;
  trace : list Event;
}.

(** A state of the run: the object, the world, and [captcha_attempts], the
    local variable of the running [_make_request] (kept here so that it
    survives the [try]/[except] of the retry loop as a Python local does). *)
Record St := {
  self : Scraper;
  world : World;
  captcha_attempts : nat;
}.

Definition set_self (f : Scraper -> Scraper) (s : St) : St :=
  {| self := f (self s); world := world s;
     captcha_attempts := captcha_attempts s |}.

Definition set_world (f : World -> World) (s : St) : St :=
  {| self := self s; world := f (world s);
     captcha_attempts := captcha_attempts s |}.

Definition set_captcha_attempts (n : nat) (s : St) : St :=
  {| self := self s; world := world s; captcha_attempts := n |}.

Definition with_client_closed (b : bool) (o : Scraper) : Scraper :=
  {| config := config o; request_delay := request_delay o;
     client_closed := b;
     _last_error_code := _last_error_code o;
     _session_cookies := _session_cookies o;
     _consecutive_failures := _consecutive_failures o;
     _last_success_time := _last_success_time o;
     _session_warmed := _session_warmed o |}.

Definition with_last_error_code (c : option Z) (o : Scraper) : Scraper :=
  {| config := config o; request_delay := request_delay o;
     client_closed := client_closed o;
     _last_error_code := c;
     _session_cookies := _session_cookies o;
     _consecutive_failures := _consecutive_failures o;
     _last_success_time := _last_success_time o;
     _session_warmed := _session_warmed o |}.

Definition with_session_cookies (c : gmap string string) (o : Scraper)
  : Scraper :=
  {| config := config o; request_delay := request_delay o;
     client_closed := client_closed o;
     _last_error_code := _last_error_code o;
     _session_cookies := c;
     _consecutive_failures := _consecutive_failures o;
     _last_success_time := _last_success_time o;
     _session_warmed := _session_warmed o |}.

Definition with_consecutive_failures (n : Z) (o : Scraper) : Scraper :=
  {| config := config o; request_delay := request_delay o;
     client_closed := client_closed o;
     _last_error_code := _last_error_code o;
     _session_cookies := _session_cookies o;
     _consecutive_failures := n;
     _last_success_time := _last_success_time o;
     _session_warmed := _session_warmed o |}.

Definition with_last_success_time (t : option Q) (o : Scraper) : Scraper :=
  {| config := config o; request_delay := request_delay o;
     client_closed := client_closed o;
     _last_error_code := _last_error_code o;
     _session_cookies := _session_cookies o;
     _consecutive_failures := _consecutive_failures o;
     _last_success_time := t;
     _session_warmed := _session_warmed o |}.

Definition with_session_warmed (b : bool) (o : Scraper) : Scraper :=
  {| config := config o; request_delay := request_delay o;
     client_closed := client_closed o;
     _last_error_code := _last_error_code o;
     _session_cookies := _session_cookies o;
     _consecutive_failures := _consecutive_failures o;
     _last_success_time := _last_success_time o;
     _session_warmed := b |}.

Definition emit (e : Event) (w : World) : World :=
  {| rng := rng w; draws := draws w; net := net w; sent := sent w;
     lxml := lxml w; clock := clock w; trace := trace w ++ [e] |}.

Definition drawn (w : World) : World :=
  {| rng := rng w; draws := S (draws w); net := net w; sent := sent w;
     lxml := lxml w; clock := clock w; trace := trace w |}.

Definition requested (w : World) : World :=
  {| rng := rng w; draws := draws w; net := net w; sent := S (sent w);
     lxml := lxml w; clock := clock w; trace := trace w |}.

Definition elapsed (d : Q) (w : World) : World :=
  {| rng := rng w; draws := draws w; net := net w; sent := sent w;
     lxml := lxml w;
     clock := (clock w + (if Qlt_le_dec 0 d then d else 0))%Q;
     trace := trace w |}.

(** ** The monad of coroutines: state and exceptions *)

Definition M (A : Type) : Type := St -> Res A * St.

Definition ret {A} (a : A) : M A := fun s => (Ok a, s).

Definition bind {A B} (c : M A) (k : A -> M B) : M B :=
  fun s => match c s with
           | (Ok a, s') => k a s'
           | (Raise e, s') => (Raise e, s')
           end.

Definition raise {A} (e : Exn) : M A := fun s => (Raise e, s).

(** A value or an exception of a pure computation. *)
Definition lift {A} (r : Res A) : M A := fun s => (r, s).

(** [try: body except Exception as e: handler(e)]: the handler starts in
    the state the body had reached when it raised. *)
Definition try_except {A} (body : M A) (handler : Exn -> M A) : M A :=
  fun s => match body s with
           | (Ok a, s') => (Ok a, s')
           | (Raise e, s') => handler e s'
           end.

Notation "x <- c ;; k" := (bind c (fun x => k))
  (at level 100, c at next level, k at level 200, right associativity).
Notation "'do' c ;; k" := (bind c (fun _ => k))
  (at level 100, c at next level, k at level 200, right associativity).

Definition get_self : M Scraper := fun s => (Ok (self s), s).
Definition update_self (f : Scraper -> Scraper) : M unit :=
  fun s => (Ok tt, set_self f s).
Definition get_world : M World := fun s => (Ok (world s), s).
Definition update_world (f : World -> World) : M unit :=
  fun s => (Ok tt, set_world f s).
Definition when (b : bool) (c : M unit) : M unit := if b then c else ret tt.

(** [random.random()] *)
Definition random_random : M Q :=
  w <- get_world ;; do update_world drawn ;; ret (rng w (draws w)).

(** [random.uniform(a, b)], which is [a + (b - a) * random()]. *)
Definition random_uniform (a b : Q) : M Q :=
  u <- random_random ;; ret (a + (b - a) * u)%Q.

(** [random.choice(seq)]: the element at position [floor (u * len(seq))] for
    the next draw [u]; [d] stands in when the draw is not in [0,1). *)
Definition random_choice {A} (d : A) (seq : list A) : M A :=
  u <- random_random ;;
  ret (nth (Z.to_nat (Qfloor (u * inject_Z (Z.of_nat (length seq))))) seq d).

(** [await asyncio.sleep(d)] *)
Definition asyncio_sleep (why : Pause) (d : Q) : M unit :=
  update_world (fun w => elapsed d (emit (Sleep why d) w)).

(** [datetime.now()] *)
Definition datetime_now : M Q := w <- get_world ;; ret (clock w).

(** [await self.client.get(url, headers=headers, follow_redirects=True)]:
    the call is recorded and ends as [net] says.  The state of the client
    is not read here: what a closed client does to a call is part of
    [net]. *)
Definition client_get (url : string) (hdrs : list (string * string))
  : M Response :=
  w <- get_world ;;
  do update_world (fun w => requested (emit (Get url hdrs) w)) ;;
  match net w (sent w) with
  | Resp r => ret r
  | Fail => raise TransportError
  end.

(** [await self.client.aclose()] *)
Definition client_aclose : M unit :=
  do update_world (emit AClose) ;; update_self (with_client_closed true).

(** ** The engine: class [AmazonKDPScraper] *)

Definition base_url : string := "https://www.amazon.com".

Definition user_agents : list string := [
  "Mozilla/5.0 (Windows NT 10.0; Win64; x64) AppleWebKit/537.36 (KHTML, like Gecko) Chrome/119.0.0.0 Safari/537.36";
  "Mozilla/5.0 (Windows NT 10.0; Win64; x64) AppleWebKit/537.36 (KHTML, like Gecko) Chrome/118.0.0.0 Safari/537.36";
  "Mozilla/5.0 (Windows NT 10.0; Win64; x64) AppleWebKit/537.36 (KHTML, like Gecko) Chrome/117.0.0.0 Safari/537.36";
  "Mozilla/5.0 (Macintosh; Intel Mac OS X 10_15_7) AppleWebKit/537.36 (KHTML, like Gecko) Chrome/119.0.0.0 Safari/537.36";
  "Mozilla/5.0 (Macintosh; Intel Mac OS X 10_15_7) AppleWebKit/537.36 (KHTML, like Gecko) Chrome/118.0.0.0 Safari/537.36";
  "Mozilla/5.0 (Windows NT 10.0; Win64; x64; rv:109.0) Gecko/20100101 Firefox/119.0";
  "Mozilla/5.0 (Windows NT 10.0; Win64; x64; rv:109.0) Gecko/20100101 Firefox/118.0";
  "Mozilla/5.0 (Macintosh; Intel Mac OS X 10.15; rv:109.0) Gecko/20100101 Firefox/119.0";
  "Mozilla/5.0 (Macintosh; Intel Mac OS X 10_15_7) AppleWebKit/605.1.15 (KHTML, like Gecko) Version/17.1 Safari/605.1.15";
  "Mozilla/5.0 (Macintosh; Intel Mac OS X 10_15_7) AppleWebKit/605.1.15 (KHTML, like Gecko) Version/16.6 Safari/605.1.15";
  "Mozilla/5.0 (Windows NT 10.0; Win64; x64) AppleWebKit/537.36 (KHTML, like Gecko) Chrome/119.0.0.0 Safari/537.36 Edg/119.0.0.0";
  "Mozilla/5.0 (Windows NT 10.0; Win64; x64) AppleWebKit/537.36 (KHTML, like Gecko) Chrome/118.0.0.0 Safari/537.36 Edg/118.0.0.0"
].

(** The double quote, for the values that carry quoted tokens. *)
Definition dq : string := String (ascii_of_nat 34) EmptyString.

Definition chrome_headers (chrome_version platform arch : string)
  : list (string * string) := [
  ("sec-ch-ua",
   dq +:+ "Google Chrome" +:+ dq +:+ ";v=" +:+ dq +:+ chrome_version +:+ dq +:+
   ", " +:+ dq +:+ "Chromium" +:+ dq +:+ ";v=" +:+ dq +:+ chrome_version +:+ dq +:+
   ", " +:+ dq +:+ "Not?A_Brand" +:+ dq +:+ ";v=" +:+ dq +:+ "24" +:+ dq);
  ("sec-ch-ua-mobile", "?0");
  ("sec-ch-ua-platform", dq +:+ platform +:+ dq);
  ("sec-ch-ua-arch", dq +:+ arch +:+ dq);
  ("sec-ch-ua-bitness", dq +:+ "64" +:+ dq);
  ("sec-ch-ua-full-version-list",
   dq +:+ "Google Chrome" +:+ dq +:+ ";v=" +:+ dq +:+ chrome_version +:+ ".0.0.0" +:+ dq +:+
   ", " +:+ dq +:+ "Chromium" +:+ dq +:+ ";v=" +:+ dq +:+ chrome_version +:+ ".0.0.0" +:+ dq +:+
   ", " +:+ dq +:+ "Not?A_Brand" +:+ dq +:+ ";v=" +:+ dq +:+ "24.0.0.0" +:+ dq)
].

Definition _get_realistic_headers (url : string) : M (list (string * string)) :=
  user_agent <- random_choice "" user_agents ;;
  accept_language <- random_choice "" [
    "en-US,en;q=0.9";
    "en-US,en;q=0.8,fr;q=0.6";
    "en-GB,en;q=0.9,en-US;q=0.8";
    "en-US,en;q=0.9,es;q=0.8" ] ;;
  sec_fetch_site <- random_choice "" ["none"; "same-origin"; "cross-site"] ;;
  cache_control <- random_choice "" ["max-age=0"; "no-cache"] ;;
  let base_headers := [
    ("User-Agent", user_agent);
    ("Accept", "text/html,application/xhtml+xml,application/xml;q=0.9,image/avif,image/webp,image/apng,*/*;q=0.8");
    ("Accept-Language", accept_language);
    ("Accept-Encoding", "gzip, deflate, br");
    ("Connection", "keep-alive");
    ("Upgrade-Insecure-Requests", "1");
    ("Sec-Fetch-Dest", "document");
    ("Sec-Fetch-Mode", "navigate");
    ("Sec-Fetch-Site", sec_fetch_site);
    ("Sec-Fetch-User", "?1");
    ("Cache-Control", cache_control);
    ("DNT", "1") ] in
  base_headers <-
    (if negb (url =? "")%string && Py.contains "amazon.com" url then
       if Py.contains "/s?" url then
         ret (Py.dict_set "Referer" "https://www.amazon.com/" base_headers)
       else if Py.contains "/dp/" url then
         ret (Py.dict_set "Referer" "https://www.amazon.com/s?k=books" base_headers)
       else
         referer <- random_choice "" [
           "https://www.amazon.com/";
           "https://www.amazon.com/gp/bestsellers/books";
           "https://www.amazon.com/books-used-books-textbooks/b?ie=UTF8&node=283155" ] ;;
         ret (Py.dict_set "Referer" referer base_headers)
     else ret base_headers) ;;
  base_headers <-
    (if Py.contains "Chrome" user_agent then
       chrome_version <- random_choice "" ["119"; "118"; "117"] ;;
       platform <- random_choice "" ["Windows"; "macOS"; "Linux"] ;;
       arch <- random_choice "" ["x86"; "arm"] ;;
       ret (Py.dict_update (chrome_headers chrome_version platform arch) base_headers)
     else if Py.contains "Firefox" user_agent then
       site <- random_choice "" ["none"; "same-origin"] ;;
       ret (Py.dict_update [
         ("Accept", "text/html,application/xhtml+xml,application/xml;q=0.9,image/avif,image/webp,*/*;q=0.8");
         ("Sec-Fetch-Site", site) ] base_headers)
     else ret base_headers) ;;
  u1 <- random_random ;;
  let base_headers :=
    if Qlt_le_dec u1 0.2 then Py.dict_pop "Cache-Control" base_headers
    else base_headers in
  u2 <- random_random ;;
  let base_headers :=
    if Qlt_le_dec u2 0.15 then Py.dict_pop "Upgrade-Insecure-Requests" base_headers
    else base_headers in
  u3 <- random_random ;;
  let base_headers :=
    if Qlt_le_dec u3 0.1 then Py.dict_pop "DNT" base_headers
    else base_headers in
  ret base_headers.

Definition captcha_indicators : list string := [
  "captcha"; "robot check"; "security check"; "please verify";
  "are you a robot"; "verify you are human"; "prove you are not a robot";
  "complete the security check"; "automated queries"; "unusual traffic";
  "suspicious activity" ].

Definition amazon_captcha_patterns : list string := [
  "api/captcha"; "errors/validateCaptcha"; "ref=cs_503_logo";
  "validatecaptcha"; "captcha.html" ].

Definition amazon_blocking_patterns : list string := [
  "to discuss automated access to amazon data please contact";
  "we just need to make sure you're not a robot";
  "enter the characters you see below" ].

Definition _is_captcha_page (response : Response) : bool :=
  let content := Py.lower (resp_text response) in
  let content_has_captcha := Py.any_in captcha_indicators content in
  let url_has_captcha := Py.contains "captcha" (Py.lower (resp_url response)) in
  let amazon_captcha :=
    Py.any_in amazon_captcha_patterns (Py.lower (resp_url response)) in
  let headers_captcha :=
    Py.contains "captcha" (Py.lower (headers_str (resp_headers response))) in
  let amazon_blocking := Py.any_in amazon_blocking_patterns content in
  content_has_captcha || url_has_captcha || amazon_captcha || headers_captcha
  || amazon_blocking.

Definition _handle_captcha_scenario (response : Response) (attempt : nat)
  : M bool :=
  delay <-
    (match attempt with
     | 0%nat => random_uniform 10 20
     | 1%nat => random_uniform 30 60
     | 2%nat => random_uniform 120 300
     | _ => random_uniform 600 1200
     end) ;;
  do asyncio_sleep (CaptchaDelay attempt) delay ;;
  ret (attempt <? 3)%nat.

(** [error_code == n] *)
Definition code_is (error_code : option Z) (n : Z) : bool :=
  match error_code with
  | Some c => c =? n
  | None => false
  end.

(** [base_delay * (b ** attempt) + random.uniform(lo, hi)]: the power is an
    [int], converted when it meets [base_delay]; the draw comes after. *)
Definition exponential_delay (base_delay : Q) (b : Z) (attempt : nat)
    (lo hi : Q) : M Q :=
  p <- lift (Py.float_of_int (b ^ Z.of_nat attempt)) ;;
  jitter <- random_uniform lo hi ;;
  ret (base_delay * p + jitter)%Q.

Definition _adaptive_delay_strategy (attempt : nat) (error_code : option Z)
  : M unit :=
  let base_delay := 2.0%Q in
  delay <-
    (if code_is error_code 503 then exponential_delay base_delay 3 attempt 10 30
     else if code_is error_code 429 then exponential_delay base_delay 2 attempt 15 45
     else if code_is error_code 403 then exponential_delay base_delay 4 attempt 30 90
     else exponential_delay base_delay 2 attempt 5 15) ;;
  let delay := Py.min delay 600 in
  asyncio_sleep (AdaptiveDelay attempt error_code) delay.

(** The body of the source is [pass]. *)
Definition _setup_http_client : M unit := ret tt.

(** [self.client] is set by [__init__] and is an object, so the guard before
    [aclose] holds. *)
Definition _reset_session_strategy : M unit :=
  try_except
    (do update_self (with_session_cookies ∅) ;;
     do update_self (with_last_error_code None) ;;
     do client_aclose ;;
     _setup_http_client)
    (fun _ => ret tt).

Definition _intelligent_backoff (consecutive_failures : Z) : M unit :=
  delay <-
    (if consecutive_failures <=? 2 then random_uniform 5 15
     else if consecutive_failures <=? 5 then
       delay <- random_uniform 30 90 ;;
       do when (consecutive_failures =? 3) _reset_session_strategy ;;
       ret delay
     else
       delay <- random_uniform 300 600 ;;
       do _reset_session_strategy ;;
       ret delay) ;;
  asyncio_sleep (IntelligentBackoff consecutive_failures) delay.

(** How one pass through the body of the retry loop ends. *)
Inductive Ctl :=
  | Continue
  | Return (r : option Response).

(** [self._consecutive_failures += 1] *)
Definition incr_failures : M unit :=
  update_self (fun o =>
    with_consecutive_failures (_consecutive_failures o + 1) o).

(** [captcha_attempts += 1; ... captcha_attempts - 1] *)
Definition next_captcha_attempt : M nat :=
  fun s => (Ok (S (captcha_attempts s) - 1)%nat,
            set_captcha_attempts (S (captcha_attempts s)) s).

(** The [try] block of the retry loop up to the answer of the transport:
    headers, the delay of a retry, the pacing delay, the GET. *)
Definition send_attempt (url : string) (attempt : nat) : M Response :=
  headers <- _get_realistic_headers url ;;
  o <- get_self ;;
  do when (0 <? attempt)%nat
       (_adaptive_delay_strategy attempt (_last_error_code o)) ;;
  o <- get_self ;;
  let request_delay := default 2%Q (requestDelay (config o)) in
  human_delay <- random_uniform (request_delay * 0.8) (request_delay * 2.0) ;;
  u <- random_random ;;
  human_delay <-
    (if Qlt_le_dec u 0.1 then
       pause <- random_uniform 5 15 ;; ret (human_delay + pause)%Q
     else ret human_delay) ;;
  do asyncio_sleep HumanDelay human_delay ;;
  client_get url headers.

(** The rest of the [try] block: what is done with the response. *)
Definition classify (max_retries : Z) (attempt : nat) (response : Response)
  : M Ctl :=
  do update_self (with_last_error_code (Some (status_code response))) ;;
  if _is_captcha_page response then
    captcha_attempt <- next_captcha_attempt ;;
    should_continue <- _handle_captcha_scenario response captcha_attempt ;;
    if should_continue && (Z.of_nat attempt <? max_retries - 1) then
      do update_self (with_session_cookies ∅) ;;
      do incr_failures ;;
      ret Continue
    else
      do incr_failures ;;
      ret (Return None)
  else if status_code response =? 200 then
    do update_self (with_last_error_code None) ;;
    do update_self (with_consecutive_failures 0) ;;
    now <- datetime_now ;;
    do update_self (with_last_success_time (Some now)) ;;
    do when (negb (bool_decide (resp_cookies response = ∅)))
         (update_self (fun o =>
            with_session_cookies (resp_cookies response ∪ _session_cookies o) o)) ;;
    ret (Return (Some response))
  else if status_code response =? 503 then
    do incr_failures ;;
    do when (Z.of_nat attempt <? max_retries - 1)
         (do _adaptive_delay_strategy attempt (Some 503) ;;
          o <- get_self ;;
          when (3 <=? _consecutive_failures o)
            (_intelligent_backoff (_consecutive_failures o))) ;;
    ret Continue
  else if status_code response =? 429 then
    do incr_failures ;;
    let retry_after := headers_get "Retry-After" (resp_headers response) in
    do (match retry_after with
        | Some v =>
            if negb (v =? "")%string && Py.isdigit v then
              n <- lift (Py.int v) ;;
              buffer <- random_uniform 5 15 ;;
              x <- lift (Py.float_of_int n) ;;
              asyncio_sleep RetryAfterDelay (x + buffer)%Q
            else _adaptive_delay_strategy attempt (Some 429)
        | None => _adaptive_delay_strategy attempt (Some 429)
        end) ;;
    ret Continue
  else if status_code response =? 403 then
    do incr_failures ;;
    if _is_captcha_page response then
      captcha_attempt <- next_captcha_attempt ;;
      should_continue <- _handle_captcha_scenario response captcha_attempt ;;
      if should_continue && (Z.of_nat attempt <? max_retries - 1) then
        do update_self (with_session_cookies ∅) ;;
        ret Continue
      else ret (Return None)
    else
      do when (Z.of_nat attempt <? max_retries - 1)
           (do _adaptive_delay_strategy attempt (Some 403) ;;
            o <- get_self ;;
            when (2 <=? _consecutive_failures o)
              (_intelligent_backoff (_consecutive_failures o))) ;;
      ret Continue
  else if status_code response =? 404 then
    ret (Return None)
  else
    do incr_failures ;;
    do when (Z.of_nat attempt <? max_retries - 1)
         (_adaptive_delay_strategy attempt None) ;;
    ret Continue.

(** The [try] block of the retry loop, for one value of [attempt]. *)
Definition attempt_try (url : string) (max_retries : Z) (attempt : nat)
  : M Ctl :=
  response <- send_attempt url attempt ;;
  classify max_retries attempt response.

(** The [except Exception] clause of the retry loop. *)
Definition attempt_except (max_retries : Z) (attempt : nat) (e : Exn)
  : M Ctl :=
  do incr_failures ;;
  if Z.of_nat attempt <? max_retries - 1 then
    do _adaptive_delay_strategy attempt None ;;
    o <- get_self ;;
    do when (3 <=? _consecutive_failures o)
         (_intelligent_backoff (_consecutive_failures o)) ;;
    ret Continue
  else ret (Return None).

(** What follows the loop when no attempt returned. *)
Definition all_attempts_failed : M (option Response) :=
  do incr_failures ;;
  o <- get_self ;;
  do when (5 <=? _consecutive_failures o)
       (_intelligent_backoff (_consecutive_failures o)) ;;
  ret None.

(** [for attempt in range(max_retries)], from [attempt] on, with
    [remaining] passes left. *)
Fixpoint retry_loop (url : string) (max_retries : Z) (attempt remaining : nat)
  : M (option Response) :=
  match remaining with
  | O => all_attempts_failed
  | S remaining' =>
      c <- try_except (attempt_try url max_retries attempt)
                      (attempt_except max_retries attempt) ;;
      match c with
      | Continue => retry_loop url max_retries (S attempt) remaining'
      | Return r => ret r
      end
  end.

Definition _make_request (url : string) (max_retries : Z) (skip_warmup : bool)
  : M (option Response) :=
  do (fun s => (Ok tt, set_captcha_attempts 0 s)) ;;
  retry_loop url max_retries 0 (Z.to_nat max_retries).

(** ** Search and detail pages *)

Definition hex_digit (n : N) : ascii :=
  nth (N.to_nat n) (list_ascii_of_string "0123456789ABCDEF") "0"%char.

Definition percent_byte (b : N) : string :=
  String "%" (String (hex_digit (b / 16)) (String (hex_digit (b mod 16)) "")).

(** [urllib.parse.quote_plus] of one character: letters, digits and [_.-~]
    stay, a space becomes [+], the rest is the percent-encoded UTF-8. *)
Definition quote_plus_char (c : ascii) : string :=
  let n := N_of_ascii c in
  if ((48 <=? n) && (n <=? 57) || (65 <=? n) && (n <=? 90)
      || (97 <=? n) && (n <=? 122)
      || (n =? 95) || (n =? 46) || (n =? 45) || (n =? 126))%N
  then String c ""
  else if (n =? 32)%N then "+"
  else if (n <? 128)%N then percent_byte n
  else percent_byte (192 + n / 64) +:+ percent_byte (128 + n mod 64).

Fixpoint quote_plus (s : string) : string :=
  match s with
  | EmptyString => EmptyString
  | String c s' => quote_plus_char c +:+ quote_plus s'
  end.

(** [urllib.parse.urlencode(params)] *)
Definition urlencode (params : list (string * string)) : string :=
  String.concat "&"
    (map (fun kv => quote_plus (fst kv) +:+ "=" +:+ quote_plus (snd kv)) params).

Definition sort_mapping : list (string * string) := [
  ("price-low-to-high", "price-asc-rank");
  ("price-high-to-low", "price-desc-rank");
  ("avg-customer-review", "review-rank");
  ("newest-arrivals", "date-desc-rank") ].

Definition _build_search_url (cfg : Config) (search_term : string)
    (category : option string) : string :=
  let params := [("k", search_term); ("i", "digital-text"); ("ref", "sr_nr_i_0")] in
  let sort_by := default "relevance" (sortBy cfg) in
  let params :=
    if negb (sort_by =? "relevance")%string then
      Py.dict_set "s" (default "relevance" (Py.dict_get sort_by sort_mapping)) params
    else params in
  base_url +:+ "/s?" +:+ urlencode params.

Definition _extract_book_links (soup : Soup) : list string :=
  map (fun href => base_url +:+ href) (book_hrefs soup).

(** [l[:n]] *)
Definition slice_to {A} (n : Z) (l : list A) : list A :=
  if 0 <=? n then firstn (Z.to_nat n) l
  else firstn (length l - Z.to_nat (- n)) l.

Definition is_asin_char (c : ascii) : bool :=
  let n := N_of_ascii c in
  ((48 <=? n) && (n <=? 57) || (65 <=? n) && (n <=? 90))%N.

(** [re.search(r'/dp/([A-Z0-9]{10})', s)], group 1 of the leftmost match. *)
Fixpoint find_asin_from (s : string) : option string :=
  let here :=
    if String.prefix "/dp/" s then
      let candidate := String.substring 4 10 s in
      if (String.length candidate =? 10)%nat
         && Py.all_chars is_asin_char candidate
      then Some candidate else None
    else None in
  match here, s with
  | Some a, _ => Some a
  | None, EmptyString => None
  | None, String _ s' => find_asin_from s'
  end.

Abbreviation Dict := (list (string * Py.Val)).

Definition opt_num (o : option Q) : Py.Val :=
  match o with Some q => Py.VNum q | None => Py.VNone end.

Definition opt_int (o : option Z) : Py.Val :=
  match o with Some n => Py.VNum (inject_Z n) | None => Py.VNone end.

Definition opt_str (o : option string) : Py.Val :=
  match o with Some s => Py.VStr s | None => Py.VNone end.

Definition str_list (l : list string) : Py.Val := Py.VList (map Py.VStr l).

(** [d[k1][k2] = v] where [d[k1]] is a dictionary. *)
Definition dict_set_in (k1 k2 : string) (v : Py.Val) (d : Dict) : Dict :=
  match Py.dict_get k1 d with
  | Some (Py.VDict inner) => Py.dict_set k1 (Py.VDict (Py.dict_set k2 v inner)) d
  | _ => d
  end.

(** [thumbnails]: every source that is not empty and not yet listed. *)
Fixpoint add_thumbnails (srcs acc : list string) : list string :=
  match srcs with
  | [] => acc
  | src :: srcs' =>
      add_thumbnails srcs'
        (if negb (src =? "")%string && negb (existsb (String.eqb src) acc)
         then acc ++ [src] else acc)
  end.

(** The separator of the breadcrumbs, a right-pointing angle mark between
    two spaces (written here with the bytes of its UTF-8 form). *)
Definition breadcrumb_separator : string := " › ".

Definition _extract_enhanced_details (soup : Soup) (book_data : Dict) : Dict :=
  let book_data :=
    match sp_categories soup with
    | [] => book_data
    | cats => Py.dict_set "breadcrumbs"
                (Py.VStr (String.concat breadcrumb_separator cats)) book_data
    end in
  let features :=
    filter (fun t => negb (t =? "")%string && (10 <? String.length t)%nat)
           (sp_features soup) in
  let book_data := Py.dict_set "features" (str_list features) book_data in
  let book_data :=
    dict_set_in "images" "thumbnails"
      (str_list (add_thumbnails (sp_thumbnails soup) [])) book_data in
  let book_data :=
    match sp_availability soup with
    | Some avail_text =>
        dict_set_in "availability" "inStock"
          (Py.VBool (Py.contains "in stock" (Py.lower avail_text)
                     || Py.contains "available" (Py.lower avail_text)))
          (dict_set_in "availability" "stockText" (Py.VStr avail_text) book_data)
    | None => book_data
    end in
  let book_data :=
    match sp_seller soup with
    | Some (name, seller_id) =>
        let book_data := dict_set_in "seller" "name" (Py.VStr name) book_data in
        match seller_id with
        | Some i => dict_set_in "seller" "id" (Py.VStr i) book_data
        | None => book_data
        end
    | None => book_data
    end in
  let book_data :=
    match sp_publisher soup with
    | Some p => dict_set_in "details" "publisher" (Py.VStr p) book_data
    | None => book_data
    end in
  match sp_dimensions soup with
  | Some d => dict_set_in "details" "dimensions" (Py.VStr d) book_data
  | None => book_data
  end.

(** The end of a helper that converts what its pattern matched: without a
    match the helper returns [None]; an exception of the conversion leaves
    the helper. *)
Definition converted {A} (conversion : string -> Res A) (group : option string)
  : Res (option A) :=
  match group with
  | None => Ok None
  | Some g => match conversion g with
              | Ok a => Ok (Some a)
              | Raise e => Raise e
              end
  end.

(** [float(rating_match.group(1))] for the pattern [([\d\.]+) out of]. *)
Definition _extract_rating (soup : Soup) : Res (option Q) :=
  converted Py.float (sp_rating soup).

(** [int(review_match.group(1).replace(',', ''))] for the pattern
    [([\d,]+)]. *)
Definition _extract_review_count (soup : Soup) : Res (option Z) :=
  converted (fun g => Py.int (Py.remove "," g)) (sp_review_count soup).

(** [int(page_match.group(1))] for the pattern [(\d+)]. *)
Definition _extract_page_count (soup : Soup) : Res (option Z) :=
  converted Py.int (sp_page_count soup).

(** [float(rating_match.group(1))] for the pattern [([\d\.]+)]. *)
Definition _extract_review_rating (container : Review) : Res (option Q) :=
  converted Py.float (rv_rating container).

(** The dictionary of one review; the rating is extracted first. *)
Definition review_data (container : Review) : Res Py.Val :=
  match _extract_review_rating container with
  | Ok rating =>
      Ok (Py.VDict [
        ("rating", opt_num rating);
        ("title", Py.VStr (rv_title container));
        ("text", Py.VStr (rv_text container));
        ("author", Py.VStr (rv_author container));
        ("date", Py.VStr (rv_date container)) ])
  | Raise e => Raise e
  end.

(** The loop of [_scrape_reviews] over the containers. *)
Fixpoint review_loop (containers : list Review) (reviews : list Py.Val)
  : Res (list Py.Val) :=
  match containers with
  | [] => Ok reviews
  | container :: rest =>
      match review_data container with
      | Ok data => review_loop rest (reviews ++ [data])
      | Raise e => Raise e
      end
  end.

Definition _scrape_reviews (book_url : string) : M (list Py.Val) :=
  match find_asin_from book_url with
  | None => ret []
  | Some asin =>
      let reviews_url := base_url +:+ "/product-reviews/" +:+ asin in
      response <- _make_request reviews_url 3 false ;;
      match response with
      | None => ret []
      | Some response =>
          w <- get_world ;;
          let soup := lxml w (resp_text response) in
          lift (review_loop (firstn 10 (sp_reviews soup)) [])
      end
  end.

(** [if x:] for an optional number: present and not zero. *)
Definition some_nonzero (o : option Q) : bool :=
  match o with Some q => negb (Qeq_bool q 0) | None => false end.

Definition _scrape_book_details (book_url : string) : M (option Dict) :=
  response <- _make_request book_url 3 false ;;
  match response with
  | None => ret None
  | Some response =>
      w <- get_world ;;
      let soup := lxml w (resp_text response) in
      let asin := opt_str (find_asin_from book_url) in
      page_count <- lift (_extract_page_count soup) ;;
      let book_data : Dict := [
        ("type", Py.VStr "book");
        ("url", Py.VStr book_url);
        ("asin", asin);
        ("title", Py.VStr (sp_title soup));
        ("author", Py.VStr (sp_author soup));
        ("price", Py.VDict [("value", Py.VNone); ("currency", Py.VNone)]);
        ("listPrice", Py.VDict [("value", Py.VNone); ("currency", Py.VNone)]);
        ("rating", Py.VDict [("stars", Py.VNone); ("count", Py.VNone)]);
        ("description", Py.VStr (sp_description soup));
        ("features", Py.VList []);
        ("details", Py.VDict [
           ("publication_date", Py.VStr (sp_publication_date soup));
           ("page_count", opt_int page_count);
           ("language", Py.VStr (sp_language soup));
           ("isbn", Py.VStr (sp_isbn soup));
           ("publisher", Py.VNone);
           ("dimensions", Py.VNone) ]);
        ("categories", str_list (sp_categories soup));
        ("breadcrumbs", Py.VNone);
        ("images", Py.VDict [
           ("primary", Py.VStr (sp_image_url soup));
           ("thumbnails", Py.VList []) ]);
        ("availability", Py.VDict [("inStock", Py.VNone); ("stockText", Py.VNone)]);
        ("seller", Py.VDict [("name", Py.VNone); ("id", Py.VNone)]) ] in
      let old_price := sp_price soup in
      let book_data :=
        if some_nonzero old_price then
          dict_set_in "price" "currency" (Py.VStr "$")
            (dict_set_in "price" "value" (opt_num old_price) book_data)
        else book_data in
      old_rating <- lift (_extract_rating soup) ;;
      let book_data :=
        if some_nonzero old_rating then
          dict_set_in "rating" "stars" (opt_num old_rating) book_data
        else book_data in
      old_review_count <- lift (_extract_review_count soup) ;;
      let book_data :=
        if some_nonzero (option_map inject_Z old_review_count) then
          dict_set_in "rating" "count" (opt_int old_review_count) book_data
        else book_data in
      let book_data := _extract_enhanced_details soup book_data in
      o <- get_self ;;
      if default false (includeReviews (config o)) then
        reviews <- _scrape_reviews book_url ;;
        ret (Some (Py.dict_set "reviews" (Py.VList reviews) book_data))
      else ret (Some book_data)
  end.

(** [a <= v] where [a] is a number and the bound [b] of [v <= b] is a
    number or, when absent, [float('inf')]. *)
Definition le_bound (v : Py.Val) (b : option Q) : Res bool :=
  match b with
  | Some q => Py.le_num v q
  | None => match Py.as_number v with
            | Some _ => Ok true
            | None => Raise TypeError
            end
  end.

Definition _meets_criteria (cfg : Config) (book_data : Dict) : Res bool :=
  let min_rating := default 0%Q (minRating cfg) in
  let below :=
    match Py.dict_get "rating" book_data with
    | Some rating =>
        if Py.truthy rating then Py.lt_num rating min_rating else Ok false
    | None => Ok false
    end in
  match below with
  | Raise e => Raise e
  | Ok true => Ok false
  | Ok false =>
      let price_range :=
        default {| pr_min := None; pr_max := None |} (priceRange cfg) in
      match Py.dict_get "price" book_data with
      | Some price =>
          if Py.truthy price then
            let min_price := default 0%Q (pr_min price_range) in
            let max_price := pr_max price_range in
            match Py.num_le min_price price with
            | Raise e => Raise e
            | Ok false => Ok false
            | Ok true =>
                match le_bound price max_price with
                | Raise e => Raise e
                | Ok false => Ok false
                | Ok true => Ok true
                end
            end
          else Ok true
      | None => Ok true
      end
  end.

Definition books_section_url : string :=
  "https://www.amazon.com/books-used-books-textbooks/b?ie=UTF8&node=283155".

Definition is_200 (response : option Response) : bool :=
  match response with
  | Some r => status_code r =? 200
  | None => false
  end.

Definition _warm_up_session : M bool :=
  try_except
    (homepage_response <- _make_request "https://www.amazon.com" 3 true ;;
     if is_200 homepage_response then
       d <- random_uniform 2 5 ;;
       do asyncio_sleep WarmupPause d ;;
       u <- random_random ;;
       do (if Qlt_le_dec u 0.7 then
             books_response <- _make_request books_section_url 3 true ;;
             if is_200 books_response then
               d <- random_uniform 1 3 ;;
               asyncio_sleep WarmupPause d
             else ret tt
           else ret tt) ;;
       ret true
     else ret false)
    (fun _ => ret false).

(** The loop of [search_books] over the links, [i] counting them. *)
Fixpoint scrape_links (book_links : list string) (i : nat) (books : list Dict)
  : M (list Dict) :=
  match book_links with
  | [] => ret books
  | book_url :: rest =>
      o <- get_self ;;
      do when (0 <? i)%nat (asyncio_sleep ItemDelay (request_delay o)) ;;
      book_data <- _scrape_book_details book_url ;;
      books <-
        (match book_data with
         | Some data =>
             if Py.truthy (Py.VDict data) then
               keep <- lift (_meets_criteria (config o) data) ;;
               ret (if keep then books ++ [data] else books)
             else ret books
         | None => ret books
         end) ;;
      scrape_links rest (S i) books
  end.

(** [search_books] after its warm-up guard. *)
Definition search_warmed (search_term : string) (category : option string)
  : M (list Dict) :=
  o <- get_self ;;
  let search_url := _build_search_url (config o) search_term category in
  response <- _make_request search_url 3 false ;;
  match response with
  | None => ret []
  | Some response =>
      w <- get_world ;;
      let soup := lxml w (resp_text response) in
      let book_links := _extract_book_links soup in
      let max_results := default 100 (maxResults (config o)) in
      scrape_links (slice_to max_results book_links) 0 []
  end.

Definition search_books (search_term : string) (category : option string)
  : M (list Dict) :=
  o <- get_self ;;
  do when (negb (_session_warmed o))
       (do _warm_up_session ;; update_self (with_session_warmed true)) ;;
  search_warmed search_term category.

(** ** Observations on a run *)

(** The events of a run without the values that depend on the draws. *)
Inductive Kind :=
  | KSleep (why : Pause)
  | KGet (url : string)
  | KClose.

Definition kind (e : Event) : Kind :=
  match e with
  | Sleep why _ => KSleep why
  | Get url _ => KGet url
  | AClose => KClose
  end.

(** The [_adaptive_delay_strategy] calls behind a sequence of events, as
    pairs of the attempt and the error code they were given. *)
Definition adaptive_calls (t : list Event) : list (nat * option Z) :=
  flat_map (fun e => match e with
                     | Sleep (AdaptiveDelay a c) _ => [(a, c)]
                     | _ => []
                     end) t.

(** The events of [t'] that come after those of [t]. *)
Definition since (t t' : list Event) : list Event := skipn (length t) t'.

Definition failures (s : St) : Z := _consecutive_failures (self s).

(** The delay of [_adaptive_delay_strategy] before the cap, for the value
    [u] of [random.random()] behind its jitter. *)
Definition uncapped_delay (error_code : option Z) (attempt : nat) (u : Q) : Q :=
  if code_is error_code 503 then 2.0 * inject_Z (3 ^ Z.of_nat attempt) + (10 + (30 - 10) * u)
  else if code_is error_code 429 then 2.0 * inject_Z (2 ^ Z.of_nat attempt) + (15 + (45 - 15) * u)
  else if code_is error_code 403 then 2.0 * inject_Z (4 ^ Z.of_nat attempt) + (30 + (90 - 30) * u)
  else 2.0 * inject_Z (2 ^ Z.of_nat attempt) + (5 + (15 - 5) * u).

(** The first attempt whose power no longer fits a [float]: 3^647, 4^512
    and 2^1024 are the first powers of their base that reach [float_limit]. *)
Definition overflow_from (error_code : option Z) : nat :=
  if code_is error_code 503 then 647
  else if code_is error_code 429 then 1024
  else if code_is error_code 403 then 512
  else 1024.

(** Whether [_intelligent_backoff] resets the session. *)
Definition resets_session (consecutive_failures : Z) : bool :=
  (consecutive_failures =? 3) || (5 <? consecutive_failures).

(** ** Inputs for the examples *)

Definition plain_config : Config := {|
  requestDelay := None; maxResults := None; minRating := None;
  priceRange := None; sortBy := None; includeReviews := None |}.

Definition empty_page : Soup := {|
  book_hrefs := []; sp_title := "Unknown Title"; sp_author := "Unknown Author";
  sp_price := None; sp_rating := None; sp_review_count := None;
  sp_description := ""; sp_publication_date := ""; sp_page_count := None;
  sp_language := ""; sp_isbn := ""; sp_categories := []; sp_image_url := "";
  sp_features := []; sp_thumbnails := []; sp_availability := None;
  sp_seller := None; sp_publisher := None; sp_dimensions := None;
  sp_reviews := [] |}.

(** A page with one search result. *)
Definition result_page : Soup := {|
  book_hrefs := ["/Some-Book/dp/B012345678/ref=sr_1_1"];
  sp_title := "Some Book"; sp_author := "An Author";
  sp_price := Some 9.99%Q; sp_rating := Some "4.5"; sp_review_count := Some "12";
  sp_description := ""; sp_publication_date := ""; sp_page_count := None;
  sp_language := ""; sp_isbn := ""; sp_categories := []; sp_image_url := "";
  sp_features := []; sp_thumbnails := []; sp_availability := None;
  sp_seller := None; sp_publisher := None; sp_dimensions := None;
  sp_reviews := [] |}.

(** An answer with the given status, a harmless body and no headers. *)
Definition answer (code : Z) : Response := {|
  status_code := code; resp_headers := []; resp_cookies := ∅;
  resp_text := "<html>ok</html>"; resp_url := "https://www.amazon.com/dp/B012345678" |}.

(** A 429 answer that carries [Retry-After: 12]. *)
Definition rate_limited : Response := {|
  status_code := 429; resp_headers := [("retry-after", "12")];
  resp_cookies := ∅; resp_text := "<html>slow down</html>";
  resp_url := "https://www.amazon.com/dp/B012345678" |}.

(** A world whose random source always yields [u] and whose transport
    answers by [answers]. *)
Definition world_of (u : Q) (answers : nat -> Outcome) (page : Soup) : World := {|
  rng := fun _ => u; draws := 0; net := answers; sent := 0;
  lxml := fun _ => page; clock := 0; trace := [] |}.

(** A fresh scraper with [n] consecutive failures behind it. *)
Definition start (n : Z) (w : World) : St := {|
  self := with_consecutive_failures n (init plain_config);
  world := w; captcha_attempts := 0 |}.

Definition book_url : string := "https://www.amazon.com/dp/B012345678".

(** The transport of the scenario 503, 503, 200. *)
Definition two_503_then_200 (n : nat) : Outcome :=
  match n with
  | 0%nat | 1%nat => Resp (answer 503)
  | _ => Resp (answer 200)
  end.

(** A transport that answers 429 with [Retry-After: 12], then 200. *)
Definition one_429_then_200 (n : nat) : Outcome :=
  match n with
  | 0%nat => Resp rate_limited
  | _ => Resp (answer 200)
  end.

(** A server that answers 500 to every request. *)
Definition always_500 (n : nat) : Outcome := Resp (answer 500).

(** ** Notions for the proofs *)

(** [c] leaves the observation [f] of the state as it was, also when it
    raises. *)
Definition keeps {A X} (f : St -> X) (c : M A) : Prop :=
  forall s, f (snd (c s)) = f s.

(** [c] never raises. *)
Definition total {A} (c : M A) : Prop := forall s, exists a, fst (c s) = Ok a.

(** Postconditions: [wp c Q s] says that [Q] holds of the outcome and the
    final state of [c] run from [s]. *)
Definition wp {A} (c : M A) (Q : Res A -> St -> Prop) (s : St) : Prop :=
  Q (fst (c s)) (snd (c s)).

(** [n] more values taken from the random source. *)
Definition advance (n : nat) (w : World) : World :=
  {| rng := rng w; draws := n + draws w; net := net w; sent := sent w;
     lxml := lxml w; clock := clock w; trace := trace w |}.

(** [c] returns and only consumes randomness. *)
Definition quiet {A} (c : M A) : Prop :=
  forall s, exists a n, c s = (Ok a, set_world (advance n) s).

(** What the claims observe of a state: the object, the transport and what
    was sent to it, the events. *)
Definition obs (s : St)
  : Scraper * (nat -> Outcome) * nat * list Event :=
  (self s, net (world s), sent (world s), trace (world s)).

(** The counter after the response was handled. *)
Definition failures_after (r : Response) (before : Z) : Z :=
  if _is_captcha_page r then before + 1
  else if status_code r =? 200 then 0
  else if status_code r =? 404 then before
  else before + 1.

(** The pauses of the [try] block before the GET. *)
Definition before_get (attempt : nat) (error_code : option Z) : list Kind :=
  (if (0 <? attempt)%nat then [KSleep (AdaptiveDelay attempt error_code)] else [])
  ++ [KSleep HumanDelay].

(** What one pass through the loop body, [try] and [except] together,
    leaves behind. *)
Definition pass_post (max_retries : Z) (attempt : nat) (before : Z)
    (res : Res Ctl) (s' : St) : Prop :=
  match res with
  | Ok (Return (Some r)) =>
      failures s' = 0 /\ status_code r = 200 /\ _is_captcha_page r = false
  | Ok _ => before <= failures s'
  | Raise e =>
      before <= failures s' /\
      e = OverflowError /\ (1024 <= attempt)%nat /\
      Z.of_nat attempt < max_retries - 1
  end.

(** What [_make_request] leaves behind: a response with status 200, or
    nothing; an [OverflowError] needs an attempt 1024 that is not the last. *)
Definition fetch_post (max_retries : Z) (before : Z)
    (res : Res (option Response)) (s' : St) : Prop :=
  match res with
  | Ok (Some r) =>
      failures s' = 0 /\ status_code r = 200 /\ _is_captcha_page r = false
  | Ok None => before <= failures s'
  | Raise e => before <= failures s' /\ e = OverflowError /\ 1026 <= max_retries
  end.

(** The claim about the session reset, as the specification words it:
    cookies empty, last error code cleared, counter zeroed, client closed and
    open again, no request sent. *)
Definition reset_claim (s : St) : Prop :=
  let s' := snd (_reset_session_strategy s) in
  _session_cookies (self s') = ∅ /\
  _last_error_code (self s') = None /\
  failures s' = 0 /\
  since (trace (world s)) (trace (world s')) = [AClose] /\
  client_closed (self s') = false /\
  sent (world s') = sent (world s).

(** [adaptive_calls] read off the kinds of the events. *)
Definition adaptive_of_kind (k : Kind) : list (nat * option Z) :=
  match k with
  | KSleep (AdaptiveDelay a c) => [(a, c)]
  | _ => []
  end.

(** What the scenario leaves in the sequence of events. *)
Definition scenario_kinds (url : string) : list Kind :=
  [ KSleep HumanDelay; KGet url;
    KSleep (AdaptiveDelay 0 (Some 503));
    KSleep (AdaptiveDelay 1 (Some 503)); KSleep HumanDelay; KGet url;
    KSleep (AdaptiveDelay 1 (Some 503));
    KSleep (AdaptiveDelay 2 (Some 503)); KSleep HumanDelay; KGet url ].

(** The state after the rate limit was counted. *)
Definition counted_429 (s : St) : St :=
  set_self (fun o => with_consecutive_failures (_consecutive_failures o + 1) o)
    (set_self (with_last_error_code (Some 429)) s).

(** [d[k]] is a dictionary that is not empty. *)
Definition has_dict (k : string) (d : Dict) : Prop :=
  exists inner, Py.dict_get k d = Some (Py.VDict inner) /\ inner <> [].

(** What holds of a dictionary that [_scrape_book_details] returns. *)
Definition scraped (res : Res (option Dict)) : Prop :=
  match res with
  | Ok (Some book_data) => has_dict "rating" book_data /\ has_dict "price" book_data
  | _ => True
  end.

(** Whether the session was warmed up: [hasattr(self, '_session_warmed')]. *)
Definition warmed (s : St) : bool := _session_warmed (self s).

(** All requests among the events go to [url]. *)
Definition requests_only (url : string) (e : Event) : Prop :=
  match e with
  | Get u _ => u = url
  | _ => True
  end.

(** [c] adds events to the trace, each of which satisfies [P]. *)
Definition emits {A} (P : Event -> Prop) (c : M A) : Prop :=
  forall s, exists evs,
    trace (world (snd (c s))) = trace (world s) ++ evs /\ Forall P evs.

(** The events between the first request and the one after it. *)
Fixpoint until_get (t : list Event) : list Event :=
  match t with
  | [] => []
  | Get _ _ :: _ => []
  | e :: t' => e :: until_get t'
  end.

Fixpoint after_first_get (t : list Event) : list Event :=
  match t with
  | [] => []
  | Get _ _ :: t' => until_get t'
  | _ :: t' => after_first_get t'
  end.

(** The time slept in [evs], the pacing delay before a request aside. *)
Fixpoint backoff_wait (evs : list Event) : Q :=
  match evs with
  | [] => 0
  | Sleep HumanDelay _ :: evs' => backoff_wait evs'
  | Sleep _ d :: evs' => d + backoff_wait evs'
  | _ :: evs' => backoff_wait evs'
  end.

(** The claim about [Retry-After: 12], as the specification words it: the
    wait before the next attempt is 12 plus a buffer in [5,15] and the
    adaptive delay is not used. *)
Definition retry_after_claim (t : list Event) : Prop :=
  let evs := after_first_get t in
  (exists buffer : Q,
     (5 <= buffer <= 15)%Q /\ (backoff_wait evs == 12 + buffer)%Q) /\
  adaptive_calls evs = [].

(** The claim about the scenario 503, 503, 200, as the specification words
    it: the 200 response comes back, two delays of the 503 formula were
    applied, the counter ends at 0. *)
Definition scenario_claim (res : Res (option Response)) (evs : list Event)
    (s' : St) : Prop :=
  (exists r, res = Ok (Some r) /\ status_code r = 200) /\
  length (filter (fun ac => code_is (snd ac) 503) (adaptive_calls evs)) = 2%nat /\
  failures s' = 0.

(** ** Notions for the further properties

    What the statements after the claims need: predicates on
    characters, keys and events, the counters of requests, and the
    inputs of their examples. *)

(** Characters that have no meaning of their own in a query string: the
    unreserved ones, [+] and [%]. *)
Definition url_safe (c : ascii) : bool :=
  let n := N_of_ascii c in
  ((48 <=? n) && (n <=? 57) || (65 <=? n) && (n <=? 90)
   || (97 <=? n) && (n <=? 122)
   || (n =? 95) || (n =? 46) || (n =? 45) || (n =? 126)
   || (n =? 43) || (n =? 37))%N.

(** The [s] parameter that [_build_search_url] adds for a value of
    [sortBy]. *)
Definition sort_suffix (sort_by : option string) : string :=
  match sort_by with
  | None => ""
  | Some v =>
      if (v =? "relevance")%string then ""
      else if (v =? "price-low-to-high")%string then "&s=price-asc-rank"
      else if (v =? "price-high-to-low")%string then "&s=price-desc-rank"
      else if (v =? "avg-customer-review")%string then "&s=review-rank"
      else if (v =? "newest-arrivals")%string then "&s=date-desc-rank"
      else "&s=relevance"
  end.

Definition all_ascii : list ascii := map ascii_of_nat (seq 0 256).

(** A capital letter A-Z. *)
Definition is_capital (c : ascii) : bool :=
  let n := N_of_ascii c in ((65 <=? n) && (n <=? 90))%N.

(** What [re.search(r'/dp/([A-Z0-9]{10})', s)] finds when [s] starts with a
    match. *)
Definition asin_here (s : string) : option string :=
  if String.prefix "/dp/" s then
    let candidate := String.substring 4 10 s in
    if (String.length candidate =? 10)%nat
       && Py.all_chars is_asin_char candidate
    then Some candidate else None
  else None.

(** The keys that [_extract_enhanced_details] writes to. *)
Definition enhanced_keys : list string :=
  ["breadcrumbs"; "features"; "images"; "availability"; "seller"; "details"].

(** The keys of [book_data] as [_scrape_book_details] lays them out. *)
Definition book_keys : list string :=
  ["type"; "url"; "asin"; "title"; "author"; "price"; "listPrice"; "rating";
   "description"; "features"; "details"; "categories"; "breadcrumbs";
   "images"; "availability"; "seller"].

(** What stays through every run: the configuration and the request delay
    of the object, and the three tables of the world, which say what the
    random source will yield, what the transport will answer and what the
    parser makes of a text.  How far a run has read the tables ([draws],
    [sent]) and the state of the client are not among them. *)
Definition fixed (s : St)
  : Config * Q * (nat -> Q) * (nat -> Outcome) * (string -> Soup) :=
  (config (self s), request_delay (self s),
   rng (world s), net (world s), lxml (world s)).

(** The number of requests sent so far. *)
Definition nsent (s : St) : nat := sent (world s).

(** What everything but a request leaves alone. *)
Definition silent (s : St) := (fixed s, nsent s).

(** [c] sends at most [n] requests. *)
Definition sends {A} (n : nat) (c : M A) : Prop :=
  forall s, (nsent s <= nsent (snd (c s)) <= nsent s + n)%nat.

(** The bounds of the delay that [_handle_captcha_scenario] draws for the
    CAPTCHA of the given index. *)
Definition captcha_bounds (attempt : nat) : Q * Q :=
  match attempt with
  | 0%nat => (10, 20)
  | 1%nat => (30, 60)
  | 2%nat => (120, 300)
  | _ => (600, 1200)
  end%Q.

(** What a fetch of three attempts leaves in the sequence of events when
    every answer is a CAPTCHA page; [c1] and [c2] are the status codes of the
    first two answers. *)
Definition captcha_kinds (url : string) (c1 c2 : Z) : list Kind :=
  [ KSleep HumanDelay; KGet url; KSleep (CaptchaDelay 0);
    KSleep (AdaptiveDelay 1 (Some c1)); KSleep HumanDelay; KGet url;
    KSleep (CaptchaDelay 1);
    KSleep (AdaptiveDelay 2 (Some c2)); KSleep HumanDelay; KGet url;
    KSleep (CaptchaDelay 2) ].

(** An event that is neither a request nor a pacing delay. *)
Definition quiet_event (e : Event) : Prop :=
  match e with
  | Sleep HumanDelay _ => False
  | Get _ _ => False
  | _ => True
  end.

(** Sequences of events in which every request comes right after a pacing
    delay of [lo] seconds or more. *)
Inductive Paced (lo : Q) : list Event -> Prop :=
  | paced_nil : Paced lo []
  | paced_quiet e t : quiet_event e -> Paced lo t -> Paced lo (e :: t)
  | paced_get d url hdrs t :
      (lo <= d)%Q -> Paced lo t ->
      Paced lo (Sleep HumanDelay d :: Get url hdrs :: t).

(** The shortest pacing delay of a configuration: [request_delay * 0.8]. *)
Definition pacing_floor (cfg : Config) : Q := default 2%Q (requestDelay cfg) * 0.8.

(** [c] adds a paced sequence of events when it starts where the fixed part
    of the state is [F]. *)
Definition paces {A} (F : Config * Q * (nat -> Q) * (nat -> Outcome) * (string -> Soup))
    (lo : Q) (c : M A) : Prop :=
  forall s, fixed s = F ->
    exists evs, trace (world (snd (c s))) = trace (world s) ++ evs /\ Paced lo evs.

(** The headers that [_get_realistic_headers] never leaves out. *)
Definition steady_headers : list string :=
  ["User-Agent"; "Accept"; "Accept-Language"; "Accept-Encoding"; "Connection";
   "Sec-Fetch-Dest"; "Sec-Fetch-Mode"; "Sec-Fetch-Site"; "Sec-Fetch-User"].

(** The client hints that go with a Chrome user agent. *)
Definition client_hints : list string :=
  ["sec-ch-ua"; "sec-ch-ua-mobile"; "sec-ch-ua-platform"; "sec-ch-ua-arch";
   "sec-ch-ua-bitness"; "sec-ch-ua-full-version-list"].

Definition has_key (h : list (string * string)) (k : string) : bool :=
  match Py.dict_get k h with Some _ => true | None => false end.

(** [price], [listPrice], [rating] before anything is known. *)
Definition no_price : Py.Val := Py.VDict [("value", Py.VNone); ("currency", Py.VNone)].

(** The [price] entry for what [_extract_price] found. *)
Definition price_entry (old_price : option Q) : Py.Val :=
  if some_nonzero old_price
  then Py.VDict [("value", opt_num old_price); ("currency", Py.VStr "$")]
  else no_price.

(** The [rating] entry for what [_extract_rating] and
    [_extract_review_count] found. *)
Definition rating_entry (old_rating : option Q) (old_review_count : option Z)
  : Py.Val :=
  Py.VDict [
    ("stars", if some_nonzero old_rating then opt_num old_rating else Py.VNone);
    ("count", if some_nonzero (option_map inject_Z old_review_count)
              then opt_int old_review_count else Py.VNone) ].

(** [book_data] as [_scrape_book_details] has it before
    [_extract_enhanced_details] and the reviews: the literal of the source
    with the price and the rating written in, for the numbers that the
    helpers returned. *)
Definition initial_book_data (book_url : string) (soup : Soup)
    (page_count : option Z) (old_rating : option Q) (old_review_count : option Z)
  : Dict :=
  let book_data : Dict := [
    ("type", Py.VStr "book");
    ("url", Py.VStr book_url);
    ("asin", opt_str (find_asin_from book_url));
    ("title", Py.VStr (sp_title soup));
    ("author", Py.VStr (sp_author soup));
    ("price", Py.VDict [("value", Py.VNone); ("currency", Py.VNone)]);
    ("listPrice", Py.VDict [("value", Py.VNone); ("currency", Py.VNone)]);
    ("rating", Py.VDict [("stars", Py.VNone); ("count", Py.VNone)]);
    ("description", Py.VStr (sp_description soup));
    ("features", Py.VList []);
    ("details", Py.VDict [
       ("publication_date", Py.VStr (sp_publication_date soup));
       ("page_count", opt_int page_count);
       ("language", Py.VStr (sp_language soup));
       ("isbn", Py.VStr (sp_isbn soup));
       ("publisher", Py.VNone);
       ("dimensions", Py.VNone) ]);
    ("categories", str_list (sp_categories soup));
    ("breadcrumbs", Py.VNone);
    ("images", Py.VDict [
       ("primary", Py.VStr (sp_image_url soup));
       ("thumbnails", Py.VList []) ]);
    ("availability", Py.VDict [("inStock", Py.VNone); ("stockText", Py.VNone)]);
    ("seller", Py.VDict [("name", Py.VNone); ("id", Py.VNone)]) ] in
  let book_data :=
    if some_nonzero (sp_price soup) then
      dict_set_in "price" "currency" (Py.VStr "$")
        (dict_set_in "price" "value" (opt_num (sp_price soup)) book_data)
    else book_data in
  let book_data :=
    if some_nonzero old_rating then
      dict_set_in "rating" "stars" (opt_num old_rating) book_data
    else book_data in
  if some_nonzero (option_map inject_Z old_review_count) then
    dict_set_in "rating" "count" (opt_int old_review_count) book_data
  else book_data.

(** The characters that the pattern [[\d\.]+] takes, and those that
    [[\d,]+] takes. *)
Definition digit_or_point (c : ascii) : bool := Py.is_decimal c || Ascii.eqb c ".".

Definition digit_or_comma (c : ascii) : bool := Py.is_decimal c || Ascii.eqb c ",".

(** [s.count(c)] for a single character [c]. *)
Fixpoint count_char (c : ascii) (s : string) : nat :=
  match s with
  | EmptyString => 0
  | String x s' => (if Ascii.eqb x c then 1 else 0) + count_char c s'
  end.

(** A review whose rating is a text that [float] does not read. *)
Definition unreadable_rating (container : Review) : bool :=
  match _extract_review_rating container with
  | Ok _ => false
  | Raise _ => true
  end.

(** The three numbers that [_scrape_book_details] converts, pages, rating
    and number of reviews, are absent or texts that [int] and [float]
    read. *)
Definition numbers_readable (soup : Soup) : bool :=
  match _extract_page_count soup, _extract_rating soup,
        _extract_review_count soup with
  | Ok _, Ok _, Ok _ => true
  | _, _, _ => false
  end.

(** The requests of the warm-up go to the home page or to the books
    section. *)
Definition warm_up_request (e : Event) : Prop :=
  match e with
  | Get url _ => url = "https://www.amazon.com" \/ url = books_section_url
  | _ => True
  end.

(** The first attempt at which the delay of [_adaptive_delay_strategy]
    is above the cap of 600 seconds whatever the jitter. *)
Definition saturated_from (error_code : option Z) : nat :=
  if code_is error_code 503 then 6
  else if code_is error_code 429 then 9
  else if code_is error_code 403 then 5
  else 9.

(** What the filter of [_meets_criteria] asks of a number: it is 0, which
    counts as missing, or it lies between the bounds. *)
Definition passes (x lo : Q) (hi : option Q) : bool :=
  Qeq_bool x 0
  || (Qle_bool lo x && match hi with Some h => Qle_bool x h | None => true end).

(** ** [main]: the books without duplicates *)

(** What can go wrong when a book is looked up in the set of the URLs seen:
    the book has no [url] ([KeyError]), or its [url] is a list or a
    dictionary, which cannot be hashed ([TypeError]). *)
Inductive UrlError := KeyError | Unhashable.

Definition hashable (v : Py.Val) : bool :=
  match v with
  | Py.VList _ | Py.VDict _ => false
  | _ => true
  end.

(** [a == b] for values that can be hashed: numbers and truth values compare
    as numbers, strings as strings, [None] equals itself only. *)
Definition py_eqb (a b : Py.Val) : bool :=
  match a, b with
  | Py.VNone, Py.VNone => true
  | Py.VStr x, Py.VStr y => (x =? y)%string
  | _, _ =>
      match Py.as_number a, Py.as_number b with
      | Some x, Some y => Qeq_bool x y
      | _, _ => false
      end
  end.

(** The loop of [main] over [all_books]: a book goes to [unique_books] when
    its URL is not in [seen_urls], and its URL is added to the set. *)
Fixpoint unique_books_loop (all_books unique_books : list Dict)
    (seen_urls : list Py.Val) : UrlError + list Dict :=
  match all_books with
  | [] => inr unique_books
  | book :: rest =>
      match Py.dict_get "url" book with
      | None => inl KeyError
      | Some url =>
          if hashable url then
            if existsb (py_eqb url) seen_urls
            then unique_books_loop rest unique_books seen_urls
            else unique_books_loop rest (unique_books ++ [book]) (seen_urls ++ [url])
          else inl Unhashable
      end
  end.

Definition unique_books (all_books : list Dict) : UrlError + list Dict :=
  unique_books_loop all_books [] [].

(** The URL of a book that [_scrape_book_details] returned: a string. *)
Definition url_of (book : Dict) : option string :=
  match Py.dict_get "url" book with
  | Some (Py.VStr u) => Some u
  | _ => None
  end.

(** The page of a free book that is out of stock, with a thumbnail that
    comes twice and one without source. *)
Definition detail_page : Soup := {|
  book_hrefs := []; sp_title := "A Free Book"; sp_author := "An Author";
  sp_price := Some 0%Q; sp_rating := Some "4.5"; sp_review_count := Some "0";
  sp_description := ""; sp_publication_date := ""; sp_page_count := None;
  sp_language := ""; sp_isbn := ""; sp_categories := []; sp_image_url := "";
  sp_features := [];
  sp_thumbnails := ["/img/1.jpg"; ""; "/img/1.jpg"; "/img/2.jpg"];
  sp_availability := Some "Currently unavailable.";
  sp_seller := None; sp_publisher := None; sp_dimensions := None;
  sp_reviews := [] |}.

(** A page on which the patterns of the helpers take more than a number:
    the rating with the point that ends its sentence, and a comma for the
    number of reviews. *)
Definition odd_numbers_page : Soup := {|
  book_hrefs := []; sp_title := "Some Book"; sp_author := "An Author";
  sp_price := Some 9.99%Q; sp_rating := Some "4.5."; sp_review_count := Some ",";
  sp_description := ""; sp_publication_date := ""; sp_page_count := None;
  sp_language := ""; sp_isbn := ""; sp_categories := []; sp_image_url := "";
  sp_features := []; sp_thumbnails := []; sp_availability := None;
  sp_seller := None; sp_publisher := None; sp_dimensions := None;
  sp_reviews := [] |}.

(** An answer with status 200 that asks for the characters of an image. *)
Definition captcha_page : Response := {|
  status_code := 200; resp_headers := []; resp_cookies := ∅;
  resp_text := "<html>Enter the characters you see below</html>";
  resp_url := "https://www.amazon.com/dp/B012345678" |}.

(** A world in which every request is answered by 200. *)
Definition friendly (page : Soup) : World :=
  world_of 0.5 (fun _ => Resp (answer 200)) page.

(** Three books, the third with the URL of the first. *)
Definition three_books : list Dict :=
  [ [("url", Py.VStr "https://www.amazon.com/dp/B000000001"); ("title", Py.VStr "One")];
    [("url", Py.VStr "https://www.amazon.com/dp/B000000002"); ("title", Py.VStr "Two")];
    [("url", Py.VStr "https://www.amazon.com/dp/B000000001"); ("title", Py.VStr "One again")] ].

(** * Proofs *)

Create HintDb keeps.
Create HintDb total.

(** ** Reasoning about runs *)

Section Keeps.
Context {X : Type} (f : St -> X).

Lemma keeps_ret {A} (a : A) : keeps f (ret a).
Proof. intros s. reflexivity. Qed.

Lemma keeps_raise {A} (e : Exn) : keeps f (@raise A e).
Proof. intros s. reflexivity. Qed.

Lemma keeps_lift {A} (r : Res A) : keeps f (lift r).
Proof. intros s. reflexivity. Qed.

Lemma keeps_bind {A B} (c : M A) (k : A -> M B) :
  keeps f c -> (forall a, keeps f (k a)) -> keeps f (bind c k).
Proof.
  intros Hc Hk s. unfold bind. specialize (Hc s).
  destruct (c s) as [[a|e] s1]; cbn in *; [rewrite Hk|]; exact Hc.
Qed.

Lemma keeps_try {A} (body : M A) (handler : Exn -> M A) :
  keeps f body -> (forall e, keeps f (handler e)) ->
  keeps f (try_except body handler).
Proof.
  intros Hc Hk s. unfold try_except. specialize (Hc s).
  destruct (body s) as [[a|e] s1]; cbn in *; [|rewrite Hk]; exact Hc.
Qed.

Lemma keeps_when (b : bool) (c : M unit) : keeps f c -> keeps f (when b c).
Proof. destruct b; [trivial | intros _ s; reflexivity]. Qed.

Lemma keeps_update_world (g : World -> World) :
  (forall s, f (set_world g s) = f s) -> keeps f (update_world g).
Proof. intros H s. apply H. Qed.

Lemma keeps_update_self (g : Scraper -> Scraper) :
  (forall s, f (set_self g s) = f s) -> keeps f (update_self g).
Proof. intros H s. apply H. Qed.

Lemma keeps_get_self : keeps f get_self.
Proof. intros s. reflexivity. Qed.

Lemma keeps_get_world : keeps f get_world.
Proof. intros s. reflexivity. Qed.
End Keeps.

(** One step of a proof that [c] keeps an observation: follow the shape of
    [c]. *)
Ltac keeps_step :=
  lazymatch goal with
  | |- keeps _ (bind _ _) => apply keeps_bind; [|intros ?]
  | |- keeps _ (try_except _ _) => apply keeps_try; [|intros ?]
  | |- keeps _ (when _ _) => apply keeps_when
  | |- keeps _ (ret _) => apply keeps_ret
  | |- keeps _ (raise _) => apply keeps_raise
  | |- keeps _ (lift _) => apply keeps_lift
  | |- keeps _ get_self => apply keeps_get_self
  | |- keeps _ get_world => apply keeps_get_world
  | |- keeps _ (update_world _) => apply keeps_update_world; intros ?; reflexivity
  | |- keeps _ (update_self _) => apply keeps_update_self; intros ?; reflexivity
  | |- keeps _ (if ?b then _ else _) => destruct b
  | |- keeps _ (match ?x with _ => _ end) => destruct x
  | |- keeps _ _ => solve [auto with keeps]
  end.

Ltac keeps_auto := repeat keeps_step.


(** What only touches the world keeps the scraper object. *)
Lemma keeps_self_random : keeps self random_random.
Proof. unfold random_random. keeps_auto. Qed.
#[local] Hint Resolve keeps_self_random : keeps.

Lemma keeps_self_uniform (a b : Q) : keeps self (random_uniform a b).
Proof. unfold random_uniform. keeps_auto. Qed.
#[local] Hint Resolve keeps_self_uniform : keeps.

Lemma keeps_self_choice {A} (d : A) (l : list A) : keeps self (random_choice d l).
Proof. unfold random_choice. keeps_auto. Qed.
#[local] Hint Resolve keeps_self_choice : keeps.

Lemma keeps_self_sleep (why : Pause) (d : Q) : keeps self (asyncio_sleep why d).
Proof. unfold asyncio_sleep. keeps_auto. Qed.
#[local] Hint Resolve keeps_self_sleep : keeps.

Lemma keeps_self_get (url : string) (h : list (string * string)) :
  keeps self (client_get url h).
Proof. unfold client_get. keeps_auto. Qed.
#[local] Hint Resolve keeps_self_get : keeps.

Lemma keeps_self_headers (url : string) : keeps self (_get_realistic_headers url).
Proof. unfold _get_realistic_headers. keeps_auto. Qed.
#[local] Hint Resolve keeps_self_headers : keeps.

Lemma keeps_self_adaptive (a : nat) (c : option Z) :
  keeps self (_adaptive_delay_strategy a c).
Proof. unfold _adaptive_delay_strategy, exponential_delay. keeps_auto. Qed.
#[local] Hint Resolve keeps_self_adaptive : keeps.

Lemma keeps_self_captcha (r : Response) (a : nat) :
  keeps self (_handle_captcha_scenario r a).
Proof. unfold _handle_captcha_scenario. keeps_auto. Qed.
#[local] Hint Resolve keeps_self_captcha : keeps.

Lemma keeps_self_send (url : string) (a : nat) : keeps self (send_attempt url a).
Proof. unfold send_attempt. keeps_auto. Qed.
#[local] Hint Resolve keeps_self_send : keeps.

Lemma total_ret {A} (a : A) : total (ret a).
Proof. intros s. by exists a. Qed.

Lemma total_bind {A B} (c : M A) (k : A -> M B) :
  total c -> (forall a, total (k a)) -> total (bind c k).
Proof.
  intros Hc Hk s. unfold bind. destruct (Hc s) as [a Ha].
  destruct (c s) as [[a'|e] s1]; cbn in Ha; [apply Hk | discriminate].
Qed.

Lemma total_try {A} (body : M A) (handler : Exn -> M A) :
  (forall e, total (handler e)) -> total (try_except body handler).
Proof.
  intros Hk s. unfold try_except.
  destruct (body s) as [[a|e] s1]; [by exists a | apply Hk].
Qed.

Lemma total_when (b : bool) (c : M unit) : total c -> total (when b c).
Proof. destruct b; [trivial | intros _ s; by exists tt]. Qed.

Lemma total_update_world (g : World -> World) : total (update_world g).
Proof. intros s. by exists tt. Qed.

Lemma total_update_self (g : Scraper -> Scraper) : total (update_self g).
Proof. intros s. by exists tt. Qed.

Lemma total_get_self : total get_self.
Proof. intros s. by eexists. Qed.

Lemma total_get_world : total get_world.
Proof. intros s. by eexists. Qed.

Ltac total_step :=
  lazymatch goal with
  | |- total (bind _ _) => apply total_bind; [|intros ?]
  | |- total (try_except _ _) => apply total_try; intros ?
  | |- total (when _ _) => apply total_when
  | |- total (ret _) => apply total_ret
  | |- total get_self => apply total_get_self
  | |- total get_world => apply total_get_world
  | |- total (update_world _) => apply total_update_world
  | |- total (update_self _) => apply total_update_self
  | |- total (if ?b then _ else _) => destruct b
  | |- total (match ?x with _ => _ end) => destruct x
  | |- total _ => solve [auto with total]
  end.

Ltac total_auto := repeat total_step.


Lemma total_random : total random_random.
Proof. unfold random_random. total_auto. Qed.
#[local] Hint Resolve total_random : total.

Lemma total_uniform (a b : Q) : total (random_uniform a b).
Proof. unfold random_uniform. total_auto. Qed.
#[local] Hint Resolve total_uniform : total.

Lemma total_choice {A} (d : A) (l : list A) : total (random_choice d l).
Proof. unfold random_choice. total_auto. Qed.
#[local] Hint Resolve total_choice : total.

Lemma total_sleep (why : Pause) (d : Q) : total (asyncio_sleep why d).
Proof. unfold asyncio_sleep. total_auto. Qed.
#[local] Hint Resolve total_sleep : total.

Lemma total_headers (url : string) : total (_get_realistic_headers url).
Proof. unfold _get_realistic_headers. total_auto. Qed.
#[local] Hint Resolve total_headers : total.

Lemma total_captcha (r : Response) (a : nat) : total (_handle_captcha_scenario r a).
Proof. unfold _handle_captcha_scenario. total_auto. Qed.
#[local] Hint Resolve total_captcha : total.

Lemma total_reset : total _reset_session_strategy.
Proof. unfold _reset_session_strategy. total_auto. Qed.
#[local] Hint Resolve total_reset : total.

Lemma total_backoff (n : Z) : total (_intelligent_backoff n).
Proof. unfold _intelligent_backoff. total_auto. Qed.
#[local] Hint Resolve total_backoff : total.

Lemma keeps_self_failures {A} (c : M A) : keeps self c -> keeps failures c.
Proof. intros H s. unfold failures. by rewrite H. Qed.

Lemma keeps_failures_reset : keeps failures _reset_session_strategy.
Proof. intros s. reflexivity. Qed.
#[local] Hint Resolve keeps_failures_reset : keeps.

Lemma keeps_failures_uniform (a b : Q) : keeps failures (random_uniform a b).
Proof. apply keeps_self_failures; auto with keeps. Qed.
#[local] Hint Resolve keeps_failures_uniform : keeps.

Lemma keeps_failures_sleep (why : Pause) (d : Q) : keeps failures (asyncio_sleep why d).
Proof. apply keeps_self_failures; auto with keeps. Qed.
#[local] Hint Resolve keeps_failures_sleep : keeps.

Lemma keeps_failures_backoff (n : Z) : keeps failures (_intelligent_backoff n).
Proof. unfold _intelligent_backoff. keeps_auto. Qed.
#[local] Hint Resolve keeps_failures_backoff : keeps.

Lemma keeps_failures_adaptive (a : nat) (c : option Z) :
  keeps failures (_adaptive_delay_strategy a c).
Proof. apply keeps_self_failures; auto with keeps. Qed.
#[local] Hint Resolve keeps_failures_adaptive : keeps.

Lemma keeps_failures_captcha (r : Response) (a : nat) :
  keeps failures (_handle_captcha_scenario r a).
Proof. apply keeps_self_failures; auto with keeps. Qed.
#[local] Hint Resolve keeps_failures_captcha : keeps.

Lemma keeps_failures_send (url : string) (a : nat) :
  keeps failures (send_attempt url a).
Proof. apply keeps_self_failures; auto with keeps. Qed.
#[local] Hint Resolve keeps_failures_send : keeps.

Lemma wp_bind {A B} (c : M A) (k : A -> M B) (Q : Res B -> St -> Prop) s :
  wp c (fun r s' => match r with
                    | Ok a => wp (k a) Q s'
                    | Raise e => Q (Raise e) s'
                    end) s ->
  wp (bind c k) Q s.
Proof. unfold wp, bind. destruct (c s) as [[a|e] s1]; trivial. Qed.

Lemma wp_try {A} (body : M A) (handler : Exn -> M A) (Q : Res A -> St -> Prop) s :
  wp body (fun r s' => match r with
                       | Ok a => Q (Ok a) s'
                       | Raise e => wp (handler e) Q s'
                       end) s ->
  wp (try_except body handler) Q s.
Proof. unfold wp, try_except. destruct (body s) as [[a|e] s1]; trivial. Qed.

Lemma wp_keeps {A X} (f : St -> X) (c : M A) (Q : Res A -> St -> Prop) s :
  keeps f c -> (forall r s', f s' = f s -> Q r s') -> wp c Q s.
Proof. intros H HQ. apply HQ, H. Qed.

Lemma wp_total_keeps {A X} (f : St -> X) (c : M A) (Q : Res A -> St -> Prop) s :
  total c -> keeps f c -> (forall a s', f s' = f s -> Q (Ok a) s') -> wp c Q s.
Proof.
  intros Ht H HQ. unfold wp. destruct (Ht s) as [a Ha]. rewrite Ha. apply HQ, H.
Qed.

Lemma wp_when (b : bool) (c : M unit) (Q : Res unit -> St -> Prop) s :
  (if b then wp c Q s else Q (Ok tt) s) -> wp (when b c) Q s.
Proof. destruct b; trivial. Qed.

Ltac wp_keep f :=
  eapply (wp_keeps f); [solve [auto with keeps | keeps_auto] | intros ? ? ?].

Ltac wp_call f :=
  eapply (wp_total_keeps f);
  [solve [auto with total | total_auto] | solve [auto with keeps | keeps_auto]
  | intros ? ? ?].

Lemma classify_failures (max_retries : Z) (attempt : nat) (r : Response) (s : St) :
  failures (snd (classify max_retries attempt r s)) = failures_after r (failures s).
Proof.
  change (wp (classify max_retries attempt r)
            (fun _ s' => failures s' = failures_after r (failures s)) s).
  unfold classify, failures_after.
  apply wp_bind; unfold wp at 1; cbn [fst snd update_self].
  destruct (_is_captcha_page r).
  { apply wp_bind; unfold wp at 1; cbn [fst snd next_captcha_attempt].
    apply wp_bind. wp_call failures.
    destruct (a && _); repeat (apply wp_bind; unfold wp at 1; cbn);
      unfold wp; cbn; unfold failures in *; cbn in *; lia. }
  destruct (Z.eqb_spec (status_code r) 200) as [E|_].
  { repeat (apply wp_bind; unfold wp at 1; cbn [fst snd update_self datetime_now get_world bind ret]).
    apply wp_when. destruct (negb _); reflexivity. }
  assert (Hplus : forall (k : M Ctl) (c : M unit),
            keeps failures c ->
            (forall s1, failures s1 = failures s + 1 ->
                        wp k (fun _ s' => failures s' = failures s + 1) s1) ->
            wp (do incr_failures ;; do c ;; k)
               (fun _ s' => failures s' = failures s + 1)
               (set_self (with_last_error_code (Some (status_code r))) s)).
  { intros k c Hc Hk.
    apply wp_bind; unfold wp at 1; cbn [fst snd incr_failures update_self].
    apply wp_bind. eapply (wp_keeps failures); [exact Hc|]. intros r0 s1 H1.
    assert (failures s1 = failures s + 1) as E1 by (rewrite H1; reflexivity).
    destruct r0; [apply Hk|]; exact E1. }
  destruct (Z.eqb_spec (status_code r) 503) as [E|_].
  { destruct (Z.eqb_spec (status_code r) 404) as [E4|_]; [lia|]. apply Hplus; [keeps_auto|]. intros s1 H1; exact H1. }
  destruct (Z.eqb_spec (status_code r) 429) as [E|_].
  { destruct (Z.eqb_spec (status_code r) 404) as [E4|_]; [lia|]. apply Hplus; [keeps_auto|]. intros s1 H1; exact H1. }
  destruct (Z.eqb_spec (status_code r) 403) as [E|_].
  { destruct (Z.eqb_spec (status_code r) 404) as [E4|_]; [lia|].
    apply Hplus; [keeps_auto|]. intros s1 H1; exact H1. }
  destruct (Z.eqb_spec (status_code r) 404) as [E|_]; [reflexivity|].
  apply Hplus; [keeps_auto|]. intros s1 H1; exact H1.
Qed.

(** ** Adaptive delay *)

Lemma power_fits (b : Z) (k a : nat) :
  0 < b ->
  b ^ Z.of_nat (k - 1) < Py.float_limit ->
  Py.float_limit <= b ^ Z.of_nat k ->
  (Z.abs (b ^ Z.of_nat a) <? Py.float_limit) = negb (k <=? a)%nat.
Proof.
  intros Hb Hlo Hhi.
  rewrite Z.abs_eq by (apply Z.pow_nonneg; lia).
  destruct (Nat.leb_spec k a) as [Hka|Hka]; cbn [negb].
  - apply Z.ltb_ge. etrans; [exact Hhi|]. apply Z.pow_le_mono_r; lia.
  - apply Z.ltb_lt. eapply Z.le_lt_trans; [|exact Hlo].
    apply Z.pow_le_mono_r; lia.
Qed.

Lemma exponential_delay_run (b : Z) (k a : nat) (lo hi : Q) (s : St) :
  0 < b ->
  b ^ Z.of_nat (k - 1) < Py.float_limit ->
  Py.float_limit <= b ^ Z.of_nat k ->
  exponential_delay 2.0 b a lo hi s =
  if (k <=? a)%nat then (Raise OverflowError, s)
  else (Ok (2.0 * inject_Z (b ^ Z.of_nat a)
            + (lo + (hi - lo) * rng (world s) (draws (world s))))%Q,
        set_world drawn s).
Proof.
  intros Hb Hlo Hhi. unfold exponential_delay, bind, lift, Py.float_of_int.
  rewrite (power_fits b k a Hb Hlo Hhi).
  destruct (k <=? a)%nat; reflexivity.
Qed.

Lemma adaptive_delay_run (attempt : nat) (error_code : option Z) (s : St) :
  _adaptive_delay_strategy attempt error_code s =
  if (overflow_from error_code <=? attempt)%nat then (Raise OverflowError, s)
  else
    let d := Py.min (uncapped_delay error_code attempt
                       (rng (world s) (draws (world s)))) 600 in
    (Ok tt,
     set_world (fun w => elapsed d (emit (Sleep (AdaptiveDelay attempt error_code) d)
                                         (drawn w))) s).
Proof.
  unfold _adaptive_delay_strategy, overflow_from, uncapped_delay.
  unfold bind at 1.
  destruct (code_is error_code 503);
    [|destruct (code_is error_code 429); [|destruct (code_is error_code 403)]].
  - rewrite (exponential_delay_run 3 647) by (vm_compute; reflexivity || discriminate).
    destruct (647 <=? attempt)%nat; reflexivity.
  - rewrite (exponential_delay_run 2 1024) by (vm_compute; reflexivity || discriminate).
    destruct (1024 <=? attempt)%nat; reflexivity.
  - rewrite (exponential_delay_run 4 512) by (vm_compute; reflexivity || discriminate).
    destruct (512 <=? attempt)%nat; reflexivity.
  - rewrite (exponential_delay_run 2 1024) by (vm_compute; reflexivity || discriminate).
    destruct (1024 <=? attempt)%nat; reflexivity.
Qed.

Lemma min_cap (x : Q) : (Py.min x 600 <= 600)%Q.
Proof. unfold Py.min. destruct (Qlt_le_dec 600 x); lra. Qed.

Lemma uncapped_delay_step (error_code : option Z) (attempt : nat) (u : Q) :
  (uncapped_delay error_code attempt u <= uncapped_delay error_code (S attempt) u)%Q.
Proof.
  assert (H : forall b, 0 < b ->
      (inject_Z (b ^ Z.of_nat attempt) <= inject_Z (b ^ Z.of_nat (S attempt)))%Q).
  { intros b Hb. rewrite <- Zle_Qle. apply Z.pow_le_mono_r; lia. }
  unfold uncapped_delay.
  destruct (code_is error_code 503);
    [|destruct (code_is error_code 429); [|destruct (code_is error_code 403)]].
  - specialize (H 3 ltac:(lia)). lra.
  - specialize (H 2 ltac:(lia)). lra.
  - specialize (H 4 ltac:(lia)). lra.
  - specialize (H 2 ltac:(lia)). lra.
Qed.

Lemma uncapped_delay_mono (error_code : option Z) (attempt more : nat) (u : Q) :
  (uncapped_delay error_code attempt u
   <= uncapped_delay error_code (attempt + more) u)%Q.
Proof.
  induction more as [|more IH].
  - rewrite Nat.add_0_r. lra.
  - rewrite Nat.add_succ_r. eapply Qle_trans; [exact IH|]. apply uncapped_delay_step.
Qed.

(** C4: for every error code and attempt, and for the draw [u] behind the
    jitter, the delay before the cap does not decrease when the attempt
    grows, the delay after the cap is at most 600, and the call does nothing
    but take one draw and sleep for [min (uncapped_delay ...) 600], a function
    of the error code, the attempt and the draw alone.  From the attempt
    [overflow_from error_code] on (647 for 503, 512 for 403, 1024 otherwise)
    no delay is computed: the call raises [OverflowError] and changes
    nothing. *)
Theorem adaptive_delay_properties (error_code : option Z) (attempt more : nat) (s : St) :
  let u := rng (world s) (draws (world s)) in
  let d := Py.min (uncapped_delay error_code attempt u) 600 in
  (uncapped_delay error_code attempt u
   <= uncapped_delay error_code (attempt + more) u)%Q /\
  (d <= 600)%Q /\
  _adaptive_delay_strategy attempt error_code s =
    if (overflow_from error_code <=? attempt)%nat then (Raise OverflowError, s)
    else (Ok tt,
          set_world (fun w => elapsed d (emit (Sleep (AdaptiveDelay attempt error_code) d)
                                              (drawn w))) s).
Proof.
  intros u d. split; [apply uncapped_delay_mono|]. split; [apply min_cap|].
  apply adaptive_delay_run.
Qed.

(** ** The retry loop *)

Lemma classify_returns (max_retries : Z) (attempt : nat) (r r' : Response) (s : St) :
  fst (classify max_retries attempt r s) = Ok (Return (Some r')) ->
  r' = r /\ status_code r = 200 /\ _is_captcha_page r = false.
Proof.
  change (wp (classify max_retries attempt r)
            (fun res _ => res = Ok (Return (Some r')) ->
                          r' = r /\ status_code r = 200 /\ _is_captcha_page r = false) s).
  unfold classify.
  apply wp_bind; unfold wp at 1; cbn [fst snd update_self].
  destruct (_is_captcha_page r).
  { apply wp_bind; unfold wp at 1; cbn [fst snd next_captcha_attempt].
    apply wp_bind. wp_call failures.
    destruct (a && _); unfold wp; cbn; discriminate. }
  assert (Hgo : forall (c : M unit) (s1 : St),
            wp (do incr_failures ;; do c ;; ret Continue)
               (fun res _ => res = Ok (Return (Some r')) ->
                  r' = r /\ status_code r = 200 /\ false = false) s1).
  { intros c s1.
    apply wp_bind; unfold wp at 1; cbn [fst snd incr_failures update_self].
    apply wp_bind. unfold wp at 1. destruct (c _) as [[[]|e] s2]; cbn; discriminate. }
  destruct (Z.eqb_spec (status_code r) 200) as [E|_].
  { repeat (apply wp_bind; unfold wp at 1; cbn [fst snd update_self datetime_now get_world bind ret]).
    unfold wp. destruct (when _ _ _) as [[[]|e] s2]; cbn; [|discriminate].
    intros [= ->]. auto. }
  destruct (status_code r =? 503); [apply Hgo|].
  destruct (status_code r =? 429); [apply Hgo|].
  destruct (status_code r =? 403); [apply Hgo|].
  destruct (status_code r =? 404); [unfold wp; cbn; discriminate|].
  apply Hgo.
Qed.

(** A response with status 200 that is no CAPTCHA page is returned. *)
Lemma classify_success (max_retries : Z) (attempt : nat) (r : Response) (s : St) :
  status_code r = 200 -> _is_captcha_page r = false ->
  fst (classify max_retries attempt r s) = Ok (Return (Some r)).
Proof.
  intros E Hc. unfold classify. unfold bind at 1; cbn [update_self].
  rewrite Hc, E. cbn [Z.eqb Pos.eqb].
  unfold bind; cbn [update_self datetime_now get_world ret fst snd].
  destruct (negb _); reflexivity.
Qed.

Lemma wp_adaptive (attempt : nat) (error_code : option Z)
    (Q : Res unit -> St -> Prop) (s : St) :
  (forall s', failures s' = failures s ->
     if (overflow_from error_code <=? attempt)%nat
     then Q (Raise OverflowError) s' else Q (Ok tt) s') ->
  wp (_adaptive_delay_strategy attempt error_code) Q s.
Proof.
  intros H. unfold wp.
  pose proof (keeps_failures_adaptive attempt error_code s) as Hk.
  specialize (H (snd (_adaptive_delay_strategy attempt error_code s)) Hk).
  rewrite adaptive_delay_run in *.
  destruct (overflow_from error_code <=? attempt)%nat; exact H.
Qed.

Lemma attempt_except_spec (max_retries : Z) (attempt : nat) (e : Exn) (s : St) :
  wp (attempt_except max_retries attempt e)
     (fun res s' =>
        failures s' = failures s + 1 /\
        match res with
        | Ok Continue | Ok (Return None) => True
        | Ok (Return (Some _)) => False
        | Raise e' => e' = OverflowError /\ (1024 <= attempt)%nat /\
                      Z.of_nat attempt < max_retries - 1
        end) s.
Proof.
  unfold attempt_except.
  apply wp_bind; unfold wp at 1; cbn [fst snd incr_failures update_self].
  destruct (Z.ltb_spec (Z.of_nat attempt) (max_retries - 1)) as [Hlt|Hge];
    [|split; reflexivity].
  apply wp_bind, wp_adaptive. intros s1 H1.
  assert (E1 : failures s1 = failures s + 1) by (rewrite H1; reflexivity).
  unfold overflow_from; cbn [code_is].
  destruct (Nat.leb_spec 1024 attempt) as [Hbig|Hsmall]; [auto|].
  apply wp_bind; unfold wp at 1; cbn [fst snd get_self].
  apply wp_bind. wp_call failures.
  unfold wp; cbn. split; [lia|exact I].
Qed.

Lemma all_attempts_failed_spec (s : St) :
  wp all_attempts_failed
     (fun res s' => res = Ok None /\ failures s' = failures s + 1) s.
Proof.
  unfold all_attempts_failed.
  apply wp_bind; unfold wp at 1; cbn [fst snd incr_failures update_self].
  apply wp_bind; unfold wp at 1; cbn [fst snd get_self].
  apply wp_bind. wp_call failures.
  unfold wp; cbn. split; [reflexivity|]. rewrite H. reflexivity.
Qed.

Lemma pass_spec (url : string) (max_retries : Z) (attempt : nat) (s : St) :
  wp (try_except (attempt_try url max_retries attempt)
                 (attempt_except max_retries attempt))
     (pass_post max_retries attempt (failures s)) s.
Proof.
  assert (Hex : forall e s1, failures s <= failures s1 ->
            wp (attempt_except max_retries attempt e)
               (pass_post max_retries attempt (failures s)) s1).
  { intros e s1 H1. pose proof (attempt_except_spec max_retries attempt e s1) as H.
    unfold wp, pass_post in *. destruct H as [Hf Hr].
    destruct (attempt_except max_retries attempt e s1) as [[[|[r|]]|e'] s2];
      cbn [fst snd] in *; [lia|contradiction|lia|split; [lia|exact Hr]]. }
  unfold attempt_try. apply wp_try, wp_bind.
  eapply (wp_keeps failures); [auto with keeps|]. intros [r|e] s1 H1; [|apply Hex; lia].
  pose proof (classify_failures max_retries attempt r s1) as Hf.
  pose proof (fun r' => classify_returns max_retries attempt r r' s1) as Hr.
  pose proof (classify_success max_retries attempt r s1) as Hs.
  unfold wp at 1.
  unfold failures_after in Hf.
  destruct (classify max_retries attempt r s1) as [[c|e] s2]; cbn [fst snd] in *.
  - destruct c as [|[r'|]].
    + unfold pass_post. destruct (_is_captcha_page r); [lia|].
      destruct (Z.eqb_spec (status_code r) 200) as [E|_];
        [specialize (Hs E eq_refl); discriminate|].
      destruct (status_code r =? 404); lia.
    + destruct (Hr r' eq_refl) as (-> & E & Hc). unfold pass_post.
      rewrite Hc, E in *. auto.
    + unfold pass_post. destruct (_is_captcha_page r); [lia|].
      destruct (Z.eqb_spec (status_code r) 200) as [E|_];
        [specialize (Hs E eq_refl); discriminate|].
      destruct (status_code r =? 404); lia.
  - apply Hex. destruct (_is_captcha_page r); [lia|].
    destruct (Z.eqb_spec (status_code r) 200) as [E|_];
        [specialize (Hs E eq_refl); discriminate|].
    destruct (status_code r =? 404); lia.
Qed.

Lemma retry_loop_spec (url : string) (max_retries : Z) (remaining attempt : nat)
    (before : Z) (s : St) :
  before <= failures s ->
  wp (retry_loop url max_retries attempt remaining)
     (fetch_post max_retries before) s.
Proof.
  revert attempt s. induction remaining as [|k IH]; intros attempt s Hs; cbn [retry_loop].
  - pose proof (all_attempts_failed_spec s) as H. unfold wp in *.
    destruct H as [-> H]. unfold fetch_post. lia.
  - apply wp_bind. pose proof (pass_spec url max_retries attempt s) as H.
    unfold wp in H |- *. unfold wp.
    destruct (try_except _ _ s) as [[[|[r|]]|e] s1]; cbn [fst snd pass_post] in *.
    + apply IH. lia.
    + exact H.
    + change (before <= failures s1). lia.
    + destruct H as (H1 & -> & H2 & H3).
      change (before <= failures s1 /\ OverflowError = OverflowError /\ 1026 <= max_retries).
      repeat split; lia.
Qed.

Lemma make_request_spec (url : string) (max_retries : Z) (skip_warmup : bool) (s : St) :
  wp (_make_request url max_retries skip_warmup)
     (fetch_post max_retries (failures s)) s.
Proof.
  unfold _make_request. apply wp_bind; unfold wp at 1; cbn [fst snd].
  apply retry_loop_spec. cbn. unfold failures. cbn. lia.
Qed.

(** ** What an attempt does to the world *)

Lemma quiet_ret {A} (a : A) : quiet (ret a).
Proof. intros [o [] k]. by exists a, 0%nat. Qed.

Lemma quiet_bind {A B} (c : M A) (k : A -> M B) :
  quiet c -> (forall a, quiet (k a)) -> quiet (bind c k).
Proof.
  intros Hc Hk s. destruct (Hc s) as (a & n & Ha).
  destruct (Hk a (set_world (advance n) s)) as (b & m & Hb).
  exists b, (m + n)%nat. unfold bind. rewrite Ha, Hb.
  unfold set_world, advance; cbn. by rewrite Nat.add_assoc.
Qed.

Lemma quiet_random : quiet random_random.
Proof. intros s. by exists (rng (world s) (draws (world s))), 1%nat. Qed.

Ltac quiet_step :=
  lazymatch goal with
  | |- quiet (bind _ _) => apply quiet_bind; [|intros ?]
  | |- quiet (ret _) => apply quiet_ret
  | |- quiet random_random => apply quiet_random
  | |- quiet (if ?b then _ else _) => destruct b
  | |- quiet (match ?x with _ => _ end) => destruct x
  | |- quiet (let _ := _ in _) => cbv zeta
  end.

Lemma quiet_uniform (a b : Q) : quiet (random_uniform a b).
Proof. unfold random_uniform. repeat quiet_step. Qed.

Lemma quiet_headers (url : string) : quiet (_get_realistic_headers url).
Proof.
  unfold _get_realistic_headers, random_choice. repeat quiet_step.
Qed.

Lemma wp_quiet {A} (c : M A) (Q : Res A -> St -> Prop) (s : St) :
  quiet c -> (forall a s', obs s' = obs s -> Q (Ok a) s') -> wp c Q s.
Proof.
  intros Hc HQ. unfold wp. destruct (Hc s) as (a & n & ->). apply HQ. reflexivity.
Qed.

Lemma wp_sleep (why : Pause) (d : Q) (Q : Res unit -> St -> Prop) (s : St) :
  (forall s', obs s' = (self s, net (world s), sent (world s),
                        trace (world s) ++ [Sleep why d]) -> Q (Ok tt) s') ->
  wp (asyncio_sleep why d) Q s.
Proof. intros HQ. apply HQ. reflexivity. Qed.

Lemma wp_client_get (url : string) (h : list (string * string))
    (Q : Res Response -> St -> Prop) (s : St) :
  (forall s', obs s' = (self s, net (world s), S (sent (world s)),
                        trace (world s) ++ [Get url h]) ->
     Q (match net (world s) (sent (world s)) with
        | Resp r => Ok r
        | Fail => Raise TransportError
        end) s') ->
  wp (client_get url h) Q s.
Proof.
  intros HQ. unfold wp, client_get, bind; cbn [get_world update_world fst snd].
  destruct (net (world s) (sent (world s))); apply HQ; reflexivity.
Qed.

Lemma wp_adaptive_obs (attempt : nat) (error_code : option Z)
    (Q : Res unit -> St -> Prop) (s : St) :
  (attempt < overflow_from error_code)%nat ->
  (forall d s', obs s' = (self s, net (world s), sent (world s),
                          trace (world s) ++ [Sleep (AdaptiveDelay attempt error_code) d]) ->
     Q (Ok tt) s') ->
  wp (_adaptive_delay_strategy attempt error_code) Q s.
Proof.
  intros Hfit HQ. unfold wp. rewrite adaptive_delay_run.
  destruct (Nat.leb_spec (overflow_from error_code) attempt) as [?|_]; [lia|].
  cbv zeta. cbn [fst snd]. eapply HQ. reflexivity.
Qed.

Ltac obs_inj H := unfold obs in H; injection H as ? ? ? ?.

Ltac obs_all :=
  repeat match goal with H : obs _ = _ |- _ => obs_inj H end.

Ltac obs_rw :=
  repeat match goal with
  | H : self ?x = _ |- context [self ?x] => rewrite H
  | H : net (world ?x) = _ |- context [net (world ?x)] => rewrite H
  | H : sent (world ?x) = _ |- context [sent (world ?x)] => rewrite H
  | H : trace (world ?x) = _ |- context [trace (world ?x)] => rewrite H
  end.

Lemma wp_send_attempt (url : string) (attempt : nat)
    (Q : Res Response -> St -> Prop) (s : St) :
  (attempt < overflow_from (_last_error_code (self s)))%nat ->
  (forall evs h s',
     obs s' = (self s, net (world s), S (sent (world s)),
               trace (world s) ++ evs ++ [Get url h]) ->
     map kind evs = before_get attempt (_last_error_code (self s)) ->
     Q (match net (world s) (sent (world s)) with
        | Resp r => Ok r
        | Fail => Raise TransportError
        end) s') ->
  wp (send_attempt url attempt) Q s.
Proof.
  intros Hfit HQ. unfold send_attempt.
  apply wp_bind, wp_quiet; [apply quiet_headers|]. intros h s1 H1.
  apply wp_bind; unfold wp at 1; cbn [fst snd get_self].
  apply wp_bind.
  assert (Hpre : forall Q' : Res unit -> St -> Prop,
    (forall evs s', obs s' = (self s, net (world s), sent (world s), trace (world s) ++ evs) ->
        map kind evs = (if (0 <? attempt)%nat
                        then [KSleep (AdaptiveDelay attempt (_last_error_code (self s)))]
                        else []) -> Q' (Ok tt) s') ->
    wp (when (0 <? attempt)%nat
          (_adaptive_delay_strategy attempt (_last_error_code (self s1)))) Q' s1).
  { intros Q' HQ'. apply wp_when. obs_all. destruct (0 <? attempt)%nat.
    - obs_rw. apply wp_adaptive_obs; [exact Hfit|]. intros d s' H'.
      apply (HQ' [Sleep (AdaptiveDelay attempt (_last_error_code (self s))) d]);
        [|reflexivity].
      rewrite H'. obs_rw. reflexivity.
    - apply (HQ' []); [|reflexivity]. rewrite app_nil_r. unfold obs. obs_rw. reflexivity. }
  apply Hpre. intros evs s2 H2 Hk.
  apply wp_bind; unfold wp at 1; cbn [fst snd get_self]. cbv zeta.
  apply wp_bind, wp_quiet; [apply quiet_uniform|]. intros d1 s3 H3.
  apply wp_bind, wp_quiet; [apply quiet_random|]. intros u s4 H4.
  apply wp_bind, wp_quiet.
  { destruct (Qlt_le_dec u 0.1); repeat quiet_step. apply quiet_uniform. }
  intros d s5 H5.
  apply wp_bind, wp_sleep. intros s6 H6.
  apply wp_client_get. intros s7 H7. obs_all. obs_rw.
  apply (HQ (evs ++ [Sleep HumanDelay d]) h).
  - unfold obs. obs_rw. by rewrite <- !app_assoc.
  - rewrite map_app, Hk. reflexivity.
Qed.

(** ** Session reset *)

Lemma reset_session_run (s : St) :
  _reset_session_strategy s =
  (Ok tt,
   set_self (with_client_closed true)
     (set_world (emit AClose)
        (set_self (with_last_error_code None)
           (set_self (with_session_cookies ∅) s)))).
Proof. reflexivity. Qed.

Lemma since_app (t new : list Event) : since t (t ++ new) = new.
Proof. unfold since. by rewrite drop_app_length. Qed.

(** C7 fails as stated: a reset leaves [_consecutive_failures] at 3. *)
Lemma reset_session_counterexample :
  ~ reset_claim (start 3 (world_of 0.5 always_500 empty_page)).
Proof. unfold reset_claim. vm_compute. intros (_ & _ & H & _). discriminate H. Qed.

(** C7, as amended: after every session reset the cookie store is empty,
    [_last_error_code] is [None], [aclose] was called once on the client, no
    request was sent (warm-up is not entered), and [_consecutive_failures]
    is what it was before.  Whether the object has a usable client afterwards
    is not part of the statement. *)
Theorem reset_session_effect (s : St) :
  let s' := snd (_reset_session_strategy s) in
  fst (_reset_session_strategy s) = Ok tt /\
  _session_cookies (self s') = ∅ /\
  _last_error_code (self s') = None /\
  failures s' = failures s /\
  trace (world s') = trace (world s) ++ [AClose] /\
  sent (world s') = sent (world s) /\
  _session_warmed (self s') = _session_warmed (self s).
Proof. rewrite reset_session_run. cbn. repeat split. Qed.

(** ** Intelligent backoff *)

Lemma uniform_bounds (a b u : Q) :
  (a <= b -> 0 <= u <= 1 -> a <= a + (b - a) * u <= b)%Q.
Proof. intros Hab [H0 H1]. split; nra. Qed.

(** C3: [_intelligent_backoff] resets the session exactly when the count is
    3 or above 5: then the cookie store is empty and [_last_error_code] is
    [None] afterwards, and [aclose] was called on the client before the
    sleep; for every other count the cookies, the last error code and the
    whole object are what they were, and nothing but the sleep happens.  The
    delay of the sleep lies in [5,15] up to 2, in [30,90] from 3 to 5, in
    [300,600] above 5.  The counter of failures is never touched. *)
Theorem intelligent_backoff_tiers (cf : Z) (s : St) :
  let u := rng (world s) (draws (world s)) in
  (0 <= u <= 1)%Q ->
  let s' := snd (_intelligent_backoff cf s) in
  exists d : Q,
    fst (_intelligent_backoff cf s) = Ok tt /\
    trace (world s') =
      trace (world s) ++ (if resets_session cf then [AClose] else [])
                      ++ [Sleep (IntelligentBackoff cf) d] /\
    (if resets_session cf
     then _session_cookies (self s') = ∅ /\ _last_error_code (self s') = None
     else self s' = self s) /\
    failures s' = failures s /\
    sent (world s') = sent (world s) /\
    (cf <= 2 -> (5 <= d <= 15)%Q) /\
    (3 <= cf <= 5 -> (30 <= d <= 90)%Q) /\
    (5 < cf -> (300 <= d <= 600)%Q).
Proof.
  intros u Hu s'. subst s'. unfold _intelligent_backoff, resets_session.
  assert (Hb : forall a b : Q, (a <= b -> a <= a + (b - a) * u <= b)%Q)
    by (intros a b Hab; apply uniform_bounds; [exact Hab | exact Hu]).
  fold u in Hb.
  destruct (Z.leb_spec cf 2) as [H2|H2]; [|destruct (Z.leb_spec cf 5) as [H5|H5]].
  - replace (cf =? 3) with false by lia. replace (5 <? cf) with false by lia.
    exists (5 + (15 - 5) * u)%Q. cbn.
    repeat split; try reflexivity; try lia; intros; apply Hb; lra.
  - replace (5 <? cf) with false by lia. rewrite orb_false_r.
    exists (30 + (90 - 30) * u)%Q.
    destruct (Z.eqb_spec cf 3) as [->|H3]; cbn; rewrite <- ?app_assoc;
      repeat split; try reflexivity; try lia; intros; apply Hb; lra.
  - replace (5 <? cf) with true by lia. rewrite orb_true_r.
    exists (300 + (600 - 300) * u)%Q. cbn. rewrite <- ?app_assoc.
    repeat split; try reflexivity; try lia; intros; apply Hb; lra.
Qed.

(** ** A page that is not there *)

Lemma send_attempt_overflow (url : string) (attempt : nat) (s : St) :
  (overflow_from (_last_error_code (self s)) <= attempt)%nat ->
  fst (send_attempt url attempt s) = Raise OverflowError.
Proof.
  intros Hbig.
  change (wp (send_attempt url attempt) (fun res _ => res = Raise OverflowError) s).
  unfold send_attempt.
  apply wp_bind, wp_quiet; [apply quiet_headers|]. intros h s1 H1. obs_all.
  apply wp_bind; unfold wp at 1; cbn [fst snd get_self].
  apply wp_bind.
  assert (Hpos : (0 <? attempt)%nat = true).
  { apply Nat.ltb_lt. unfold overflow_from in Hbig.
    destruct (code_is _ 503); [lia|]. destruct (code_is _ 429); [lia|].
    destruct (code_is _ 403); lia. }
  rewrite Hpos. cbn [when]. obs_rw. unfold wp. rewrite adaptive_delay_run.
  destruct (Nat.leb_spec (overflow_from (_last_error_code (self s))) attempt); [reflexivity|lia].
Qed.

Lemma send_attempt_ok (url : string) (attempt : nat) (r : Response) (s : St) :
  fst (send_attempt url attempt s) = Ok r ->
  net (world s) (sent (world s)) = Resp r /\
  exists evs h,
    obs (snd (send_attempt url attempt s)) =
      (self s, net (world s), S (sent (world s)),
       trace (world s) ++ evs ++ [Get url h]) /\
    map kind evs = before_get attempt (_last_error_code (self s)).
Proof.
  destruct (Nat.ltb_spec attempt (overflow_from (_last_error_code (self s)))) as [Hfit|Hbig].
  - revert r.
    change (wp (send_attempt url attempt)
              (fun res s' => forall r, res = Ok r ->
                 net (world s) (sent (world s)) = Resp r /\
                 exists evs h,
                   obs s' = (self s, net (world s), S (sent (world s)),
                             trace (world s) ++ evs ++ [Get url h]) /\
                   map kind evs = before_get attempt (_last_error_code (self s))) s).
    apply wp_send_attempt; [exact Hfit|]. intros evs h s' H' Hk r Hr.
    split; [destruct (net _ _); congruence|]. by exists evs, h.
  - rewrite send_attempt_overflow by exact Hbig. discriminate.
Qed.

Lemma classify_not_found (max_retries : Z) (attempt : nat) (r : Response) (s : St) :
  status_code r = 404 -> _is_captcha_page r = false ->
  classify max_retries attempt r s =
  (Ok (Return None), set_self (with_last_error_code (Some 404)) s).
Proof.
  intros E Hc. unfold classify, bind; cbn [update_self]. rewrite Hc, E. reflexivity.
Qed.

Lemma retry_loop_not_found (url : string) (max_retries : Z)
    (attempt remaining : nat) (r : Response) (s : St) :
  fst (send_attempt url attempt s) = Ok r ->
  status_code r = 404 ->
  _is_captcha_page r = false ->
  retry_loop url max_retries attempt (S remaining) s =
  (Ok None,
   set_self (with_last_error_code (Some 404)) (snd (send_attempt url attempt s))).
Proof.
  intros Hsend E Hc.
  cbn [retry_loop]. unfold bind at 1, try_except, attempt_try. unfold bind at 1.
  destruct (send_attempt url attempt s) as [res s1]. cbn [fst snd] in *. subst res.
  rewrite classify_not_found by assumption. reflexivity.
Qed.

(** C5: when an attempt of the retry loop gets a 404 that is no CAPTCHA
    page, the loop ends there with [None]: the counter is what it was, one
    request was sent, and the request is the last event, so no delay follows
    the 404 and no further attempt is made. *)
Theorem not_found_is_terminal (url : string) (max_retries : Z)
    (attempt remaining : nat) (r : Response) (s : St) :
  fst (send_attempt url attempt s) = Ok r ->
  status_code r = 404 ->
  _is_captcha_page r = false ->
  let s' := snd (retry_loop url max_retries attempt (S remaining) s) in
  fst (retry_loop url max_retries attempt (S remaining) s) = Ok None /\
  failures s' = failures s /\
  sent (world s') = S (sent (world s)) /\
  exists evs h,
    trace (world s') = trace (world s) ++ evs ++ [Get url h] /\
    map kind evs = before_get attempt (_last_error_code (self s)).
Proof.
  intros Hsend E Hc.
  destruct (send_attempt_ok url attempt r s Hsend) as (Hnet & evs & h & Hobs & Hk).
  rewrite (retry_loop_not_found url max_retries attempt remaining r s Hsend E Hc).
  cbn [fst snd]. obs_all. repeat split.
  - unfold failures. cbn. congruence.
  - cbn. assumption.
  - exists evs, h. cbn. split; assumption.
Qed.

(** A 404 on the first of three attempts, with two failures behind. *)
Lemma not_found_is_terminal_witness :
  fst (retry_loop book_url 3 0 3
         (start 2 (world_of 0.5 (fun _ => Resp (answer 404)) empty_page))) = Ok None /\
  failures (snd (retry_loop book_url 3 0 3
         (start 2 (world_of 0.5 (fun _ => Resp (answer 404)) empty_page)))) = 2.
Proof.
  destruct (not_found_is_terminal book_url 3 0 2 (answer 404)
              (start 2 (world_of 0.5 (fun _ => Resp (answer 404)) empty_page)))
    as (H1 & H2 & _); [vm_compute; reflexivity | reflexivity | vm_compute; reflexivity |].
  split; [exact H1 | exact H2].
Defined.

(** ** The scenario 503, 503, 200 *)

Lemma adaptive_calls_kinds (t : list Event) :
  adaptive_calls t = flat_map adaptive_of_kind (map kind t).
Proof.
  induction t as [|e t IH]; [reflexivity|].
  cbn [adaptive_calls flat_map map]. fold (adaptive_calls t). rewrite IH.
  destruct e as [[] ?| |]; reflexivity.
Qed.

Lemma wp_classify_503 (max_retries : Z) (attempt : nat) (r : Response)
    (Q : Res Ctl -> St -> Prop) (s : St) :
  status_code r = 503 -> _is_captcha_page r = false ->
  Z.of_nat attempt < max_retries - 1 ->
  failures s + 1 < 3 ->
  (attempt < 647)%nat ->
  (forall d s',
     obs s' = (with_consecutive_failures (failures s + 1)
                 (with_last_error_code (Some 503) (self s)),
               net (world s), sent (world s),
               trace (world s) ++ [Sleep (AdaptiveDelay attempt (Some 503)) d]) ->
     Q (Ok Continue) s') ->
  wp (classify max_retries attempt r) Q s.
Proof.
  intros E Hc Hlt Hcf Hfit HQ. unfold classify.
  apply wp_bind; unfold wp at 1; cbn [fst snd update_self].
  rewrite Hc, E. cbn [Z.eqb Pos.eqb].
  apply wp_bind; unfold wp at 1; cbn [fst snd incr_failures update_self].
  apply wp_bind, wp_when.
  destruct (Z.ltb_spec (Z.of_nat attempt) (max_retries - 1)) as [_|?]; [|lia].
  apply wp_bind, wp_adaptive_obs; [exact Hfit|]. intros d s1 H1.
  apply wp_bind; unfold wp at 1; cbn [fst snd get_self].
  apply wp_when. obs_all.
  match goal with H : self s1 = _ |- _ => rewrite H end. cbn.
  destruct (Z.leb_spec 3 (_consecutive_failures (self s) + 1)) as [?|_];
    [unfold failures in Hcf; lia|].
  unfold wp; cbn [fst snd ret]. apply (HQ d). unfold obs. obs_rw. reflexivity.
Qed.

Lemma wp_classify_200 (max_retries : Z) (attempt : nat) (r : Response)
    (Q : Res Ctl -> St -> Prop) (s : St) :
  status_code r = 200 -> _is_captcha_page r = false ->
  (forall s', failures s' = 0 -> world s' = world s -> Q (Ok (Return (Some r))) s') ->
  wp (classify max_retries attempt r) Q s.
Proof.
  intros E Hc HQ. unfold wp.
  rewrite (classify_success max_retries attempt r s E Hc). apply HQ.
  - rewrite classify_failures. unfold failures_after. rewrite Hc, E. reflexivity.
  - unfold classify, bind; cbn [update_self]. rewrite Hc, E. cbn [Z.eqb Pos.eqb].
    cbn [update_self datetime_now get_world ret fst snd].
    destruct (negb _); reflexivity.
Qed.

(** C8, as amended: with three attempts answered by 503, 503 and 200 and
    the counter at 0, the fetch returns the 200 response, the counter ends at
    0, and four delays of the 503 formula are applied: after the first 503
    (attempt 0), before and after the second request (attempt 1 both), and
    before the third request (attempt 2). *)
Theorem two_503_then_200_run (url : string) (skip_warmup : bool)
    (r1 r2 r3 : Response) (s : St) :
  failures s = 0 ->
  net (world s) (sent (world s)) = Resp r1 ->
  net (world s) (S (sent (world s))) = Resp r2 ->
  net (world s) (S (S (sent (world s)))) = Resp r3 ->
  status_code r1 = 503 -> _is_captcha_page r1 = false ->
  status_code r2 = 503 -> _is_captcha_page r2 = false ->
  status_code r3 = 200 -> _is_captcha_page r3 = false ->
  let s' := snd (_make_request url 3 skip_warmup s) in
  fst (_make_request url 3 skip_warmup s) = Ok (Some r3) /\
  failures s' = 0 /\
  map kind (since (trace (world s)) (trace (world s'))) = scenario_kinds url /\
  adaptive_calls (since (trace (world s)) (trace (world s'))) =
    [(0%nat, Some 503); (1%nat, Some 503); (1%nat, Some 503); (2%nat, Some 503)].
Proof.
  intros Hf N1 N2 N3 E1 C1 E2 C2 E3 C3.
  assert (Hmain : wp (_make_request url 3 skip_warmup)
            (fun res s' => res = Ok (Some r3) /\ failures s' = 0 /\
               exists evs, trace (world s') = trace (world s) ++ evs /\
                           map kind evs = scenario_kinds url) s).
  { unfold _make_request. apply wp_bind; unfold wp at 1; cbn [fst snd].
    change (Z.to_nat 3) with 3%nat. cbn [retry_loop].
    (* attempt 0 *)
    apply wp_bind, wp_try. unfold attempt_try at 1.
    apply wp_bind, wp_send_attempt.
    { unfold overflow_from. cbn [self set_captcha_attempts].
      destruct (code_is _ 503); [lia|]. destruct (code_is _ 429); [lia|].
      destruct (code_is _ 403); lia. }
    intros evs0 h0 s1 H1 K1. cbn [self world set_captcha_attempts] in H1, K1 |- *.
    rewrite N1.
    apply wp_classify_503; try assumption; try lia.
    { obs_all. unfold failures. obs_rw. unfold failures in Hf. lia. }
    intros d1 s2 H2.
    (* attempt 1 *)
    apply wp_bind, wp_try. unfold attempt_try at 1.
    apply wp_bind, wp_send_attempt.
    { obs_all. obs_rw. cbn. lia. }
    intros evs1 h1 s3 H3 K3.
    assert (Hn2 : net (world s2) (sent (world s2)) = Resp r2).
    { obs_all. obs_rw. exact N2. }
    rewrite Hn2.
    apply wp_classify_503; try assumption; try lia.
    { obs_all. unfold failures in *. obs_rw. cbn. obs_rw. lia. }
    intros d2 s4 H4.
    (* attempt 2 *)
    apply wp_bind, wp_try. unfold attempt_try at 1.
    apply wp_bind, wp_send_attempt.
    { obs_all. obs_rw. cbn. lia. }
    intros evs2 h2 s5 H5 K5.
    assert (Hn3 : net (world s4) (sent (world s4)) = Resp r3).
    { obs_all. obs_rw. exact N3. }
    rewrite Hn3.
    apply wp_classify_200; try assumption.
    intros s6 F6 W6. unfold wp; cbn [fst snd ret].
    split; [reflexivity|]. split; [exact F6|].
    exists (evs0 ++ [Get url h0] ++ [Sleep (AdaptiveDelay 0 (Some 503)) d1]
            ++ evs1 ++ [Get url h1] ++ [Sleep (AdaptiveDelay 1 (Some 503)) d2]
            ++ evs2 ++ [Get url h2]).
    split.
    - rewrite W6. obs_all. obs_rw. by rewrite <- !app_assoc.
    - rewrite !map_app, K1, K3, K5. obs_all. obs_rw. cbn. obs_rw. reflexivity. }
  unfold wp in Hmain. destruct Hmain as (Hres & Hfail & evs & Ht & Hk).
  cbv zeta. rewrite Ht, since_app, adaptive_calls_kinds, Hk.
  repeat split; assumption.
Qed.

(** ** Rate limiting *)

Lemma decimal_isdigit (v : string) :
  Py.all_chars Py.is_decimal v = true -> Py.all_chars Py.isdigit_char v = true.
Proof.
  induction v as [|c v IH]; [reflexivity|]. cbn [Py.all_chars].
  intros [Hc Hv]%andb_prop. rewrite IH by exact Hv.
  unfold Py.isdigit_char. rewrite Hc. reflexivity.
Qed.

Lemma classify_429 (max_retries : Z) (attempt : nat) (r : Response) (s : St) :
  status_code r = 429 -> _is_captcha_page r = false ->
  classify max_retries attempt r s =
  (do (match headers_get "Retry-After" (resp_headers r) with
       | Some v =>
           if negb (v =? "")%string && Py.isdigit v then
             n <- lift (Py.int v) ;;
             buffer <- random_uniform 5 15 ;;
             x <- lift (Py.float_of_int n) ;;
             asyncio_sleep RetryAfterDelay (x + buffer)%Q
           else _adaptive_delay_strategy attempt (Some 429)
       | None => _adaptive_delay_strategy attempt (Some 429)
       end) ;;
   ret Continue) (counted_429 s).
Proof.
  intros E Hc. unfold classify. unfold bind at 1; cbn [update_self].
  rewrite Hc, E. cbn [Z.eqb Pos.eqb]. reflexivity.
Qed.

Lemma classify_retry_after (max_retries : Z) (attempt : nat) (r : Response)
    (v : string) (s : St) :
  status_code r = 429 -> _is_captcha_page r = false ->
  headers_get "Retry-After" (resp_headers r) = Some v ->
  v <> "" ->
  Py.all_chars Py.is_decimal v = true ->
  Z.of_nat (String.length v) <= Py.int_max_str_digits ->
  Py.digits_value 0 v < Py.float_limit ->
  let d := (inject_Z (Py.digits_value 0 v)
            + (5 + (15 - 5) * rng (world s) (draws (world s))))%Q in
  classify max_retries attempt r s =
  (Ok Continue,
   set_world (fun w => elapsed d (emit (Sleep RetryAfterDelay d) (drawn w)))
     (counted_429 s)).
Proof.
  intros E Hc Hv Hne Hdec Hlen Hfit d. rewrite classify_429 by assumption. rewrite Hv.
  assert (Hnz : negb (v =? "")%string = true).
  { destruct (String.eqb_spec v ""); [contradiction|reflexivity]. }
  assert (Hdig : Py.isdigit v = true).
  { destruct v; [contradiction|]. unfold Py.isdigit. by apply decimal_isdigit. }
  rewrite Hnz, Hdig. cbn [andb].
  apply Z.leb_le in Hlen.
  unfold bind, lift, Py.int. rewrite Hnz, Hdec, Hlen. cbn [andb].
  cbn [random_uniform random_random bind get_world update_world ret fst snd].
  unfold bind. cbn [get_world update_world ret].
  unfold Py.float_of_int.
  assert (Habs : (Z.abs (Py.digits_value 0 v) <? Py.float_limit) = true).
  { apply Z.ltb_lt. rewrite Z.abs_eq; [exact Hfit|].
    clear -Hdec. assert (G : forall acc, 0 <= acc -> 0 <= Py.digits_value acc v).
    { induction v as [|c v IH]; intros acc Hacc; [exact Hacc|].
      cbn [Py.all_chars] in Hdec. apply andb_prop in Hdec as [Hc Hv].
      cbn [Py.digits_value]. apply IH; [exact Hv|].
      unfold Py.is_decimal in Hc. apply andb_prop in Hc as [H1 H2].
      apply N.leb_le in H1. lia. }
    apply G. lia. }
  rewrite Habs. reflexivity.
Qed.

Lemma classify_no_retry_after (max_retries : Z) (attempt : nat) (r : Response)
    (s : St) :
  status_code r = 429 -> _is_captcha_page r = false ->
  match headers_get "Retry-After" (resp_headers r) with
  | Some v => v = "" \/ Py.isdigit v = false
  | None => True
  end ->
  (attempt < 1024)%nat ->
  let d := Py.min (uncapped_delay (Some 429) attempt
                     (rng (world s) (draws (world s)))) 600 in
  classify max_retries attempt r s =
  (Ok Continue,
   set_world (fun w => elapsed d (emit (Sleep (AdaptiveDelay attempt (Some 429)) d)
                                       (drawn w)))
     (counted_429 s)).
Proof.
  intros E Hc Hv Hfit d. rewrite classify_429 by assumption.
  assert (Hrun : _adaptive_delay_strategy attempt (Some 429) (counted_429 s) =
    (Ok tt, set_world (fun w => elapsed d (emit (Sleep (AdaptiveDelay attempt (Some 429)) d)
                                                (drawn w))) (counted_429 s))).
  { rewrite adaptive_delay_run. change (overflow_from (Some 429)) with 1024%nat.
    destruct (Nat.leb_spec 1024 attempt); [lia|]. reflexivity. }
  destruct (headers_get "Retry-After" (resp_headers r)) as [v|].
  - assert (Hb : negb (v =? "")%string && Py.isdigit v = false).
    { destruct Hv as [->|Hd]; [reflexivity|]. rewrite Hd. apply andb_false_r. }
    rewrite Hb. unfold bind. rewrite Hrun. reflexivity.
  - unfold bind. rewrite Hrun. reflexivity.
Qed.

(** C6, as amended: the branch of a 429 that is no CAPTCHA page adds 1 to
    the counter.  With a [Retry-After] header of decimal digits that [int]
    reads (at most 4300 digits) and whose value fits a float (it is below
    [Py.float_limit]) the branch sleeps for that value plus [5 + 10 u], a
    buffer in [5,15], and not for the adaptive delay; with the header absent,
    empty or not [isdigit] it sleeps, at an attempt below 1024, for the
    adaptive delay of error code 429.  In both cases a following attempt
    below 1024 starts with the adaptive delay of error code 429 for its own
    index, then the pacing delay.  Beyond these bounds a conversion to float
    overflows; the statement says nothing of such runs. *)
Theorem retry_after_honoured (url : string) (max_retries : Z) (attempt : nat)
    (r : Response) (s : St) :
  status_code r = 429 ->
  _is_captcha_page r = false ->
  let u := rng (world s) (draws (world s)) in
  let s' := snd (classify max_retries attempt r s) in
  failures s' = failures s + 1 /\
  (forall v,
     headers_get "Retry-After" (resp_headers r) = Some v ->
     v <> "" ->
     Py.all_chars Py.is_decimal v = true ->
     Z.of_nat (String.length v) <= Py.int_max_str_digits ->
     Py.digits_value 0 v < Py.float_limit ->
     fst (classify max_retries attempt r s) = Ok Continue /\
     trace (world s') =
       trace (world s) ++
       [Sleep RetryAfterDelay (inject_Z (Py.digits_value 0 v) + (5 + (15 - 5) * u))]) /\
  (match headers_get "Retry-After" (resp_headers r) with
   | Some v => v = "" \/ Py.isdigit v = false
   | None => True
   end ->
   (attempt < 1024)%nat ->
   fst (classify max_retries attempt r s) = Ok Continue /\
   trace (world s') =
     trace (world s) ++
     [Sleep (AdaptiveDelay attempt (Some 429))
        (Py.min (uncapped_delay (Some 429) attempt u) 600)]) /\
  ((S attempt < 1024)%nat ->
   exists evs h,
     trace (world (snd (send_attempt url (S attempt) s'))) =
       trace (world s') ++ evs ++ [Get url h] /\
     map kind evs =
       [KSleep (AdaptiveDelay (S attempt) (Some 429)); KSleep HumanDelay]).
Proof.
  intros E Hc u s'. split; [|split; [|split]].
  - subst s'. rewrite classify_failures. unfold failures_after.
    rewrite Hc, E. reflexivity.
  - intros v Hv Hne Hdec Hlen Hfit. subst s'.
    rewrite (classify_retry_after max_retries attempt r v s) by assumption.
    split; reflexivity.
  - intros Hv Hfit. subst s'.
    rewrite (classify_no_retry_after max_retries attempt r s) by assumption.
    split; reflexivity.
  - intros Hfit.
    assert (Hlec : _last_error_code (self s') = Some 429).
    { subst s'. rewrite classify_429 by assumption.
      assert (Hk : forall c : M unit, keeps self c ->
                self (snd ((do c ;; ret Continue) (counted_429 s)))
                = self (counted_429 s)).
      { intros c Hc'. apply (keeps_bind self); [exact Hc'|]. intros ?. apply keeps_ret. }
      rewrite Hk; [reflexivity|].
      destruct (headers_get _ _) as [v|]; [|auto with keeps].
      destruct (negb _ && _); [|auto with keeps]. keeps_auto. }
    assert (Hw : wp (send_attempt url (S attempt))
              (fun _ s2 => exists evs h,
                 trace (world s2) = trace (world s') ++ evs ++ [Get url h] /\
                 map kind evs =
                   [KSleep (AdaptiveDelay (S attempt) (Some 429)); KSleep HumanDelay]) s').
    { apply wp_send_attempt.
      - rewrite Hlec. change (overflow_from (Some 429)) with 1024%nat. exact Hfit.
      - intros evs h s2 H2 Hk. exists evs, h. obs_all. split; [assumption|].
        rewrite Hk, Hlec. reflexivity. }
    exact Hw.
Qed.

(** ** The filter on scraped books *)

Lemma dict_get_set_same {V} (k : string) (v : V) (d : list (string * V)) :
  Py.dict_get k (Py.dict_set k v d) = Some v.
Proof.
  induction d as [|[k' v'] d IH]; cbn.
  - by rewrite String.eqb_refl.
  - destruct (String.eqb_spec k k') as [->|Hne]; cbn.
    + by rewrite String.eqb_refl.
    + destruct (String.eqb_spec k k'); [contradiction|exact IH].
Qed.

Lemma dict_get_set_other {V} (k k' : string) (v : V) (d : list (string * V)) :
  k <> k' -> Py.dict_get k (Py.dict_set k' v d) = Py.dict_get k d.
Proof.
  intros Hne. induction d as [|[k0 v0] d IH]; cbn.
  - destruct (String.eqb_spec k k'); [contradiction|reflexivity].
  - destruct (String.eqb_spec k' k0) as [->|Hne0]; cbn.
    + destruct (String.eqb_spec k k0); [contradiction|reflexivity].
    + destruct (String.eqb_spec k k0); [reflexivity|exact IH].
Qed.

Lemma dict_set_not_empty {V} (k : string) (v : V) (d : list (string * V)) :
  Py.dict_set k v d <> [].
Proof. destruct d as [|[k' v'] d]; cbn; [|destruct (k =? k')%string]; discriminate. Qed.

Lemma has_dict_set_other (k k' : string) (v : Py.Val) (d : Dict) :
  k <> k' -> has_dict k d -> has_dict k (Py.dict_set k' v d).
Proof.
  intros Hne (inner & Hget & Hin). exists inner.
  by rewrite dict_get_set_other.
Qed.

Lemma has_dict_set_in (k k1 k2 : string) (v : Py.Val) (d : Dict) :
  has_dict k d -> has_dict k (dict_set_in k1 k2 v d).
Proof.
  intros (inner & Hget & Hin). unfold dict_set_in.
  destruct (Py.dict_get k1 d) as [[| | | | |inner1]|] eqn:H1; try by exists inner.
  destruct (String.eqb_spec k k1) as [->|Hne].
  - exists (Py.dict_set k2 v inner1). rewrite dict_get_set_same.
    split; [reflexivity|apply dict_set_not_empty].
  - exists inner. by rewrite dict_get_set_other.
Qed.

Lemma has_dict_enhanced (k : string) (soup : Soup) (d : Dict) :
  k <> "breadcrumbs" -> k <> "features" ->
  has_dict k d -> has_dict k (_extract_enhanced_details soup d).
Proof.
  intros Hb Hf H. unfold _extract_enhanced_details.
  repeat match goal with
  | |- has_dict _ (match ?x with _ => _ end) => destruct x
  | |- has_dict _ (let _ := _ in _) => cbv zeta
  | |- has_dict _ (dict_set_in _ _ _ _) => apply has_dict_set_in
  | |- has_dict _ (Py.dict_set _ _ _) => apply has_dict_set_other; [assumption|]
  end; assumption.
Qed.

Lemma has_dict_not_empty (k : string) (d : Dict) : has_dict k d -> Py.truthy (Py.VDict d) = true.
Proof. intros (inner & Hget & _). destruct d; [discriminate|reflexivity]. Qed.

Lemma meets_criteria_raises (cfg : Config) (book_data : Dict) :
  has_dict "rating" book_data -> _meets_criteria cfg book_data = Raise TypeError.
Proof.
  intros (inner & Hget & Hin). unfold _meets_criteria. rewrite Hget.
  destruct inner; [contradiction|]. reflexivity.
Qed.

Lemma wp_conseq {A} (c : M A) (P Q : Res A -> St -> Prop) (s : St) :
  (forall r s', P r s' -> Q r s') -> wp c P s -> wp c Q s.
Proof. intros H. apply H. Qed.

Lemma wp_any {A} (c : M A) (Q : Res A -> St -> Prop) (s : St) :
  (forall r s', Q r s') -> wp c Q s.
Proof. intros H. apply H. Qed.

Lemma scrape_book_details_spec (url : string) (s : St) :
  wp (_scrape_book_details url) (fun res _ => scraped res) s.
Proof.
  unfold _scrape_book_details. apply wp_bind, wp_any. intros [[response|]|e] s1; try exact I.
  apply wp_bind; unfold wp at 1; cbn [fst snd get_world]. cbv zeta.
  apply wp_bind, wp_any. intros [page_count|e] sa; [|exact I].
  apply wp_bind, wp_any. intros [old_rating|e] sb; [|exact I].
  apply wp_bind, wp_any. intros [old_review_count|e] sc; [|exact I].
  apply wp_bind; unfold wp at 1; cbn [fst snd get_self].
  match goal with |- wp (if _ then _ else ret (Some ?d)) _ _ =>
    assert (H : has_dict "rating" d /\ has_dict "price" d) end.
  { split; (apply has_dict_enhanced; [discriminate|discriminate|]);
    repeat match goal with
    | |- has_dict _ (if ?b then _ else _) => destruct b
    | |- has_dict _ (dict_set_in _ _ _ _) => apply has_dict_set_in
    end; (eexists; split; [reflexivity|discriminate]). }
  destruct (default false _).
  - apply wp_bind, wp_any. intros [reviews|e] s2; [|exact I].
    unfold wp; cbn [fst snd ret scraped]. destruct H as [Hr Hp].
    split; apply has_dict_set_other; (discriminate || assumption).
  - exact H.
Qed.

Lemma scrape_links_spec (links : list string) (i : nat) (s : St) :
  wp (scrape_links links i [])
     (fun res _ => match res with Ok books => books = [] | Raise _ => True end) s.
Proof.
  revert i s. induction links as [|book_url rest IH]; intros i s; cbn [scrape_links].
  - reflexivity.
  - apply wp_bind; unfold wp at 1; cbn [fst snd get_self].
    apply wp_bind, wp_any. intros [[]|e] s1; [|exact I].
    apply wp_bind.
    eapply wp_conseq; [|apply scrape_book_details_spec].
    intros [[data|]|e] s2 Hs; cbn [scraped] in Hs; [| |exact I].
    + destruct Hs as [Hr _]. apply wp_bind.
      rewrite (has_dict_not_empty "rating" data Hr).
      apply wp_bind. unfold wp at 1, lift. rewrite meets_criteria_raises by exact Hr.
      exact I.
    + apply wp_bind; unfold wp at 1; cbn [fst snd ret]. apply IH.
Qed.

(** C9: in every dictionary that [_scrape_book_details] returns, ['rating']
    and ['price'] are dictionaries that are not empty, and [_meets_criteria]
    raises [TypeError] on it whatever the configuration; so a call of
    [search_books] that returns, returns the empty list. *)
Theorem meets_criteria_never_passes :
  (forall url s,
     match fst (_scrape_book_details url s) with
     | Ok (Some book_data) =>
         has_dict "rating" book_data /\ has_dict "price" book_data /\
         forall cfg, _meets_criteria cfg book_data = Raise TypeError
     | _ => True
     end) /\
  (forall search_term category s,
     match fst (search_books search_term category s) with
     | Ok books => books = []
     | Raise _ => True
     end).
Proof.
  split.
  - intros url s. pose proof (scrape_book_details_spec url s) as H. unfold wp in H.
    destruct (fst (_scrape_book_details url s)) as [[d|]|e]; try exact I.
    destruct H as [Hr Hp]. repeat split; try assumption.
    intros cfg. by apply meets_criteria_raises.
  - intros term cat s.
    change (wp (search_books term cat)
              (fun res _ => match res with Ok books => books = [] | Raise _ => True end) s).
    unfold search_books.
    apply wp_bind; unfold wp at 1; cbn [fst snd get_self].
    apply wp_bind, wp_any. intros [[]|e] s1; [|exact I].
    unfold search_warmed.
    apply wp_bind; unfold wp at 1; cbn [fst snd get_self].
    apply wp_bind, wp_any. intros [[response|]|e] s2; [|reflexivity|exact I].
    apply wp_bind; unfold wp at 1; cbn [fst snd get_world]. cbv zeta.
    apply scrape_links_spec.
Qed.

(** The filter is reached: a detail page that loads gives a dictionary, and
    the search then ends in the [TypeError]. *)
Lemma scrape_book_details_example :
  exists book_data,
    fst (_scrape_book_details book_url
           (start 0 (world_of 0.5 (fun _ => Resp (answer 200)) result_page)))
    = Ok (Some book_data).
Proof. eexists. vm_compute. reflexivity. Qed.

Lemma search_books_example :
  fst (search_books "rocq" None
         (start 0 (world_of 0.5 (fun _ => Resp (answer 200)) result_page)))
  = Raise TypeError.
Proof. vm_compute. reflexivity. Qed.

(** ** The flag [skip_warmup] *)

Section Emits.
Context (P : Event -> Prop).

Lemma emits_nothing {A} (c : M A) : keeps (fun s => trace (world s)) c -> emits P c.
Proof. intros H s. exists []. rewrite H, app_nil_r. auto. Qed.

Lemma emits_bind {A B} (c : M A) (k : A -> M B) :
  emits P c -> (forall a, emits P (k a)) -> emits P (bind c k).
Proof.
  intros Hc Hk s. unfold bind. destruct (Hc s) as (evs & Ht & HP).
  destruct (c s) as [[a|e] s1]; cbn [snd] in *; [|by exists evs].
  destruct (Hk a s1) as (evs' & Ht' & HP').
  exists (evs ++ evs'). rewrite Ht', Ht, app_assoc. split; [reflexivity|].
  by apply Forall_app.
Qed.

Lemma emits_try {A} (body : M A) (handler : Exn -> M A) :
  emits P body -> (forall e, emits P (handler e)) -> emits P (try_except body handler).
Proof.
  intros Hc Hk s. unfold try_except. destruct (Hc s) as (evs & Ht & HP).
  destruct (body s) as [[a|e] s1]; cbn [snd] in *; [by exists evs|].
  destruct (Hk e s1) as (evs' & Ht' & HP').
  exists (evs ++ evs'). rewrite Ht', Ht, app_assoc. split; [reflexivity|].
  by apply Forall_app.
Qed.

Lemma emits_when (b : bool) (c : M unit) : emits P c -> emits P (when b c).
Proof.
  destruct b; [trivial|]. intros _. apply emits_nothing. intros s. reflexivity.
Qed.

Lemma emits_update_world (g : World -> World) :
  (forall w, exists evs, trace (g w) = trace w ++ evs /\ Forall P evs) ->
  emits P (update_world g).
Proof. intros Hg s. apply Hg. Qed.
End Emits.

Ltac emits_step :=
  lazymatch goal with
  | |- emits _ (bind _ _) => apply emits_bind; [|intros ?]
  | |- emits _ (try_except _ _) => apply emits_try; [|intros ?]
  | |- emits _ (when _ _) => apply emits_when
  | |- emits _ (if ?b then _ else _) => destruct b
  | |- emits _ (match ?x with _ => _ end) => destruct x
  | |- emits _ (update_world _) =>
      first [ apply emits_nothing; solve [intros ?; reflexivity]
            | apply emits_update_world; intros ?; eexists;
              split; [reflexivity | repeat constructor] ]
  | |- emits _ _ =>
      apply emits_nothing; solve [intros ?; reflexivity | keeps_auto]
  end.

Ltac emits_auto := repeat emits_step.


Section Requests.
Context (url : string).

Lemma emits_uniform (a b : Q) : emits (requests_only url) (random_uniform a b).
Proof. unfold random_uniform, random_random. emits_auto. Qed.

Lemma emits_sleep (why : Pause) (d : Q) : emits (requests_only url) (asyncio_sleep why d).
Proof. unfold asyncio_sleep. emits_auto. Qed.

Lemma emits_get (h : list (string * string)) : emits (requests_only url) (client_get url h).
Proof. unfold client_get. emits_auto. Qed.

Lemma emits_headers : emits (requests_only url) (_get_realistic_headers url).
Proof. apply emits_nothing. unfold _get_realistic_headers, random_choice, random_random. keeps_auto. Qed.

Lemma emits_adaptive (a : nat) (c : option Z) :
  emits (requests_only url) (_adaptive_delay_strategy a c).
Proof.
  unfold _adaptive_delay_strategy, exponential_delay.
  pose proof emits_uniform. pose proof emits_sleep. emits_auto; auto.
Qed.

Lemma emits_reset : emits (requests_only url) _reset_session_strategy.
Proof. unfold _reset_session_strategy, client_aclose, _setup_http_client. emits_auto. Qed.

Lemma emits_backoff (n : Z) : emits (requests_only url) (_intelligent_backoff n).
Proof.
  unfold _intelligent_backoff.
  pose proof emits_uniform. pose proof emits_sleep. pose proof emits_reset.
  emits_auto; auto.
Qed.

Lemma emits_captcha (r : Response) (a : nat) :
  emits (requests_only url) (_handle_captcha_scenario r a).
Proof.
  unfold _handle_captcha_scenario.
  pose proof emits_uniform. pose proof emits_sleep. emits_auto; auto.
Qed.

Lemma emits_send (a : nat) : emits (requests_only url) (send_attempt url a).
Proof.
  unfold send_attempt, random_random.
  pose proof emits_uniform. pose proof emits_sleep. pose proof emits_headers.
  pose proof emits_adaptive. pose proof emits_get.
  emits_auto; auto.
Qed.

Lemma emits_classify (mr : Z) (a : nat) (r : Response) :
  emits (requests_only url) (classify mr a r).
Proof.
  unfold classify, incr_failures, next_captcha_attempt, datetime_now.
  pose proof emits_uniform. pose proof emits_sleep.
  pose proof emits_adaptive. pose proof emits_backoff. pose proof emits_captcha.
  emits_auto; auto.
Qed.

Lemma emits_except (mr : Z) (a : nat) (e : Exn) :
  emits (requests_only url) (attempt_except mr a e).
Proof.
  unfold attempt_except, incr_failures.
  pose proof emits_adaptive. pose proof emits_backoff.
  emits_auto; auto.
Qed.

Lemma emits_retry_loop (mr : Z) (remaining a : nat) :
  emits (requests_only url) (retry_loop url mr a remaining).
Proof.
  revert a. induction remaining as [|k IH]; intros a; cbn [retry_loop].
  - unfold all_attempts_failed, incr_failures. pose proof emits_backoff. emits_auto; auto.
  - unfold attempt_try. pose proof emits_send. pose proof emits_classify.
    pose proof emits_except. emits_auto; auto.
Qed.

Lemma emits_make_request (mr : Z) (b : bool) :
  emits (requests_only url) (_make_request url mr b).
Proof.
  unfold _make_request. apply emits_bind; [|intros ?; apply emits_retry_loop].
  apply emits_nothing. intros s. reflexivity.
Qed.
End Requests.

Lemma keeps_warmed_self {A} (c : M A) : keeps self c -> keeps warmed c.
Proof. intros H s. unfold warmed. by rewrite H. Qed.

Lemma keeps_warmed_reset : keeps warmed _reset_session_strategy.
Proof. intros s. reflexivity. Qed.

Lemma keeps_warmed_backoff (n : Z) : keeps warmed (_intelligent_backoff n).
Proof.
  unfold _intelligent_backoff.
  pose proof keeps_warmed_reset.
  pose proof (fun a b => keeps_warmed_self _ (keeps_self_uniform a b)).
  pose proof (fun a b => keeps_warmed_self _ (keeps_self_sleep a b)).
  keeps_auto; auto.
Qed.

Lemma keeps_warmed_classify (mr : Z) (a : nat) (r : Response) :
  keeps warmed (classify mr a r).
Proof.
  unfold classify, incr_failures, datetime_now.
  pose proof keeps_warmed_backoff.
  pose proof (fun a b => keeps_warmed_self _ (keeps_self_uniform a b)).
  pose proof (fun a b => keeps_warmed_self _ (keeps_self_sleep a b)).
  pose proof (fun a b => keeps_warmed_self _ (keeps_self_adaptive a b)).
  pose proof (fun a b => keeps_warmed_self _ (keeps_self_captcha a b)).
  assert (keeps warmed next_captcha_attempt) by (intros s; reflexivity).
  keeps_auto; auto.
Qed.

Lemma keeps_warmed_except (mr : Z) (a : nat) (e : Exn) :
  keeps warmed (attempt_except mr a e).
Proof.
  unfold attempt_except, incr_failures.
  pose proof keeps_warmed_backoff.
  pose proof (fun a b => keeps_warmed_self _ (keeps_self_adaptive a b)).
  keeps_auto; auto.
Qed.

Lemma keeps_warmed_retry_loop (url : string) (mr : Z) (remaining a : nat) :
  keeps warmed (retry_loop url mr a remaining).
Proof.
  revert a. induction remaining as [|k IH]; intros a; cbn [retry_loop].
  - unfold all_attempts_failed, incr_failures. pose proof keeps_warmed_backoff.
    keeps_auto; auto.
  - unfold attempt_try.
    pose proof (fun a => keeps_warmed_self _ (keeps_self_send url a)).
    pose proof keeps_warmed_classify. pose proof keeps_warmed_except.
    keeps_auto; auto.
Qed.

Lemma keeps_warmed_make_request (url : string) (mr : Z) (b : bool) :
  keeps warmed (_make_request url mr b).
Proof.
  unfold _make_request. apply keeps_bind; [intros s; reflexivity|].
  intros ?. apply keeps_warmed_retry_loop.
Qed.

(** C10: [_make_request] is the same function for both values of
    [skip_warmup]; it leaves the warm-up flag as it was and sends requests to
    its own URL only; whether [search_books] warms up is decided by the flag
    [_session_warmed] alone. *)
Theorem skip_warmup_is_ignored :
  (forall url max_retries flag flag',
     _make_request url max_retries flag = _make_request url max_retries flag') /\
  (forall url max_retries flag s,
     let s' := snd (_make_request url max_retries flag s) in
     warmed s' = warmed s /\
     exists evs, trace (world s') = trace (world s) ++ evs /\
                 Forall (requests_only url) evs) /\
  (forall search_term category s,
     search_books search_term category s =
     if warmed s then search_warmed search_term category s
     else (do _warm_up_session ;;
           do update_self (with_session_warmed true) ;;
           search_warmed search_term category) s).
Proof.
  split; [reflexivity|]. split.
  - intros url mr flag s. split.
    + apply keeps_warmed_make_request.
    + apply emits_make_request.
  - intros term cat s. unfold search_books, warmed.
    unfold bind at 1; cbn [get_self]. 
    destruct (_session_warmed (self s)); cbn [negb when].
    + reflexivity.
    + unfold bind. destruct (_warm_up_session s) as [[b|e] s1]; reflexivity.
Qed.

(** ** The claims about whole fetches *)

(** For up to 1025 attempts a fetch ends in a response with status 200 or
    in [None], and raises nothing. *)
Lemma make_request_absorbs (url : string) (max_retries : Z) (skip_warmup : bool)
    (s : St) :
  max_retries <= 1025 ->
  match fst (_make_request url max_retries skip_warmup s) with
  | Ok None => True
  | Ok (Some r) => status_code r = 200 /\ _is_captcha_page r = false
  | Raise _ => False
  end.
Proof.
  intros Hle. pose proof (make_request_spec url max_retries skip_warmup s) as H.
  unfold wp, fetch_post in H.
  destruct (fst (_make_request url max_retries skip_warmup s)) as [[r|]|e];
    [tauto | exact I | lia].
Qed.

(** C1 (the code departs from the claim): with [max_retries = 1026] and a
    server that answers 500 to every request, attempt 1024 raises an
    [OverflowError] in [_adaptive_delay_strategy] (the power [2 ** 1024] does
    not fit a float); the [except] clause calls [_adaptive_delay_strategy]
    again, outside any [try], and the error leaves [_make_request]. *)
Theorem make_request_overflow_escapes :
  fst (_make_request book_url 1026 false
         (start 0 (world_of 0 always_500 empty_page)))
  = Raise OverflowError.
Proof. vm_compute. reflexivity. Qed.

(** C2: the counter [_consecutive_failures] is left alone until the
    response is handled; handling a response sets it to 0 for a 200 that is
    no CAPTCHA page, leaves it as it was for a 404 that is no CAPTCHA page and
    adds 1 in every other case; the [except] clause and the exhaustion of the
    attempts add 1 each; backoff and session reset do not touch it.  So after
    a fetch the counter is 0 when a response came back, and otherwise it is
    not below its value before the fetch. *)
Theorem consecutive_failures_invariant (url : string) (max_retries : Z)
    (skip_warmup : bool) (attempt : nat) (r : Response) (e : Exn) (s : St) :
  failures (snd (send_attempt url attempt s)) = failures s /\
  failures (snd (classify max_retries attempt r s)) =
    (if _is_captcha_page r then failures s + 1
     else if status_code r =? 200 then 0
     else if status_code r =? 404 then failures s
     else failures s + 1) /\
  failures (snd (attempt_except max_retries attempt e s)) = failures s + 1 /\
  failures (snd (all_attempts_failed s)) = failures s + 1 /\
  failures (snd (_intelligent_backoff (failures s) s)) = failures s /\
  failures (snd (_reset_session_strategy s)) = failures s /\
  match fst (_make_request url max_retries skip_warmup s) with
  | Ok (Some _) => failures (snd (_make_request url max_retries skip_warmup s)) = 0
  | _ => failures s <= failures (snd (_make_request url max_retries skip_warmup s))
  end.
Proof.
  split; [apply keeps_failures_send|].
  split; [apply classify_failures|].
  split; [apply attempt_except_spec|].
  split; [apply all_attempts_failed_spec|].
  split; [apply keeps_failures_backoff|].
  split; [apply keeps_failures_reset|].
  pose proof (make_request_spec url max_retries skip_warmup s) as H.
  unfold wp, fetch_post in H.
  destruct (fst (_make_request url max_retries skip_warmup s)) as [[r'|]|e'];
    tauto.
Qed.

(** The tiers at a count of 3. *)
Lemma intelligent_backoff_tiers_witness :
  exists d : Q,
    fst (_intelligent_backoff 3 (start 3 (world_of 0.5 always_500 empty_page))) = Ok tt /\
    trace (world (snd (_intelligent_backoff 3
                         (start 3 (world_of 0.5 always_500 empty_page))))) =
      [] ++ [AClose] ++ [Sleep (IntelligentBackoff 3) d] /\
    (_session_cookies (self (snd (_intelligent_backoff 3
        (start 3 (world_of 0.5 always_500 empty_page))))) = ∅ /\
     _last_error_code (self (snd (_intelligent_backoff 3
        (start 3 (world_of 0.5 always_500 empty_page))))) = None) /\
    failures (snd (_intelligent_backoff 3
        (start 3 (world_of 0.5 always_500 empty_page)))) = 3 /\
    sent (world (snd (_intelligent_backoff 3
        (start 3 (world_of 0.5 always_500 empty_page))))) = 0%nat /\
    (3 <= 2 -> (5 <= d <= 15)%Q) /\
    (3 <= 3 <= 5 -> (30 <= d <= 90)%Q) /\
    (5 < 3 -> (300 <= d <= 600)%Q).
Proof.
  apply (intelligent_backoff_tiers 3 (start 3 (world_of 0.5 always_500 empty_page))).
  cbn. lra.
Defined.

(** C6 fails as stated: after a 429 with [Retry-After: 12] the next attempt
    still starts with the adaptive delay of error code 429. *)
Lemma retry_after_counterexample :
  ~ retry_after_claim
      (trace (world (snd (_make_request book_url 2 false
                            (start 0 (world_of 0.5 one_429_then_200 empty_page)))))).
Proof. intros [_ H]. vm_compute in H. discriminate H. Qed.

(** The header [Retry-After: 12] on the first attempt. *)
Lemma retry_after_honoured_witness :
  failures (snd (classify 2 0 rate_limited
                   (start 0 (world_of 0.5 one_429_then_200 empty_page)))) = 1 /\
  trace (world (snd (classify 2 0 rate_limited
                       (start 0 (world_of 0.5 one_429_then_200 empty_page))))) =
    [Sleep RetryAfterDelay (inject_Z 12 + (5 + (15 - 5) * 0.5))].
Proof.
  destruct (retry_after_honoured book_url 2 0 rate_limited
              (start 0 (world_of 0.5 one_429_then_200 empty_page)))
    as (H1 & H2 & _); [reflexivity | vm_compute; reflexivity |].
  split; [exact H1|].
  destruct (H2 "12") as [_ Ht];
    [vm_compute; reflexivity | discriminate | reflexivity | vm_compute; discriminate
    | vm_compute; reflexivity |].
  exact Ht.
Defined.

(** C8 fails as stated: the scenario applies four delays of the 503
    formula, not two. *)
Lemma scenario_counterexample :
  let run := _make_request book_url 3 false
               (start 0 (world_of 0.5 two_503_then_200 empty_page)) in
  ~ scenario_claim (fst run) (trace (world (snd run))) (snd run).
Proof. intros run (_ & H & _). vm_compute in H. discriminate H. Qed.

(** The scenario with the answers of [two_503_then_200]. *)
Lemma two_503_then_200_run_witness :
  let s := start 0 (world_of 0.5 two_503_then_200 empty_page) in
  let s' := snd (_make_request book_url 3 false s) in
  fst (_make_request book_url 3 false s) = Ok (Some (answer 200)) /\
  failures s' = 0 /\
  map kind (since (trace (world s)) (trace (world s'))) = scenario_kinds book_url /\
  adaptive_calls (since (trace (world s)) (trace (world s'))) =
    [(0%nat, Some 503); (1%nat, Some 503); (1%nat, Some 503); (2%nat, Some 503)].
Proof.
  apply (two_503_then_200_run book_url false (answer 503) (answer 503) (answer 200)
           (start 0 (world_of 0.5 two_503_then_200 empty_page)));
    vm_compute; reflexivity.
Defined.

(** * Further properties

    Properties of the methods beside the claims: the search URL, the
    detection of CAPTCHA pages, the ASIN, the details of a book, whole
    fetches, pacing, the request headers, reviews, the numbers of a page,
    warm-up and search, the filter, and the removal of duplicates in
    [main]. *)

(** ** Strings *)

Lemma all_ascii_complete (p : ascii -> bool) :
  forallb p all_ascii = true -> forall c, p c = true.
Proof.
  intros H c. rewrite forallb_forall in H. apply H.
  rewrite <- (ascii_nat_embedding c). apply in_map, in_seq.
  pose proof (nat_ascii_bounded c). lia.
Qed.

Lemma append_cons (c : ascii) (a b : string) :
  String c a +:+ b = String c (a +:+ b).
Proof. reflexivity. Qed.

Lemma all_chars_app (p : ascii -> bool) (a b : string) :
  Py.all_chars p (a +:+ b) = Py.all_chars p a && Py.all_chars p b.
Proof.
  induction a as [|c a IH]; [reflexivity|].
  rewrite append_cons. cbn [Py.all_chars]. rewrite IH. by rewrite andb_assoc.
Qed.

Lemma append_assoc (a b c : string) : (a +:+ b) +:+ c = a +:+ (b +:+ c).
Proof. induction a as [|x a IH]; [reflexivity|]. rewrite !append_cons. by rewrite IH. Qed.

Lemma append_nil_r (a : string) : a +:+ "" = a.
Proof. induction a as [|x a IH]; [reflexivity|]. rewrite !append_cons. by rewrite IH. Qed.

Lemma append_inv_head (a b c : string) : a +:+ b = a +:+ c -> b = c.
Proof. induction a as [|x a IH]; [trivial|]. rewrite !append_cons. intros [= H]. auto. Qed.

Lemma prefix_app (p s : string) :
  String.prefix p s = true <-> exists r, s = p +:+ r.
Proof.
  revert s. induction p as [|c p IH]; intros s.
  - destruct s; cbn; split; eauto.
  - destruct s as [|d s]; cbn.
    + split; [discriminate|]. intros [r [=]].
    + destruct (ascii_dec c d) as [->|Hne].
      * rewrite IH. split; intros [r Hr]; exists r; [by rewrite Hr | by injection Hr].
      * split; [discriminate|]. intros [r [= E _]]. congruence.
Qed.

Lemma contains_nil (p : string) :
  Py.contains p "" = String.prefix p "".
Proof. unfold Py.contains. destruct (String.prefix p ""); reflexivity. Qed.

Lemma contains_cons (p : string) (c : ascii) (s : string) :
  Py.contains p (String c s) =
  if String.prefix p (String c s) then true else Py.contains p s.
Proof. reflexivity. Qed.

Lemma contains_app (p s : string) :
  Py.contains p s = true <-> exists a b, s = a +:+ p +:+ b.
Proof.
  induction s as [|c s IH].
  - rewrite contains_nil, prefix_app. split.
    + intros [r Hr]. exists "", r. exact Hr.
    + intros (a & b & H). destruct a; [|discriminate]. by exists b.
  - rewrite contains_cons. destruct (String.prefix p (String c s)) eqn:E.
    + apply prefix_app in E as [r Hr]. split; [|trivial]. intros _. exists "", r. exact Hr.
    + rewrite IH. split.
      * intros (a & b & ->). by exists (String c a), b.
      * intros (a & b & H). destruct a as [|x a].
        -- assert (String.prefix p (String c s) = true) by (apply prefix_app; eauto).
           congruence.
        -- rewrite append_cons in H. injection H as -> ->. by exists a, b.
Qed.

(** A substring of a substring is a substring. *)
Lemma contains_trans (p q s : string) :
  Py.contains p q = true -> Py.contains q s = true -> Py.contains p s = true.
Proof.
  rewrite !contains_app. intros (a & b & ->) (a' & b' & ->).
  exists (a' +:+ a), (b +:+ b'). by rewrite !append_assoc.
Qed.

Lemma contains_char (p s : string) (c : ascii) :
  Py.contains p s = true -> Py.contains (String c "") p = true ->
  Py.contains (String c "") s = true.
Proof. intros H1 H2. exact (contains_trans _ _ _ H2 H1). Qed.

Lemma all_chars_contains (f : ascii -> bool) (p s : string) :
  Py.all_chars f s = true -> Py.contains p s = true -> Py.all_chars f p = true.
Proof.
  intros Hs (a & b & ->)%contains_app.
  rewrite !all_chars_app in Hs. by destruct (Py.all_chars f p); [|rewrite andb_false_r in Hs].
Qed.

(** ** The search URL *)

Lemma quote_plus_char_safe (c : ascii) :
  Py.all_chars url_safe (quote_plus_char c) = true.
Proof. revert c. apply all_ascii_complete. vm_compute. reflexivity. Qed.

Lemma quote_plus_char_not_empty (c : ascii) : quote_plus_char c <> "".
Proof.
  assert (H : negb (quote_plus_char c =? "")%string = true).
  { revert c. apply all_ascii_complete. vm_compute. reflexivity. }
  intros E. rewrite E in H. discriminate H.
Qed.

(** The encodings of the characters form a prefix code. *)
Lemma quote_plus_char_prefix (c1 c2 : ascii) :
  String.prefix (quote_plus_char c1) (quote_plus_char c2) = true -> c1 = c2.
Proof.
  assert (H : forall c1 c2,
    implb (String.prefix (quote_plus_char c1) (quote_plus_char c2))
          (Ascii.eqb c1 c2) = true).
  { intros a. apply all_ascii_complete. revert a. apply all_ascii_complete.
    vm_compute. reflexivity. }
  intros Hp. specialize (H c1 c2). rewrite Hp in H. by apply Ascii.eqb_eq.
Qed.

Lemma prefix_app_l (a b r : string) :
  String.prefix a b = true -> String.prefix a (b +:+ r) = true.
Proof.
  rewrite !prefix_app. intros [x ->]. exists (x +:+ r). by rewrite append_assoc.
Qed.

Lemma append_eq_prefix (a b x y : string) :
  a +:+ x = b +:+ y -> String.prefix a b = true \/ String.prefix b a = true.
Proof.
  revert b. induction a as [|c a IH]; intros b H.
  - left. by destruct b.
  - destruct b as [|d b]; [right; reflexivity|].
    rewrite !append_cons in H. injection H as -> H.
    cbn [String.prefix]. destruct (ascii_dec d d); [|contradiction]. auto.
Qed.

Lemma quote_plus_cons (c : ascii) (s : string) :
  quote_plus (String c s) = quote_plus_char c +:+ quote_plus s.
Proof. reflexivity. Qed.

Lemma quote_plus_inj (s1 s2 : string) : quote_plus s1 = quote_plus s2 -> s1 = s2.
Proof.
  revert s2. induction s1 as [|c1 s1 IH]; intros [|c2 s2] H; [reflexivity| | |].
  - rewrite quote_plus_cons in H. symmetry in H.
    destruct (quote_plus_char c2) eqn:E; [by apply quote_plus_char_not_empty in E|discriminate].
  - rewrite quote_plus_cons in H.
    destruct (quote_plus_char c1) eqn:E; [by apply quote_plus_char_not_empty in E|discriminate].
  - rewrite !quote_plus_cons in H.
    assert (c1 = c2) as ->.
    { destruct (append_eq_prefix _ _ _ _ H) as [Hp|Hp];
        [|symmetry]; by apply quote_plus_char_prefix. }
    apply append_inv_head in H. by rewrite (IH s2 H).
Qed.

Lemma length_append (a b : string) :
  String.length (a +:+ b) = (String.length a + String.length b)%nat.
Proof. induction a as [|c a IH]; [reflexivity|]. rewrite append_cons. cbn. by rewrite IH. Qed.

Lemma append_inv_tail (a b c : string) : a +:+ c = b +:+ c -> a = b.
Proof.
  revert b. induction a as [|x a IH]; intros [|y b] H; [reflexivity| | |].
  - apply (f_equal String.length) in H. rewrite !length_append in H.
    cbn [String.length] in H. lia.
  - apply (f_equal String.length) in H. rewrite !length_append in H.
    cbn [String.length] in H. lia.
  - rewrite !append_cons in H. injection H as -> H. by rewrite (IH b H).
Qed.

Lemma sort_mapping_unknown (v : string) :
  (v =? "price-low-to-high")%string = false ->
  (v =? "price-high-to-low")%string = false ->
  (v =? "avg-customer-review")%string = false ->
  (v =? "newest-arrivals")%string = false ->
  Py.dict_get v sort_mapping = None.
Proof. intros H1 H2 H3 H4. unfold sort_mapping, Py.dict_get. by rewrite H1, H2, H3, H4. Qed.

Lemma search_url_eq (cfg : Config) (search_term : string)
    (category : option string) :
  _build_search_url cfg search_term category =
  "https://www.amazon.com/s?k=" +:+ quote_plus search_term
  +:+ "&i=digital-text&ref=sr_nr_i_0" +:+ sort_suffix (sortBy cfg).
Proof.
  assert (Hplain :
    base_url +:+ "/s?" +:+
      urlencode [("k", search_term); ("i", "digital-text"); ("ref", "sr_nr_i_0")] =
    "https://www.amazon.com/s?k=" +:+ quote_plus search_term
    +:+ "&i=digital-text&ref=sr_nr_i_0" +:+ "").
  { unfold urlencode. cbn [map fst snd String.concat].
    rewrite !append_assoc. vm_compute. reflexivity. }
  assert (Hsort : forall rank suffix,
    "&s=" +:+ quote_plus rank = suffix ->
    base_url +:+ "/s?" +:+
      urlencode (Py.dict_set "s" rank
                   [("k", search_term); ("i", "digital-text"); ("ref", "sr_nr_i_0")]) =
    "https://www.amazon.com/s?k=" +:+ quote_plus search_term
    +:+ "&i=digital-text&ref=sr_nr_i_0" +:+ suffix).
  { intros rank suffix <-. unfold urlencode.
    cbn [Py.dict_set String.eqb Ascii.eqb Bool.eqb map fst snd String.concat].
    rewrite !append_assoc. vm_compute. reflexivity. }
  unfold _build_search_url, sort_suffix.
  destruct (sortBy cfg) as [v|]; cbn [default from_option id]; cbv zeta;
    [|exact Hplain].
  destruct (v =? "relevance")%string eqn:E0; cbv beta iota delta [negb]; [exact Hplain|].
  destruct (String.eqb_spec v "price-low-to-high") as [->|H1]; [by apply Hsort|].
  destruct (String.eqb_spec v "price-high-to-low") as [->|H2]; [by apply Hsort|].
  destruct (String.eqb_spec v "avg-customer-review") as [->|H3]; [by apply Hsort|].
  destruct (String.eqb_spec v "newest-arrivals") as [->|H4]; [by apply Hsort|].
  rewrite sort_mapping_unknown by (by apply String.eqb_neq).
  by apply Hsort.
Qed.

(** X1: The search URL: the site, the path [/s], and the parameters [k] (the
    encoded search term), [i], [ref] and, unless the results are sorted by
    relevance, [s]: the rank of the four known orders, and [relevance] for
    every other value of [sortBy].  The category takes no part in it. *)
Theorem build_search_url_shape (cfg : Config) (search_term : string)
    (category : option string) :
  _build_search_url cfg search_term category =
  "https://www.amazon.com/s?k=" +:+ quote_plus search_term
  +:+ "&i=digital-text&ref=sr_nr_i_0" +:+ sort_suffix (sortBy cfg).
Proof. apply search_url_eq. Qed.

Lemma quote_plus_safe (s : string) :
  Py.all_chars url_safe (quote_plus s) = true.
Proof.
  induction s as [|c s IH]; [reflexivity|].
  rewrite quote_plus_cons, all_chars_app, IH, quote_plus_char_safe. reflexivity.
Qed.

(** X2: Whatever the search term, what stands for it in the search URL holds
    unreserved characters, [+] and [%] only: no [&], [=], [#] or space of the
    term reaches the query string, so a term cannot add a parameter or cut the
    query short. *)
Theorem search_term_is_encoded (cfg : Config) (search_term : string)
    (category : option string) :
  exists q,
    _build_search_url cfg search_term category =
      "https://www.amazon.com/s?k=" +:+ q
      +:+ "&i=digital-text&ref=sr_nr_i_0" +:+ sort_suffix (sortBy cfg) /\
    Py.all_chars url_safe q = true.
Proof.
  exists (quote_plus search_term). split; [apply search_url_eq|apply quote_plus_safe].
Qed.

(** X3: Two search terms that differ give search URLs that differ. *)
Theorem build_search_url_injective (cfg : Config) (t1 t2 : string)
    (c1 c2 : option string) :
  _build_search_url cfg t1 c1 = _build_search_url cfg t2 c2 -> t1 = t2.
Proof.
  rewrite !search_url_eq. intros H.
  apply append_inv_head, append_inv_tail in H. by apply quote_plus_inj.
Qed.

(** ** CAPTCHA detection *)

Lemma lower_char_not_capital (c : ascii) : negb (is_capital (Py.lower_char c)) = true.
Proof. revert c. apply all_ascii_complete. vm_compute. reflexivity. Qed.

Lemma lower_not_capital (s : string) :
  Py.all_chars (fun c => negb (is_capital c)) (Py.lower s) = true.
Proof.
  induction s as [|c s IH]; [reflexivity|].
  cbn [Py.lower Py.all_chars]. by rewrite lower_char_not_capital, IH.
Qed.

(** A pattern with a capital letter is in no lowered string. *)
Lemma capital_pattern_never_matches (p s : string) :
  Py.all_chars (fun c => negb (is_capital c)) p = false ->
  Py.contains p (Py.lower s) = false.
Proof.
  intros Hp. destruct (Py.contains p (Py.lower s)) eqn:E; [|reflexivity].
  rewrite (all_chars_contains _ p (Py.lower s) (lower_not_capital s) E) in Hp.
  discriminate Hp.
Qed.

(** X4: Of the five URL patterns of [_is_captcha_page] one decides: the pattern
    [errors/validateCaptcha] has a capital letter and is looked for in the
    lowered URL, where it never is; [api/captcha], [validatecaptcha] and
    [captcha.html] are found only where [captcha] is found already.  So a
    page is a CAPTCHA page exactly when its body has an indicator, its URL
    has [captcha] or [ref=cs_503_logo], its headers have [captcha], or its
    body has a blocking pattern. *)
Theorem captcha_url_patterns (response : Response) :
  let url := Py.lower (resp_url response) in
  let content := Py.lower (resp_text response) in
  Py.contains "errors/validateCaptcha" url = false /\
  _is_captcha_page response =
    Py.any_in captcha_indicators content
    || Py.contains "captcha" url
    || Py.contains "ref=cs_503_logo" url
    || Py.contains "captcha" (Py.lower (headers_str (resp_headers response)))
    || Py.any_in amazon_blocking_patterns content.
Proof.
  intros url content.
  assert (Hdead : Py.contains "errors/validateCaptcha" url = false)
    by (apply capital_pattern_never_matches; reflexivity).
  split; [exact Hdead|].
  unfold _is_captcha_page. fold url content.
  unfold Py.any_in at 2. unfold amazon_captcha_patterns. cbn [existsb].
  rewrite Hdead.
  assert (Hsub : forall p, Py.contains "captcha" p = true ->
            Py.contains p url = true -> Py.contains "captcha" url = true)
    by (intros p; apply contains_trans).
  pose proof (Hsub "api/captcha" eq_refl) as H1.
  pose proof (Hsub "validatecaptcha" eq_refl) as H2.
  pose proof (Hsub "captcha.html" eq_refl) as H3.
  destruct (Py.contains "api/captcha" url);
    [rewrite H1 by reflexivity; by rewrite ?orb_true_r, ?orb_true_l|].
  destruct (Py.contains "validatecaptcha" url);
    [rewrite H2 by reflexivity; by rewrite ?orb_true_r, ?orb_true_l|].
  destruct (Py.contains "captcha.html" url);
    [rewrite H3 by reflexivity; by rewrite ?orb_true_r, ?orb_true_l|].
  cbn [orb]. by rewrite !orb_false_r.
Qed.

(** ** The ASIN of a URL *)

Lemma find_asin_nil : find_asin_from "" = None.
Proof. reflexivity. Qed.

Lemma find_asin_cons (c : ascii) (s : string) :
  find_asin_from (String c s) =
  match asin_here (String c s) with
  | Some a => Some a
  | None => find_asin_from s
  end.
Proof. reflexivity. Qed.

Lemma substring_0_app (a r : string) :
  String.substring 0 (String.length a) (a +:+ r) = a.
Proof.
  induction a as [|c a IH]; [by destruct r|].
  rewrite append_cons. cbn [String.length String.substring]. by rewrite IH.
Qed.

Lemma substring_0_prefix (n : nat) (r : string) :
  String.length (String.substring 0 n r) = n ->
  exists r', r = String.substring 0 n r +:+ r'.
Proof.
  revert r. induction n as [|n IH]; intros r H.
  - exists r. by destruct r.
  - destruct r as [|c r]; [discriminate|].
    cbn [String.substring String.length] in H |- *.
    injection H as H. destruct (IH r H) as [r' Hr'].
    exists r'. rewrite append_cons. by rewrite <- Hr'.
Qed.

Lemma asin_here_sound (s a : string) :
  asin_here s = Some a ->
  String.length a = 10%nat /\ Py.all_chars is_asin_char a = true /\
  String.prefix ("/dp/" +:+ a) s = true.
Proof.
  unfold asin_here. destruct (String.prefix "/dp/" s) eqn:Hp; [|discriminate].
  apply prefix_app in Hp as [r ->].
  change (String.substring 4 10 ("/dp/" +:+ r)) with (String.substring 0 10 r).
  destruct (Nat.eqb_spec (String.length (String.substring 0 10 r)) 10) as [Hl|];
    [|discriminate].
  destruct (Py.all_chars is_asin_char (String.substring 0 10 r)) eqn:Ha; [|discriminate].
  intros [= <-]. repeat split; [exact Hl | exact Ha |].
  destruct (substring_0_prefix 10 r Hl) as [r' Hr'].
  apply prefix_app. exists r'. rewrite append_assoc. by rewrite <- Hr'.
Qed.

Lemma asin_here_complete (s a : string) :
  String.length a = 10%nat -> Py.all_chars is_asin_char a = true ->
  String.prefix ("/dp/" +:+ a) s = true ->
  asin_here s = Some a.
Proof.
  intros Hl Ha [r ->]%prefix_app. unfold asin_here.
  rewrite append_assoc.
  assert (String.prefix "/dp/" ("/dp/" +:+ a +:+ r) = true) as ->
    by (apply prefix_app; eauto).
  change (String.substring 4 10 ("/dp/" +:+ a +:+ r))
    with (String.substring 0 10 (a +:+ r)).
  assert (String.substring 0 10 (a +:+ r) = a) as ->
    by (rewrite <- Hl; apply substring_0_app).
  rewrite Hl, Ha. reflexivity.
Qed.

(** X5: The ASIN that [_scrape_book_details] and [_scrape_reviews] read off a
    URL: ten characters out of A-Z and 0-9 that follow [/dp/] in the URL;
    and there is none exactly when no ten such characters follow a [/dp/]
    anywhere in the URL. *)
Theorem find_asin_correct (book_url : string) :
  (forall asin, find_asin_from book_url = Some asin ->
     String.length asin = 10%nat /\
     Py.all_chars is_asin_char asin = true /\
     Py.contains ("/dp/" +:+ asin) book_url = true) /\
  (find_asin_from book_url = None <->
   forall a, String.length a = 10%nat -> Py.all_chars is_asin_char a = true ->
             Py.contains ("/dp/" +:+ a) book_url = false).
Proof.
  induction book_url as [|c s [IHs IHn]].
  - split; [discriminate|]. split; [|reflexivity].
    intros _ a Hl Ha. rewrite contains_nil.
    destruct a; [discriminate|reflexivity].
  - split.
    + intros a. rewrite find_asin_cons, contains_cons.
      destruct (asin_here (String c s)) as [a'|] eqn:E.
      * intros [= ->]. destruct (asin_here_sound _ _ E) as (Hl & Ha & Hp).
        by rewrite Hp.
      * intros H. destruct (IHs a H) as (Hl & Ha & Hc). rewrite Hc.
        by destruct (String.prefix _ _).
    + rewrite find_asin_cons. destruct (asin_here (String c s)) as [a'|] eqn:E.
      * split; [discriminate|]. intros H.
        destruct (asin_here_sound _ _ E) as (Hl & Ha & Hp).
        specialize (H a' Hl Ha). rewrite contains_cons, Hp in H. discriminate H.
      * rewrite IHn. split; intros H a Hl Ha; specialize (H a Hl Ha).
        -- rewrite contains_cons.
           destruct (String.prefix ("/dp/" +:+ a) (String c s)) eqn:Hp; [|exact H].
           rewrite (asin_here_complete _ a Hl Ha Hp) in E. discriminate E.
        -- rewrite contains_cons in H.
           by destruct (String.prefix ("/dp/" +:+ a) (String c s)).
Qed.

(** ** Dictionaries *)

Lemma dict_get_in_keys {V} (k : string) (d : list (string * V)) (v : V) :
  Py.dict_get k d = Some v -> In k (map fst d).
Proof.
  induction d as [|[k' v'] d IH]; [discriminate|]. cbn.
  destruct (String.eqb_spec k k') as [->|Hne]; [auto|]. intros H. right. auto.
Qed.

Lemma dict_set_keys {V} (k : string) (v : V) (d : list (string * V)) :
  In k (map fst d) -> map fst (Py.dict_set k v d) = map fst d.
Proof.
  induction d as [|[k' v'] d IH]; [contradiction|]. cbn.
  destruct (String.eqb_spec k k') as [->|Hne]; [reflexivity|].
  intros [E|Hin]; [congruence|]. cbn. by rewrite IH.
Qed.

Lemma dict_set_new_key {V} (k : string) (v : V) (d : list (string * V)) :
  ~ In k (map fst d) -> Py.dict_set k v d = d ++ [(k, v)].
Proof.
  induction d as [|[k' v'] d IH]; [reflexivity|]. cbn.
  destruct (String.eqb_spec k k') as [->|Hne]; [tauto|].
  intros H. rewrite IH by tauto. reflexivity.
Qed.

Lemma dict_set_in_keys (k1 k2 : string) (v : Py.Val) (d : Dict) :
  map fst (dict_set_in k1 k2 v d) = map fst d.
Proof.
  unfold dict_set_in. destruct (Py.dict_get k1 d) as [[]|] eqn:E; try reflexivity.
  apply dict_set_keys. by eapply dict_get_in_keys.
Qed.

Lemma dict_get_set_in_other (k k1 k2 : string) (v : Py.Val) (d : Dict) :
  k <> k1 -> Py.dict_get k (dict_set_in k1 k2 v d) = Py.dict_get k d.
Proof.
  intros Hne. unfold dict_set_in.
  destruct (Py.dict_get k1 d) as [[]|]; try reflexivity.
  by apply dict_get_set_other.
Qed.

Lemma dict_get_set_in_same (k1 k2 : string) (v : Py.Val) (d inner : Dict) :
  Py.dict_get k1 d = Some (Py.VDict inner) ->
  Py.dict_get k1 (dict_set_in k1 k2 v d) = Some (Py.VDict (Py.dict_set k2 v inner)).
Proof. intros H. unfold dict_set_in. rewrite H. apply dict_get_set_same. Qed.

(** [_extract_enhanced_details] leaves every other key as it was. *)
Lemma enhanced_get_other (k : string) (soup : Soup) (d : Dict) :
  ~ In k enhanced_keys ->
  Py.dict_get k (_extract_enhanced_details soup d) = Py.dict_get k d.
Proof.
  intros Hk. unfold enhanced_keys in Hk. cbn [In] in Hk.
  unfold _extract_enhanced_details.
  repeat match goal with
  | |- context [match ?x with _ => _ end] =>
      lazymatch x with
      | sp_categories _ => destruct x
      | sp_availability _ => destruct x
      | sp_seller _ => destruct x as [[? []]|]
      | sp_publisher _ => destruct x
      | sp_dimensions _ => destruct x
      end
  end; cbv zeta;
  repeat first
    [ rewrite dict_get_set_in_other by (intros ->; tauto)
    | rewrite dict_get_set_other by (intros ->; tauto) ];
  reflexivity.
Qed.

(** The keys of [book_data] are the same after [_extract_enhanced_details]
    when [breadcrumbs] and [features] are among them. *)
Lemma enhanced_keys_same (soup : Soup) (d : Dict) :
  In "breadcrumbs" (map fst d) -> In "features" (map fst d) ->
  map fst (_extract_enhanced_details soup d) = map fst d.
Proof.
  intros Hb Hf. unfold _extract_enhanced_details.
  repeat match goal with
  | |- context [match ?x with _ => _ end] =>
      lazymatch x with
      | sp_categories _ => destruct x
      | sp_availability _ => destruct x
      | sp_seller _ => destruct x as [[? []]|]
      | sp_publisher _ => destruct x
      | sp_dimensions _ => destruct x
      end
  end; cbv zeta;
  rewrite ?dict_set_in_keys;
  repeat (rewrite dict_set_keys; [|rewrite ?dict_set_keys by assumption; assumption]);
  reflexivity.
Qed.

(** ** Enhanced details *)

Lemma existsb_eqb_in (x : string) (l : list string) :
  existsb (String.eqb x) l = true <-> In x l.
Proof.
  rewrite existsb_exists. split.
  - intros (y & Hy & ->%String.eqb_eq). exact Hy.
  - intros H. exists x. split; [exact H|apply String.eqb_refl].
Qed.

Lemma add_thumbnails_spec (srcs acc : list string) :
  NoDup acc ->
  NoDup (add_thumbnails srcs acc) /\
  forall x, In x (add_thumbnails srcs acc) <-> In x acc \/ (In x srcs /\ x <> "").
Proof.
  revert acc. induction srcs as [|src srcs IH]; intros acc Hacc; cbn [add_thumbnails].
  - split; [exact Hacc|]. intros x. cbn. tauto.
  - destruct (String.eqb_spec src "") as [->|Hne]; cbn [negb andb].
    + destruct (IH acc Hacc) as [Hn Hin]. split; [exact Hn|].
      intros x. rewrite Hin. cbn. split; [tauto|]. intros [?|[[<-|?] ?]]; tauto.
    + destruct (existsb (String.eqb src) acc) eqn:E; cbn [negb].
      * apply existsb_eqb_in in E.
        destruct (IH acc Hacc) as [Hn Hin]. split; [exact Hn|].
        intros x. rewrite Hin. cbn. split; [tauto|]. intros [?|[[<-|?] ?]]; tauto.
      * assert (Hnew : ~ In src acc).
        { intros Hin%existsb_eqb_in. congruence. }
        assert (Hacc' : NoDup (acc ++ [src])).
        { apply NoDup_app. split; [exact Hacc|]. split; [|apply NoDup_singleton].
          intros x Hx ->%list_elem_of_singleton. by apply Hnew, list_elem_of_In. }
        destruct (IH (acc ++ [src]) Hacc') as [Hn Hin]. split; [exact Hn|].
        intros x. rewrite Hin, in_app_iff. cbn. split.
        -- intros [[?|[<-|[]]]|[? ?]]; tauto.
        -- intros [?|[[<-|?] ?]]; tauto.
Qed.

(** X6: The thumbnails of a book: when the list starts empty, as
    [_scrape_book_details] sets it up, [_extract_enhanced_details] leaves in
    [images.thumbnails] the sources of the page that are not empty, each of
    them once. *)
Theorem thumbnails_are_distinct (soup : Soup) (book_data images : Dict) :
  Py.dict_get "images" book_data = Some (Py.VDict images) ->
  Py.dict_get "thumbnails" images = Some (Py.VList []) ->
  exists thumbnails,
    Py.dict_get "images" (_extract_enhanced_details soup book_data) =
      Some (Py.VDict (Py.dict_set "thumbnails" (str_list thumbnails) images)) /\
    NoDup thumbnails /\
    forall src, In src thumbnails <-> In src (sp_thumbnails soup) /\ src <> "".
Proof.
  intros Hi _. exists (add_thumbnails (sp_thumbnails soup) []).
  destruct (add_thumbnails_spec (sp_thumbnails soup) [] (NoDup_nil_2 (A:=string))) as [Hn Hin].
  split; [|split; [exact Hn|]].
  - unfold _extract_enhanced_details.
    repeat match goal with
    | |- context [match ?x with _ => _ end] =>
        lazymatch x with
        | sp_categories _ => destruct x
        | sp_availability _ => destruct x
        | sp_seller _ => destruct x as [[? []]|]
        | sp_publisher _ => destruct x
        | sp_dimensions _ => destruct x
        end
    end; cbv zeta;
    rewrite ?dict_get_set_in_other by discriminate;
    (erewrite dict_get_set_in_same;
       [reflexivity | by rewrite ?dict_get_set_other by discriminate]).
  - intros x. rewrite Hin. cbn. tauto.
Qed.

(** X7: A text that says [unavailable] says [available]: for every
    availability text with [unavailable] in it, in any case of the letters,
    [_extract_enhanced_details] records the text and sets [inStock] to
    [True]. *)
Theorem unavailable_is_in_stock (soup : Soup) (book_data availability : Dict)
    (avail_text : string) :
  sp_availability soup = Some avail_text ->
  Py.contains "unavailable" (Py.lower avail_text) = true ->
  Py.dict_get "availability" book_data = Some (Py.VDict availability) ->
  exists availability',
    Py.dict_get "availability" (_extract_enhanced_details soup book_data) =
      Some (Py.VDict availability') /\
    Py.dict_get "inStock" availability' = Some (Py.VBool true) /\
    Py.dict_get "stockText" availability' = Some (Py.VStr avail_text).
Proof.
  intros Ha Hun Hd.
  assert (Hav : Py.contains "available" (Py.lower avail_text) = true)
    by (eapply contains_trans; [|exact Hun]; reflexivity).
  exists (Py.dict_set "inStock" (Py.VBool true)
            (Py.dict_set "stockText" (Py.VStr avail_text) availability)).
  split; [|split].
  - unfold _extract_enhanced_details. rewrite Ha, Hav, orb_true_r.
    repeat match goal with
    | |- context [match ?x with _ => _ end] =>
        lazymatch x with
        | sp_categories _ => destruct x
        | sp_seller _ => destruct x as [[? []]|]
        | sp_publisher _ => destruct x
        | sp_dimensions _ => destruct x
        end
    end; cbv zeta;
    rewrite ?dict_get_set_in_other by discriminate;
    (erewrite dict_get_set_in_same; [reflexivity|]);
    (erewrite dict_get_set_in_same; [reflexivity|]);
    by rewrite ?dict_get_set_in_other, ?dict_get_set_other by discriminate.
  - apply dict_get_set_same.
  - rewrite dict_get_set_other by discriminate. apply dict_get_set_same.
Qed.

(** ** What the engine leaves alone *)

Lemma keeps_proj {A X Y} (f : St -> X) (g : X -> Y) (c : M A) :
  keeps f c -> keeps (fun s => g (f s)) c.
Proof. intros H s. by rewrite H. Qed.

Lemma keeps_silent_fixed {A} (c : M A) : keeps silent c -> keeps fixed c.
Proof. apply (keeps_proj silent fst). Qed.

Lemma keeps_silent_nsent {A} (c : M A) : keeps silent c -> keeps nsent c.
Proof. apply (keeps_proj silent snd). Qed.

Lemma keeps_silent_uniform (a b : Q) : keeps silent (random_uniform a b).
Proof. unfold random_uniform, random_random. keeps_auto. Qed.

Lemma keeps_silent_sleep (why : Pause) (d : Q) : keeps silent (asyncio_sleep why d).
Proof. unfold asyncio_sleep. keeps_auto. Qed.

Lemma keeps_silent_headers (url : string) : keeps silent (_get_realistic_headers url).
Proof. unfold _get_realistic_headers, random_choice, random_random. keeps_auto. Qed.

Lemma keeps_silent_adaptive (a : nat) (c : option Z) :
  keeps silent (_adaptive_delay_strategy a c).
Proof.
  unfold _adaptive_delay_strategy, exponential_delay.
  pose proof keeps_silent_uniform. pose proof keeps_silent_sleep.
  keeps_auto; auto.
Qed.

Lemma keeps_silent_captcha (r : Response) (a : nat) :
  keeps silent (_handle_captcha_scenario r a).
Proof.
  unfold _handle_captcha_scenario.
  pose proof keeps_silent_uniform. pose proof keeps_silent_sleep.
  keeps_auto; auto.
Qed.

Lemma keeps_silent_reset : keeps silent _reset_session_strategy.
Proof. intros s. reflexivity. Qed.

Lemma keeps_silent_backoff (n : Z) : keeps silent (_intelligent_backoff n).
Proof.
  unfold _intelligent_backoff.
  pose proof keeps_silent_uniform. pose proof keeps_silent_sleep.
  pose proof keeps_silent_reset.
  keeps_auto; auto.
Qed.

Lemma keeps_silent_classify (mr : Z) (a : nat) (r : Response) :
  keeps silent (classify mr a r).
Proof.
  unfold classify, incr_failures, datetime_now.
  pose proof keeps_silent_uniform. pose proof keeps_silent_sleep.
  pose proof keeps_silent_adaptive. pose proof keeps_silent_backoff.
  pose proof keeps_silent_captcha.
  assert (keeps silent next_captcha_attempt) by (intros s; reflexivity).
  keeps_auto; auto.
Qed.

Lemma keeps_silent_except (mr : Z) (a : nat) (e : Exn) :
  keeps silent (attempt_except mr a e).
Proof.
  unfold attempt_except, incr_failures.
  pose proof keeps_silent_adaptive. pose proof keeps_silent_backoff.
  keeps_auto; auto.
Qed.

Lemma keeps_silent_exhausted : keeps silent all_attempts_failed.
Proof.
  unfold all_attempts_failed, incr_failures. pose proof keeps_silent_backoff.
  keeps_auto; auto.
Qed.

Lemma keeps_fixed_get (url : string) (h : list (string * string)) :
  keeps fixed (client_get url h).
Proof. unfold client_get. keeps_auto. Qed.

Lemma keeps_fixed_send (url : string) (a : nat) : keeps fixed (send_attempt url a).
Proof.
  unfold send_attempt, random_random.
  pose proof (fun a b => keeps_silent_fixed _ (keeps_silent_uniform a b)).
  pose proof (fun a b => keeps_silent_fixed _ (keeps_silent_sleep a b)).
  pose proof (fun a b => keeps_silent_fixed _ (keeps_silent_adaptive a b)).
  pose proof (fun a => keeps_silent_fixed _ (keeps_silent_headers a)).
  pose proof keeps_fixed_get.
  keeps_auto; auto.
Qed.

Lemma keeps_fixed_retry_loop (url : string) (mr : Z) (remaining a : nat) :
  keeps fixed (retry_loop url mr a remaining).
Proof.
  revert a. induction remaining as [|k IH]; intros a; cbn [retry_loop].
  - apply keeps_silent_fixed, keeps_silent_exhausted.
  - unfold attempt_try.
    pose proof keeps_fixed_send.
    pose proof (fun a b c => keeps_silent_fixed _ (keeps_silent_classify a b c)).
    pose proof (fun a b c => keeps_silent_fixed _ (keeps_silent_except a b c)).
    keeps_auto; auto.
Qed.

Lemma keeps_fixed_make_request (url : string) (mr : Z) (b : bool) :
  keeps fixed (_make_request url mr b).
Proof.
  unfold _make_request. apply keeps_bind; [intros s; reflexivity|].
  intros ?. apply keeps_fixed_retry_loop.
Qed.

(** ** Counting requests *)

Lemma sends_keeps {A} (c : M A) : keeps nsent c -> sends 0 c.
Proof. intros H s. rewrite H. lia. Qed.

Lemma sends_more {A} (n m : nat) (c : M A) : (n <= m)%nat -> sends n c -> sends m c.
Proof. intros Hle H s. specialize (H s). lia. Qed.

Lemma sends_bind {A B} (n m : nat) (c : M A) (k : A -> M B) :
  sends n c -> (forall a, sends m (k a)) -> sends (n + m) (bind c k).
Proof.
  intros Hc Hk s. unfold bind. specialize (Hc s).
  destruct (c s) as [[a|e] s1]; cbn [snd] in *; [|lia].
  specialize (Hk a s1). lia.
Qed.

Lemma sends_try {A} (n m : nat) (body : M A) (handler : Exn -> M A) :
  sends n body -> (forall e, sends m (handler e)) ->
  sends (n + m) (try_except body handler).
Proof.
  intros Hc Hk s. unfold try_except. specialize (Hc s).
  destruct (body s) as [[a|e] s1]; cbn [snd] in *; [lia|].
  specialize (Hk e s1). lia.
Qed.

Lemma sends_get (url : string) (h : list (string * string)) :
  sends 1 (client_get url h).
Proof.
  intros s. unfold client_get, bind, nsent; cbn [get_world update_world].
  destruct (net (world s) (sent (world s))); cbn; lia.
Qed.

Lemma sends_send (url : string) (a : nat) : sends 1 (send_attempt url a).
Proof.
  unfold send_attempt.
  apply (sends_bind 0 1); [apply sends_keeps, keeps_silent_nsent, keeps_silent_headers|].
  intros h. apply (sends_bind 0 1); [apply sends_keeps; intros s; reflexivity|].
  intros o. apply (sends_bind 0 1).
  { apply sends_keeps, keeps_when, keeps_silent_nsent, keeps_silent_adaptive. }
  intros _. apply (sends_bind 0 1); [apply sends_keeps; intros s; reflexivity|].
  intros o'. cbv zeta.
  apply (sends_bind 0 1); [apply sends_keeps, keeps_silent_nsent, keeps_silent_uniform|].
  intros d. apply (sends_bind 0 1).
  { apply sends_keeps. unfold random_random. keeps_auto. }
  intros u. apply (sends_bind 0 1).
  { apply sends_keeps. pose proof (fun a b => keeps_silent_nsent _ (keeps_silent_uniform a b)).
    keeps_auto; auto. }
  intros d'. apply (sends_bind 0 1); [apply sends_keeps, keeps_silent_nsent, keeps_silent_sleep|].
  intros _. apply sends_get.
Qed.

Lemma sends_pass (url : string) (mr : Z) (a : nat) :
  sends 1 (try_except (attempt_try url mr a) (attempt_except mr a)).
Proof.
  apply (sends_try 1 0).
  - unfold attempt_try. apply (sends_bind 1 0); [apply sends_send|].
    intros r. apply sends_keeps, keeps_silent_nsent, keeps_silent_classify.
  - intros e. apply sends_keeps, keeps_silent_nsent, keeps_silent_except.
Qed.

Lemma sends_retry_loop (url : string) (mr : Z) (remaining a : nat) :
  sends remaining (retry_loop url mr a remaining).
Proof.
  revert a. induction remaining as [|k IH]; intros a; cbn [retry_loop].
  - apply sends_keeps, keeps_silent_nsent, keeps_silent_exhausted.
  - apply (sends_bind 1 k); [apply sends_pass|].
    intros [|r]; [apply IH|]. apply (sends_more 0); [lia|].
    apply sends_keeps. intros s. reflexivity.
Qed.

Lemma sends_make_request (url : string) (mr : Z) (b : bool) :
  sends (Z.to_nat mr) (_make_request url mr b).
Proof.
  unfold _make_request. apply (sends_bind 0 (Z.to_nat mr)).
  - apply sends_keeps. intros s. reflexivity.
  - intros _. apply sends_retry_loop.
Qed.

(** ** Whole fetches *)

(** X8: For up to 1025 attempts a fetch raises nothing: it returns a response,
    which then has status 200 and is no CAPTCHA page, or it returns [None];
    every failure on the way, of the server or of the transport, is taken up
    by the retry loop. *)
Theorem fetch_gives_200_or_none (url : string) (max_retries : Z)
    (skip_warmup : bool) (s : St) :
  max_retries <= 1025 ->
  exists res : option Response,
    fst (_make_request url max_retries skip_warmup s) = Ok res /\
    match res with
    | Some r => status_code r = 200 /\ _is_captcha_page r = false
    | None => True
    end.
Proof.
  intros Hle. pose proof (make_request_spec url max_retries skip_warmup s) as H.
  unfold wp, fetch_post in H.
  destruct (fst (_make_request url max_retries skip_warmup s)) as [[r|]|e].
  - exists (Some r). split; [reflexivity|tauto].
  - by exists None.
  - lia.
Qed.

(** X9: A fetch sends at most [max_retries] requests, none when [max_retries]
    is 0 or negative, and every request it sends is for its own URL, also
    when the fetch ends in an exception. *)
Theorem make_request_request_bound (url : string) (max_retries : Z)
    (skip_warmup : bool) (s : St) :
  let s' := snd (_make_request url max_retries skip_warmup s) in
  (sent (world s) <= sent (world s') <= sent (world s) + Z.to_nat max_retries)%nat /\
  exists evs, trace (world s') = trace (world s) ++ evs /\
              Forall (requests_only url) evs.
Proof.
  split.
  - apply (sends_make_request url max_retries skip_warmup s).
  - apply emits_make_request.
Qed.

(** X10: With no attempt to make, [max_retries <= 0], a fetch returns [None]
    without a request, and counts one failure. *)
Theorem make_request_no_attempts (url : string) (max_retries : Z)
    (skip_warmup : bool) (s : St) :
  max_retries <= 0 ->
  let s' := snd (_make_request url max_retries skip_warmup s) in
  fst (_make_request url max_retries skip_warmup s) = Ok None /\
  failures s' = failures s + 1 /\
  sent (world s') = sent (world s).
Proof.
  intros Hle s'. subst s'.
  assert (E : _make_request url max_retries skip_warmup s =
              all_attempts_failed (set_captcha_attempts 0 s)).
  { unfold _make_request. replace (Z.to_nat max_retries) with 0%nat by lia.
    reflexivity. }
  rewrite E.
  pose proof (all_attempts_failed_spec (set_captcha_attempts 0 s)) as [H1 H2].
  pose proof (keeps_silent_nsent _ keeps_silent_exhausted (set_captcha_attempts 0 s)) as H3.
  repeat split; [exact H1 | exact H2 | exact H3].
Qed.

Lemma classify_200_run (max_retries : Z) (attempt : nat) (r : Response) (s : St) :
  status_code r = 200 -> _is_captcha_page r = false ->
  classify max_retries attempt r s =
  (Ok (Return (Some r)),
   set_self (fun o =>
     with_session_cookies (resp_cookies r ∪ _session_cookies o)
       (with_last_success_time (Some (clock (world s)))
          (with_consecutive_failures 0 (with_last_error_code None o)))) s).
Proof.
  intros E Hc. unfold classify, bind; cbn [update_self]. rewrite Hc, E.
  cbn [Z.eqb Pos.eqb update_self datetime_now get_world ret fst snd].
  destruct s as [o w ca]. unfold when, set_self. cbn.
  case_bool_decide as Hne; cbn.
  - rewrite Hne, (left_id_L ∅ (∪)). reflexivity.
  - reflexivity.
Qed.

(** X11: A clean 200 on the first attempt: the response comes back after one
    pacing delay and one request; the counter is 0, the last error code is
    cleared, the time of the success is the time of the return, and the
    cookies of the response are merged into the cookies of the session, the
    response winning where both have a name. *)
Theorem first_try_success (url : string) (max_retries : Z) (skip_warmup : bool)
    (r : Response) (s : St) :
  0 < max_retries ->
  net (world s) (sent (world s)) = Resp r ->
  status_code r = 200 ->
  _is_captcha_page r = false ->
  let s' := snd (_make_request url max_retries skip_warmup s) in
  fst (_make_request url max_retries skip_warmup s) = Ok (Some r) /\
  sent (world s') = S (sent (world s)) /\
  map kind (since (trace (world s)) (trace (world s'))) =
    [KSleep HumanDelay; KGet url] /\
  failures s' = 0 /\
  _last_error_code (self s') = None /\
  _last_success_time (self s') = Some (clock (world s')) /\
  _session_cookies (self s') = resp_cookies r ∪ _session_cookies (self s) /\
  forall name,
    _session_cookies (self s') !! name =
    match resp_cookies r !! name with
    | Some v => Some v
    | None => _session_cookies (self s) !! name
    end.
Proof.
  intros Hpos Hnet E Hc.
  assert (Hmain : wp (_make_request url max_retries skip_warmup)
    (fun res s' =>
       res = Ok (Some r) /\
       sent (world s') = S (sent (world s)) /\
       (exists evs, trace (world s') = trace (world s) ++ evs /\
                    map kind evs = [KSleep HumanDelay; KGet url]) /\
       failures s' = 0 /\
       _last_error_code (self s') = None /\
       _last_success_time (self s') = Some (clock (world s')) /\
       _session_cookies (self s') = resp_cookies r ∪ _session_cookies (self s)) s).
  { unfold _make_request. apply wp_bind; unfold wp at 1; cbn [fst snd].
    destruct (Z.to_nat max_retries) as [|k] eqn:Ek; [lia|]. cbn [retry_loop].
    apply wp_bind, wp_try. unfold attempt_try.
    apply wp_bind, wp_send_attempt.
    { unfold overflow_from. destruct (code_is _ 503); [lia|].
      destruct (code_is _ 429); [lia|]. destruct (code_is _ 403); lia. }
    intros evs h s1 H1 K1. cbn [self world set_captcha_attempts] in H1, K1 |- *.
    rewrite Hnet. unfold wp. rewrite classify_200_run by assumption.
    cbn [fst snd ret]. obs_all. cbn [set_self self world].
    repeat split; try assumption; try reflexivity.
    - exists (evs ++ [Get url h]). split; [assumption|].
      rewrite map_app, K1. reflexivity.
    - obs_rw. reflexivity. }
  unfold wp in Hmain. destruct Hmain as (Hres & Hsent & (evs & Ht & Hk) & Hf & Hl & Hs & Hck).
  cbv zeta. rewrite Ht, since_app.
  repeat split; try assumption.
  intros name. rewrite Hck, lookup_union.
  destruct (resp_cookies r !! name), (_session_cookies (self s) !! name); reflexivity.
Qed.

(** ** CAPTCHA pages *)

Lemma handle_captcha_run (r : Response) (attempt : nat) (s : St) :
  let lo := fst (captcha_bounds attempt) in
  let hi := snd (captcha_bounds attempt) in
  let d := (lo + (hi - lo) * rng (world s) (draws (world s)))%Q in
  _handle_captcha_scenario r attempt s =
  (Ok (attempt <? 3)%nat,
   set_world (fun w => elapsed d (emit (Sleep (CaptchaDelay attempt) d) (drawn w))) s).
Proof. destruct attempt as [|[|[|n]]]; reflexivity. Qed.

(** X12: [_handle_captcha_scenario] sleeps once, for a delay drawn from [10,20]
    at the first CAPTCHA of a fetch, [30,60] at the second, [120,300] at the
    third and [600,1200] from the fourth on; it tells the caller to go on
    for the first three and to stop from the fourth on; it sends nothing and
    leaves the scraper object as it was. *)
Theorem captcha_delay_tiers (response : Response) (attempt : nat) (s : St) :
  let u := rng (world s) (draws (world s)) in
  (0 <= u <= 1)%Q ->
  let s' := snd (_handle_captcha_scenario response attempt s) in
  exists d : Q,
    fst (_handle_captcha_scenario response attempt s) = Ok (attempt <? 3)%nat /\
    trace (world s') = trace (world s) ++ [Sleep (CaptchaDelay attempt) d] /\
    (fst (captcha_bounds attempt) <= d <= snd (captcha_bounds attempt))%Q /\
    sent (world s') = sent (world s) /\
    self s' = self s.
Proof.
  intros u Hu s'. subst s'. rewrite handle_captcha_run. cbv zeta. fold u.
  eexists. split; [reflexivity|]. split; [reflexivity|].
  split; [|split; reflexivity].
  apply uniform_bounds; [|exact Hu].
  destruct attempt as [|[|[|n]]]; cbn; lra.
Qed.

Lemma keeps_captcha_attempts_send (url : string) (a : nat) :
  keeps captcha_attempts (send_attempt url a).
Proof.
  unfold send_attempt, _get_realistic_headers, _adaptive_delay_strategy,
    exponential_delay, random_choice, random_uniform, random_random,
    asyncio_sleep, client_get.
  keeps_auto.
Qed.

Lemma wp_with_keeps {A X} (f : St -> X) (c : M A) (Q : Res A -> St -> Prop) (s : St) :
  keeps f c -> wp c (fun r s' => f s' = f s -> Q r s') s -> wp c Q s.
Proof. intros Hk H. apply H, Hk. Qed.

Lemma wp_classify_captcha (max_retries : Z) (attempt : nat) (r : Response)
    (Q : Res Ctl -> St -> Prop) (s : St) :
  _is_captcha_page r = true ->
  (captcha_attempts s < 3)%nat ->
  (forall d s',
     obs s' =
       (with_consecutive_failures (failures s + 1)
          ((if Z.of_nat attempt <? max_retries - 1
            then with_session_cookies ∅ else fun o => o)
             (with_last_error_code (Some (status_code r)) (self s))),
        net (world s), sent (world s),
        trace (world s) ++ [Sleep (CaptchaDelay (captcha_attempts s)) d]) ->
     captcha_attempts s' = S (captcha_attempts s) ->
     Q (Ok (if Z.of_nat attempt <? max_retries - 1
            then Continue else Return None)) s') ->
  wp (classify max_retries attempt r) Q s.
Proof.
  intros Hc Hlt HQ. unfold classify.
  apply wp_bind; unfold wp at 1; cbn [fst snd update_self].
  rewrite Hc.
  apply wp_bind; unfold wp at 1; cbn [fst snd next_captcha_attempt].
  cbn [captcha_attempts set_self].
  assert (E : forall n, (S n - 1)%nat = n) by (intros; lia). rewrite !E. clear E.
  apply wp_bind. unfold wp at 1. rewrite handle_captcha_run. cbv zeta. cbn [fst snd].
  destruct (Nat.ltb_spec (captcha_attempts s) 3) as [_|?]; [|lia]. cbn [andb].
  destruct (Z.of_nat attempt <? max_retries - 1).
  - apply wp_bind; unfold wp at 1; cbn [fst snd update_self].
    apply wp_bind; unfold wp at 1; cbn [fst snd incr_failures update_self].
    unfold wp; cbn [fst snd ret]. eapply HQ; reflexivity.
  - apply wp_bind; unfold wp at 1; cbn [fst snd incr_failures update_self].
    unfold wp; cbn [fst snd ret]. eapply HQ; reflexivity.
Qed.

(** X13: A CAPTCHA page at each of the three attempts of a fetch: the fetch
    returns [None] after three requests; each CAPTCHA is followed by the
    delay of its tier (first, second, third), each retry starts with the
    adaptive delay for the status code of the CAPTCHA page before it; the
    counter grows by 3 and the cookies of the session are dropped. *)
Theorem captcha_at_every_attempt (url : string) (skip_warmup : bool)
    (r1 r2 r3 : Response) (s : St) :
  net (world s) (sent (world s)) = Resp r1 ->
  net (world s) (S (sent (world s))) = Resp r2 ->
  net (world s) (S (S (sent (world s)))) = Resp r3 ->
  _is_captcha_page r1 = true ->
  _is_captcha_page r2 = true ->
  _is_captcha_page r3 = true ->
  let s' := snd (_make_request url 3 skip_warmup s) in
  fst (_make_request url 3 skip_warmup s) = Ok None /\
  sent (world s') = (sent (world s) + 3)%nat /\
  map kind (since (trace (world s)) (trace (world s'))) =
    captcha_kinds url (status_code r1) (status_code r2) /\
  failures s' = failures s + 3 /\
  _session_cookies (self s') = ∅.
Proof.
  intros N1 N2 N3 C1 C2 C3.
  assert (Hfit : forall c : Z, (2 < overflow_from (Some c))%nat).
  { intros c. unfold overflow_from. destruct (code_is _ 503); [lia|].
    destruct (code_is _ 429); [lia|]. destruct (code_is _ 403); lia. }
  assert (Hmain : wp (_make_request url 3 skip_warmup)
            (fun res s' => res = Ok None /\
               sent (world s') = (sent (world s) + 3)%nat /\
               (exists evs, trace (world s') = trace (world s) ++ evs /\
                  map kind evs = captcha_kinds url (status_code r1) (status_code r2)) /\
               failures s' = failures s + 3 /\
               _session_cookies (self s') = ∅) s).
  { unfold _make_request. apply wp_bind; unfold wp at 1; cbn [fst snd].
    change (Z.to_nat 3) with 3%nat. cbn [retry_loop].
    (* attempt 0 *)
    apply wp_bind, wp_try. unfold attempt_try at 1.
    apply wp_bind, (wp_with_keeps captcha_attempts);
      [apply keeps_captcha_attempts_send|].
    apply wp_send_attempt.
    { unfold overflow_from. cbn [self set_captcha_attempts].
      destruct (code_is _ 503); [lia|]. destruct (code_is _ 429); [lia|].
      destruct (code_is _ 403); lia. }
    intros evs0 h0 s1 H1 K1 A1.
    cbn [self world set_captcha_attempts captcha_attempts] in H1, K1, A1 |- *.
    rewrite N1.
    apply wp_classify_captcha; [exact C1 | lia |].
    intros d1 s2 H2 A2. change (Z.of_nat 0 <? 3 - 1) with true in H2 |- *. cbv iota.
    (* attempt 1 *)
    apply wp_bind, wp_try. unfold attempt_try at 1.
    apply wp_bind, (wp_with_keeps captcha_attempts);
      [apply keeps_captcha_attempts_send|].
    apply wp_send_attempt.
    { obs_all. obs_rw. cbn. pose proof (Hfit (status_code r1)). lia. }
    intros evs1 h1 s3 H3 K3 A3. rewrite A2, A1 in A3.
    assert (Hn2 : net (world s2) (sent (world s2)) = Resp r2).
    { obs_all. obs_rw. exact N2. }
    rewrite Hn2.
    apply wp_classify_captcha; [exact C2 | lia |].
    intros d2 s4 H4 A4. change (Z.of_nat 1 <? 3 - 1) with true in H4 |- *. cbv iota.
    (* attempt 2 *)
    apply wp_bind, wp_try. unfold attempt_try at 1.
    apply wp_bind, (wp_with_keeps captcha_attempts);
      [apply keeps_captcha_attempts_send|].
    apply wp_send_attempt.
    { obs_all. obs_rw. cbn. pose proof (Hfit (status_code r2)). lia. }
    intros evs2 h2 s5 H5 K5 A5. rewrite A4, A3 in A5.
    assert (Hn3 : net (world s4) (sent (world s4)) = Resp r3).
    { obs_all. obs_rw. exact N3. }
    rewrite Hn3.
    apply wp_classify_captcha; [exact C3 | lia |].
    intros d3 s6 H6 A6. change (Z.of_nat 2 <? 3 - 1) with false in H6 |- *. cbv iota.
    unfold wp; cbn [fst snd ret].
    split; [reflexivity|]. obs_all. unfold failures in *.
    repeat match goal with
    | H : self ?x = _ |- _ => rewrite H in *; clear H
    | H : sent (world ?x) = _ |- _ => rewrite H in *; clear H
    | H : net (world ?x) = _ |- _ => rewrite H in *; clear H
    end.
    cbn. split; [lia|]. split; [|split; [lia|reflexivity]].
    exists (evs0 ++ [Get url h0] ++ [Sleep (CaptchaDelay (captcha_attempts s1)) d1]
            ++ evs1 ++ [Get url h1] ++ [Sleep (CaptchaDelay (captcha_attempts s3)) d2]
            ++ evs2 ++ [Get url h2] ++ [Sleep (CaptchaDelay (captcha_attempts s5)) d3]).
    split.
    - obs_rw. by rewrite <- !app_assoc.
    - rewrite !map_app, K1, K3, K5, A1, A3, A5. reflexivity. }
  unfold wp in Hmain. destruct Hmain as (Hres & Hsent & (evs & Ht & Hk) & Hf & Hck).
  cbv zeta. rewrite Ht, since_app.
  repeat split; assumption.
Qed.

(** ** Pacing *)

Lemma Paced_app (lo : Q) (t1 t2 : list Event) :
  Paced lo t1 -> Paced lo t2 -> Paced lo (t1 ++ t2).
Proof.
  intros H1 H2. induction H1 as [|e t He Ht IH|d url h t Hd Ht IH]; cbn.
  - exact H2.
  - by apply paced_quiet.
  - by apply paced_get.
Qed.

Lemma Paced_quiet (lo : Q) (t : list Event) : Forall quiet_event t -> Paced lo t.
Proof. induction 1; [apply paced_nil|by apply paced_quiet]. Qed.

Section Paces.
Context (F : Config * Q * (nat -> Q) * (nat -> Outcome) * (string -> Soup)) (lo : Q).

Lemma paces_emits {A} (c : M A) : emits quiet_event c -> paces F lo c.
Proof.
  intros H s _. destruct (H s) as (evs & Ht & Hq). exists evs.
  split; [exact Ht|by apply Paced_quiet].
Qed.

Lemma paces_bind {A B} (c : M A) (k : A -> M B) :
  keeps fixed c -> paces F lo c -> (forall a, paces F lo (k a)) ->
  paces F lo (bind c k).
Proof.
  intros Hf Hc Hk s Hs. unfold bind. specialize (Hf s).
  destruct (Hc s Hs) as (evs & Ht & Hp).
  destruct (c s) as [[a|e] s1]; cbn [snd] in *; [|by exists evs].
  destruct (Hk a s1) as (evs' & Ht' & Hp'); [congruence|].
  exists (evs ++ evs'). rewrite Ht', Ht, app_assoc. split; [reflexivity|].
  by apply Paced_app.
Qed.

Lemma paces_try {A} (body : M A) (handler : Exn -> M A) :
  keeps fixed body -> paces F lo body -> (forall e, paces F lo (handler e)) ->
  paces F lo (try_except body handler).
Proof.
  intros Hf Hc Hk s Hs. unfold try_except. specialize (Hf s).
  destruct (Hc s Hs) as (evs & Ht & Hp).
  destruct (body s) as [[a|e] s1]; cbn [snd] in *; [by exists evs|].
  destruct (Hk e s1) as (evs' & Ht' & Hp'); [congruence|].
  exists (evs ++ evs'). rewrite Ht', Ht, app_assoc. split; [reflexivity|].
  by apply Paced_app.
Qed.
End Paces.

(** What emits neither a request nor a pacing delay. *)
Lemma emits_quiet_uniform (a b : Q) : emits quiet_event (random_uniform a b).
Proof. unfold random_uniform, random_random. emits_auto. Qed.

Lemma emits_quiet_headers (url : string) : emits quiet_event (_get_realistic_headers url).
Proof.
  apply emits_nothing. unfold _get_realistic_headers, random_choice, random_random.
  keeps_auto.
Qed.

Lemma emits_quiet_adaptive (a : nat) (c : option Z) :
  emits quiet_event (_adaptive_delay_strategy a c).
Proof.
  unfold _adaptive_delay_strategy, exponential_delay, asyncio_sleep.
  pose proof emits_quiet_uniform. emits_auto; auto.
Qed.

Lemma emits_quiet_reset : emits quiet_event _reset_session_strategy.
Proof. unfold _reset_session_strategy, client_aclose, _setup_http_client. emits_auto. Qed.

Lemma emits_quiet_backoff (n : Z) : emits quiet_event (_intelligent_backoff n).
Proof.
  unfold _intelligent_backoff, asyncio_sleep.
  pose proof emits_quiet_uniform. pose proof emits_quiet_reset.
  emits_auto; auto.
Qed.

Lemma emits_quiet_captcha (r : Response) (a : nat) :
  emits quiet_event (_handle_captcha_scenario r a).
Proof.
  unfold _handle_captcha_scenario, asyncio_sleep.
  pose proof emits_quiet_uniform. emits_auto; auto.
Qed.

Lemma emits_quiet_classify (mr : Z) (a : nat) (r : Response) :
  emits quiet_event (classify mr a r).
Proof.
  unfold classify, incr_failures, next_captcha_attempt, datetime_now, asyncio_sleep.
  pose proof emits_quiet_uniform.
  pose proof emits_quiet_adaptive. pose proof emits_quiet_backoff.
  pose proof emits_quiet_captcha.
  emits_auto; auto.
Qed.

Lemma emits_quiet_except (mr : Z) (a : nat) (e : Exn) :
  emits quiet_event (attempt_except mr a e).
Proof.
  unfold attempt_except, incr_failures.
  pose proof emits_quiet_adaptive. pose proof emits_quiet_backoff.
  emits_auto; auto.
Qed.

Lemma emits_quiet_exhausted : emits quiet_event all_attempts_failed.
Proof.
  unfold all_attempts_failed, incr_failures. pose proof emits_quiet_backoff.
  emits_auto; auto.
Qed.

Section Pacing.
Context (cfg : Config) (rd : Q) (r : nat -> Q) (n : nat -> Outcome)
        (l : string -> Soup).
Hypothesis draws_not_negative : forall i, (0 <= r i)%Q.
Hypothesis delay_not_negative : (0 <= default 2 (requestDelay cfg))%Q.

Lemma paces_pacing_and_get (url : string) (h : list (string * string)) :
  paces (cfg, rd, r, n, l) (pacing_floor cfg)
    (o <- get_self ;;
     let request_delay := default 2%Q (requestDelay (config o)) in
     human_delay <- random_uniform (request_delay * 0.8) (request_delay * 2.0) ;;
     u <- random_random ;;
     human_delay <-
       (if Qlt_le_dec u 0.1 then
          pause <- random_uniform 5 15 ;; ret (human_delay + pause)%Q
        else ret human_delay) ;;
     do asyncio_sleep HumanDelay human_delay ;;
     client_get url h).
Proof.
  intros s Hs. unfold fixed in Hs. injection Hs as Hcfg _ Hr _ _.
  pose proof (draws_not_negative (draws (world s))) as U1.
  pose proof (draws_not_negative (S (S (draws (world s))))) as U3.
  rewrite <- Hr in U1, U3. pose proof delay_not_negative as Hd. rewrite <- Hcfg in Hd.
  unfold bind, get_self, random_uniform, random_random, bind, get_world, update_world,
    ret, asyncio_sleep, client_get, bind, get_world, update_world, raise, ret.
  cbn [fst snd world set_world drawn rng draws].
  destruct (Qlt_le_dec _ 0.1);
    cbn [fst snd world set_world drawn elapsed emit requested rng draws net sent trace];
    destruct (net (world s) (sent (world s)));
    cbn [fst snd world set_world drawn elapsed emit requested rng draws net sent trace];
    rewrite <- app_assoc; eexists; (split; [reflexivity|]);
    cbn [app]; (apply paced_get; [|apply paced_nil]);
    unfold pacing_floor; rewrite <- Hcfg; nra.
Qed.

Lemma paces_send (url : string) (a : nat) : paces (cfg, rd, r, n, l) (pacing_floor cfg) (send_attempt url a).
Proof.
  unfold send_attempt.
  apply paces_bind;
    [apply keeps_silent_fixed, keeps_silent_headers
    |apply paces_emits, emits_quiet_headers|].
  intros h. apply paces_bind;
    [intros s; reflexivity | apply paces_emits, emits_nothing; intros s; reflexivity|].
  intros o. apply paces_bind;
    [apply keeps_when, keeps_silent_fixed, keeps_silent_adaptive
    |apply paces_emits, emits_when, emits_quiet_adaptive|].
  intros _. apply paces_pacing_and_get.
Qed.

Lemma paces_retry_loop (url : string) (mr : Z) (remaining a : nat) :
  paces (cfg, rd, r, n, l) (pacing_floor cfg) (retry_loop url mr a remaining).
Proof.
  revert a. induction remaining as [|k IH]; intros a; cbn [retry_loop].
  - apply paces_emits, emits_quiet_exhausted.
  - apply paces_bind.
    + pose proof keeps_fixed_send.
      pose proof (fun a b c => keeps_silent_fixed _ (keeps_silent_classify a b c)).
      pose proof (fun a b c => keeps_silent_fixed _ (keeps_silent_except a b c)).
      unfold attempt_try. keeps_auto; auto.
    + apply paces_try.
      * pose proof keeps_fixed_send.
        pose proof (fun a b c => keeps_silent_fixed _ (keeps_silent_classify a b c)).
        unfold attempt_try. keeps_auto; auto.
      * unfold attempt_try. apply paces_bind; [apply keeps_fixed_send|apply paces_send|].
        intros resp. apply paces_emits, emits_quiet_classify.
      * intros e. apply paces_emits, emits_quiet_except.
    + intros [|res]; [apply IH|].
      apply paces_emits, emits_nothing. intros s. reflexivity.
Qed.

Lemma paces_make_request (url : string) (mr : Z) (b : bool) :
  paces (cfg, rd, r, n, l) (pacing_floor cfg) (_make_request url mr b).
Proof.
  unfold _make_request. apply paces_bind; [intros s; reflexivity| |].
  - apply paces_emits, emits_nothing. intros s. reflexivity.
  - intros _. apply paces_retry_loop.
Qed.
End Pacing.

(** X14: Pacing: when the request delay of the configuration is not negative
    and the random source yields no negative value, every request of a fetch
    comes right after a pacing delay of at least [request_delay * 0.8]
    seconds, whatever the answers and however many attempts are made. *)
Theorem requests_are_paced (url : string) (max_retries : Z) (skip_warmup : bool)
    (s : St) :
  (forall i, 0 <= rng (world s) i)%Q ->
  (0 <= default 2 (requestDelay (config (self s))))%Q ->
  let s' := snd (_make_request url max_retries skip_warmup s) in
  Paced (pacing_floor (config (self s)))
        (since (trace (world s)) (trace (world s'))).
Proof.
  intros Hr Hd s'. subst s'.
  destruct (paces_make_request (config (self s)) (request_delay (self s))
              (rng (world s)) (net (world s)) (lxml (world s)) Hr Hd
              url max_retries skip_warmup s eq_refl) as (evs & Ht & Hp).
  rewrite Ht, since_app. exact Hp.
Qed.

(** ** Request headers *)

(** [random.choice] picks an element of the sequence. *)
Lemma choice_in {A} (d : A) (l : list A) (u : Q) :
  l <> [] -> (0 <= u)%Q -> (u < 1)%Q ->
  In (nth (Z.to_nat (Qfloor (u * inject_Z (Z.of_nat (length l))))) l d) l.
Proof.
  intros Hl H0 H1. apply nth_In.
  assert (Hlen : (0 < length l)%nat) by (destruct l; [contradiction|cbn; lia]).
  set (n := Z.of_nat (length l)).
  assert (Hn : (inject_Z 0 < inject_Z n)%Q) by (rewrite <- Zlt_Qlt; lia).
  change (inject_Z 0) with 0%Q in Hn.
  assert (Hlo : 0 <= Qfloor (u * inject_Z n)).
  { change 0 with (Qfloor 0). apply Qfloor_resp_le. nra. }
  assert (Hhi : Qfloor (u * inject_Z n) < n).
  { rewrite Zlt_Qlt. eapply Qle_lt_trans; [apply Qfloor_le|]. nra. }
  lia.
Qed.

Lemma contains_amazon_not_empty (url : string) :
  negb (url =? "")%string && Py.contains "amazon.com" url
  = Py.contains "amazon.com" url.
Proof. by destruct url. Qed.

Lemma realistic_headers_facts (url : string) (s : St) :
  let u := rng (world s) (draws (world s)) in
  exists h ua,
    fst (_get_realistic_headers url s) = Ok h /\
    ((0 <= u)%Q -> (u < 1)%Q -> In ua user_agents) /\
    NoDup (map fst h) /\
    Py.dict_get "User-Agent" h = Some ua /\
    forallb (has_key h) steady_headers = true /\
    forallb (fun k => Bool.eqb (has_key h k) (Py.contains "Chrome" ua)) client_hints
      = true /\
    has_key h "Referer" = Py.contains "amazon.com" url /\
    (Py.contains "amazon.com" url = true ->
     Py.dict_get "Referer" h =
       if Py.contains "/s?" url then Some "https://www.amazon.com/"
       else if Py.contains "/dp/" url then Some "https://www.amazon.com/s?k=books"
       else Py.dict_get "Referer" h).
Proof.
  intros u.
  unfold _get_realistic_headers, random_choice, random_random.
  unfold bind, get_world, update_world, ret.
  cbn [fst snd world set_world drawn rng draws].
  rewrite contains_amazon_not_empty.
  pose proof (choice_in "" user_agents u ltac:(discriminate)) as Hua.
  fold u. revert Hua.
  generalize (nth (Z.to_nat (Qfloor (u * inject_Z (Z.of_nat (length user_agents)))))
                user_agents "").
  intros ua Hua.
  repeat match goal with
  | |- context [nth ?i ?l ""] => generalize (nth i l ""); intro
  end.
  destruct (Py.contains "amazon.com" url);
  [destruct (Py.contains "/s?" url); [|destruct (Py.contains "/dp/" url)]|];
  cbn [fst snd world set_world drawn rng draws].
  all: destruct (Py.contains "Chrome" ua) eqn:Hchrome;
    [|destruct (Py.contains "Firefox" ua)];
  cbn [fst snd world set_world drawn rng draws].
  all: repeat match goal with
       | |- context [Qlt_le_dec ?a ?b] => destruct (Qlt_le_dec a b)
       end.
  all: eexists; exists ua; rewrite Hchrome;
       split; [reflexivity|]; split; [exact Hua|];
       split; [match goal with |- ?G => apply (@bool_decide_unpack G _) end;
               vm_compute; exact I|];
       split; [vm_compute; reflexivity|];
       split; [vm_compute; reflexivity|];
       split; [vm_compute; reflexivity|];
       split; [vm_compute; reflexivity|];
       first [solve [intros [=]] | intros _; vm_compute; reflexivity].
Qed.

Lemma has_key_true (h : list (string * string)) (k : string) :
  has_key h k = true <-> Py.dict_get k h <> None.
Proof. unfold has_key. destruct (Py.dict_get k h); split; congruence. Qed.

(** X15: The headers of a request: [_get_realistic_headers] returns a
    dictionary, so no header twice; the nine headers of [steady_headers] are
    always there; and the [User-Agent] is one of the pool when the value
    drawn for it lies in [0,1), as the values of [random.random()] do. *)
Theorem realistic_headers_wellformed (url : string) (s : St) :
  let u := rng (world s) (draws (world s)) in
  exists h ua,
    fst (_get_realistic_headers url s) = Ok h /\
    NoDup (map fst h) /\
    Py.dict_get "User-Agent" h = Some ua /\
    ((0 <= u)%Q -> (u < 1)%Q -> In ua user_agents) /\
    forall k, In k steady_headers -> Py.dict_get k h <> None.
Proof.
  intros u.
  destruct (realistic_headers_facts url s) as (h & ua & H1 & H2 & H3 & H4 & H5 & _).
  exists h, ua. repeat split; try assumption.
  intros k Hk. apply has_key_true. rewrite forallb_forall in H5. by apply H5.
Qed.

(** X16: The headers follow the context: the six client hints [sec-ch-ua...]
    are sent exactly with a user agent that names Chrome (the Edge ones do);
    a [Referer] is sent exactly for a URL with [amazon.com] in it, the home
    page for a search URL ([/s?]) and the books search for a product URL
    ([/dp/]). *)
Theorem realistic_headers_context (url : string) (s : St) :
  exists h ua,
    fst (_get_realistic_headers url s) = Ok h /\
    Py.dict_get "User-Agent" h = Some ua /\
    (forall k, In k client_hints ->
       (Py.dict_get k h <> None <-> Py.contains "Chrome" ua = true)) /\
    (Py.dict_get "Referer" h <> None <-> Py.contains "amazon.com" url = true) /\
    (Py.contains "amazon.com" url = true -> Py.contains "/s?" url = true ->
     Py.dict_get "Referer" h = Some "https://www.amazon.com/") /\
    (Py.contains "amazon.com" url = true -> Py.contains "/s?" url = false ->
     Py.contains "/dp/" url = true ->
     Py.dict_get "Referer" h = Some "https://www.amazon.com/s?k=books").
Proof.
  destruct (realistic_headers_facts url s)
    as (h & ua & H1 & _ & _ & H4 & _ & H6 & H7 & H8).
  exists h, ua. split; [exact H1|]. split; [exact H4|]. split; [|split; [|split]].
  - intros k Hk. rewrite <- has_key_true. rewrite forallb_forall in H6.
    specialize (H6 k Hk). apply Bool.eqb_prop in H6. by rewrite H6.
  - rewrite <- has_key_true. by rewrite H7.
  - intros Ha Hs. rewrite (H8 Ha), Hs. reflexivity.
  - intros Ha Hs Hd. rewrite (H8 Ha), Hs, Hd. reflexivity.
Qed.

(** ** Detail pages *)

(** A fetch of three attempts returns. *)
Lemma make_request_3_returns (url : string) (b : bool) (s : St) :
  exists res, fst (_make_request url 3 b s) = Ok res /\
    match res with
    | Some r => status_code r = 200 /\ _is_captcha_page r = false
    | None => True
    end.
Proof.
  pose proof (make_request_spec url 3 b s) as H. unfold wp, fetch_post in H.
  destruct (fst (_make_request url 3 b s)) as [[r|]|e].
  - exists (Some r). split; [reflexivity|tauto].
  - by exists None.
  - lia.
Qed.

Lemma sends_ret {A} (a : A) : sends 0 (ret a).
Proof. apply sends_keeps. intros s. reflexivity. Qed.

Lemma sends_lift {A} (r : Res A) : sends 0 (lift r).
Proof. apply sends_keeps. intros s. reflexivity. Qed.

Lemma sends_scrape_reviews (url : string) : sends 3 (_scrape_reviews url).
Proof.
  unfold _scrape_reviews. destruct (find_asin_from url) as [asin|].
  - apply (sends_bind 3 0); [apply (sends_make_request _ 3)|].
    intros [r|]; [|apply sends_ret].
    apply (sends_bind 0 0); [apply sends_keeps; intros s; reflexivity|].
    intros w. apply sends_lift.
  - apply (sends_more 0); [lia|apply sends_ret].
Qed.

(** The conversions fail in one way only. *)
Lemma float_raises (g : string) (e : Exn) : Py.float g = Raise e -> e = ValueError.
Proof.
  unfold Py.float. destruct (Py.split_point g) as [whole rest].
  destruct (_ && _); [discriminate|]. by intros [= <-].
Qed.

Lemma int_raises (g : string) (e : Exn) : Py.int g = Raise e -> e = ValueError.
Proof. unfold Py.int. destruct (_ && _); [discriminate|]. by intros [= <-]. Qed.

Lemma converted_raises {A} (conversion : string -> Res A) (group : option string)
    (e : Exn) :
  (forall g e', conversion g = Raise e' -> e' = ValueError) ->
  converted conversion group = Raise e -> e = ValueError.
Proof.
  intros Hconv. unfold converted. destruct group as [g|]; [|discriminate].
  destruct (conversion g) as [a|e'] eqn:E; [discriminate|].
  intros [= <-]. by apply (Hconv g).
Qed.

Lemma extract_page_count_raises (soup : Soup) (e : Exn) :
  _extract_page_count soup = Raise e -> e = ValueError.
Proof. apply converted_raises, int_raises. Qed.

Lemma extract_rating_raises (soup : Soup) (e : Exn) :
  _extract_rating soup = Raise e -> e = ValueError.
Proof. apply converted_raises, float_raises. Qed.

Lemma extract_review_count_raises (soup : Soup) (e : Exn) :
  _extract_review_count soup = Raise e -> e = ValueError.
Proof. apply converted_raises. intros g e'. apply int_raises. Qed.

(** The loop over the containers adds one dictionary for each of them, and
    stops with the exception of the first rating that is no number. *)
Lemma review_loop_spec (containers : list Review) (reviews : list Py.Val) :
  match review_loop containers reviews with
  | Ok all =>
      existsb unreadable_rating containers = false /\
      exists new, all = reviews ++ new /\ length new = length containers
  | Raise e => e = ValueError /\ existsb unreadable_rating containers = true
  end.
Proof.
  revert reviews.
  induction containers as [|container rest IH]; intros reviews;
    cbn [review_loop existsb].
  - split; [reflexivity|]. exists []. by rewrite app_nil_r.
  - assert (Hu : unreadable_rating container =
                 match _extract_review_rating container with
                 | Ok _ => false
                 | Raise _ => true
                 end) by reflexivity.
    rewrite Hu. clear Hu. unfold review_data.
    destruct (_extract_review_rating container) as [rating|e] eqn:E.
    + cbn [orb]. match goal with |- context [review_loop rest ?acc] =>
        specialize (IH acc); destruct (review_loop rest acc) as [all|e'] end.
      * destruct IH as (Hno & new & -> & Hlen). split; [exact Hno|].
        eexists (_ :: new). rewrite <- app_assoc. split; [reflexivity|].
        cbn [length]. by rewrite Hlen.
      * exact IH.
    + split; [|reflexivity]. unfold _extract_review_rating in E.
      apply (converted_raises Py.float (rv_rating container)); [apply float_raises|exact E].
Qed.

Lemma scrape_reviews_run (book_url asin : string) (s : St) :
  find_asin_from book_url = Some asin ->
  _scrape_reviews book_url s =
  match _make_request (base_url +:+ "/product-reviews/" +:+ asin) 3 false s with
  | (Ok (Some response), s1) =>
      (review_loop (firstn 10 (sp_reviews (lxml (world s) (resp_text response)))) [],
       s1)
  | (Ok None, s1) => (Ok [], s1)
  | (Raise e, s1) => (Raise e, s1)
  end.
Proof.
  intros Ha. unfold _scrape_reviews. rewrite Ha. unfold bind at 1.
  pose proof (keeps_fixed_make_request
                (base_url +:+ "/product-reviews/" +:+ asin) 3 false s) as Hfix.
  destruct (_make_request _ 3 false s) as [[[response|]|e] s1]; try reflexivity.
  cbn [snd] in Hfix.
  assert (Hlxml : lxml (world s1) = lxml (world s)) by (unfold fixed in Hfix; congruence).
  unfold bind, lift. cbn [get_world]. by rewrite Hlxml.
Qed.

Lemma scrape_reviews_cases (book_url : string) (s : St) (asin : string) :
  find_asin_from book_url = Some asin ->
  match fst (_make_request (base_url +:+ "/product-reviews/" +:+ asin) 3 false s) with
  | Ok (Some response) =>
      fst (_scrape_reviews book_url s) =
      review_loop (firstn 10 (sp_reviews (lxml (world s) (resp_text response)))) []
  | Ok None => fst (_scrape_reviews book_url s) = Ok []
  | Raise _ => False
  end.
Proof.
  intros Ha. rewrite (scrape_reviews_run book_url asin s Ha).
  destruct (make_request_3_returns (base_url +:+ "/product-reviews/" +:+ asin) false s)
    as (res & Hres & _).
  destruct (_make_request _ 3 false s) as [res' s1]. cbn [fst] in Hres |- *. subst res'.
  destruct res; reflexivity.
Qed.

Lemma scrape_reviews_no_asin (book_url : string) (s : St) :
  find_asin_from book_url = None -> _scrape_reviews book_url s = (Ok [], s).
Proof. intros Ha. unfold _scrape_reviews. rewrite Ha. reflexivity. Qed.

Lemma scrape_reviews_result (book_url : string) (s : St) :
  match fst (_scrape_reviews book_url s) with
  | Ok reviews => (length reviews <= 10)%nat
  | Raise e => e = ValueError
  end.
Proof.
  destruct (find_asin_from book_url) as [asin|] eqn:Ha.
  - pose proof (scrape_reviews_cases book_url s asin Ha) as Hrun.
    destruct (fst (_make_request _ 3 false s)) as [[response|]|e]; [| |contradiction].
    + rewrite Hrun.
      pose proof (review_loop_spec
        (firstn 10 (sp_reviews (lxml (world s) (resp_text response)))) []) as H.
      destruct (review_loop _ []) as [all|e]; [|tauto].
      destruct H as (_ & new & -> & Hlen). cbn [app]. rewrite Hlen, length_firstn. lia.
    + rewrite Hrun. cbn. lia.
  - rewrite scrape_reviews_no_asin by exact Ha. cbn. lia.
Qed.

(** X17: The reviews of a book: [_scrape_reviews] returns at most ten reviews, or
    it raises [ValueError]; it raises exactly when the URL has an ASIN, the
    fetch of the review page returns a page, and among the first ten reviews
    of that page there is one whose rating is a text that [float] does not
    read (nothing in the method catches that).  It sends at most three
    requests, all of them to the review page of the ASIN of the URL; and for a
    URL without ASIN it returns the empty list and does nothing at all. *)
Theorem scrape_reviews_bounded (book_url : string) (s : St) :
  let s' := snd (_scrape_reviews book_url s) in
  match fst (_scrape_reviews book_url s) with
  | Ok reviews => (length reviews <= 10)%nat
  | Raise e => e = ValueError
  end /\
  (fst (_scrape_reviews book_url s) = Raise ValueError <->
   exists asin response,
     find_asin_from book_url = Some asin /\
     fst (_make_request (base_url +:+ "/product-reviews/" +:+ asin) 3 false s)
       = Ok (Some response) /\
     existsb unreadable_rating
       (firstn 10 (sp_reviews (lxml (world s) (resp_text response)))) = true) /\
  (sent (world s) <= sent (world s') <= sent (world s) + 3)%nat /\
  (forall asin, find_asin_from book_url = Some asin ->
     exists evs, trace (world s') = trace (world s) ++ evs /\
       Forall (requests_only (base_url +:+ "/product-reviews/" +:+ asin)) evs) /\
  (find_asin_from book_url = None -> _scrape_reviews book_url s = (Ok [], s)).
Proof.
  cbv zeta.
  pose proof (scrape_reviews_cases book_url s) as Hrun.
  pose proof (scrape_reviews_no_asin book_url s) as Hnone.
  split; [|split; [|split; [|split]]].
  - apply scrape_reviews_result.
  - split.
    + intros Hraise. destruct (find_asin_from book_url) as [asin|] eqn:Ha.
      * specialize (Hrun asin eq_refl). exists asin.
        destruct (fst (_make_request _ 3 false s)) as [[response|]|e]; [| |contradiction].
        -- exists response. split; [reflexivity|]. split; [reflexivity|].
           rewrite Hrun in Hraise.
           pose proof (review_loop_spec
             (firstn 10 (sp_reviews (lxml (world s) (resp_text response)))) []) as H.
           rewrite Hraise in H. tauto.
        -- rewrite Hrun in Hraise. discriminate.
      * rewrite Hnone in Hraise by reflexivity. discriminate.
    + intros (asin & response & Ha & Hres & Hbad). specialize (Hrun asin Ha).
      rewrite Hres in Hrun. rewrite Hrun.
      pose proof (review_loop_spec
        (firstn 10 (sp_reviews (lxml (world s) (resp_text response)))) []) as H.
      destruct (review_loop _ []) as [all|e].
      * destruct H as [H _]. congruence.
      * destruct H as [-> _]. reflexivity.
  - apply (sends_scrape_reviews book_url s).
  - intros asin Ha. unfold _scrape_reviews. rewrite Ha.
    assert (H : emits (requests_only (base_url +:+ "/product-reviews/" +:+ asin))
                  (response <- _make_request (base_url +:+ "/product-reviews/" +:+ asin) 3 false ;;
                   match response with
                   | None => ret []
                   | Some response =>
                       w <- get_world ;;
                       lift (review_loop
                               (firstn 10 (sp_reviews (lxml w (resp_text response)))) [])
                   end)).
    { apply emits_bind; [apply emits_make_request|].
      intros [r|]; apply emits_nothing; intros s0; reflexivity. }
    apply H.
  - exact Hnone.
Qed.

Lemma scrape_book_details_run (book_url : string) (s : St) :
  _scrape_book_details book_url s =
  match _make_request book_url 3 false s with
  | (Ok (Some response), s1) =>
      let soup := lxml (world s1) (resp_text response) in
      match _extract_page_count soup with
      | Raise e => (Raise e, s1)
      | Ok page_count =>
        match _extract_rating soup with
        | Raise e => (Raise e, s1)
        | Ok old_rating =>
          match _extract_review_count soup with
          | Raise e => (Raise e, s1)
          | Ok old_review_count =>
              let book_data :=
                _extract_enhanced_details soup
                  (initial_book_data book_url soup page_count old_rating
                     old_review_count) in
              if default false (includeReviews (config (self s1))) then
                match _scrape_reviews book_url s1 with
                | (Ok reviews, s2) =>
                    (Ok (Some (Py.dict_set "reviews" (Py.VList reviews) book_data)), s2)
                | (Raise e, s2) => (Raise e, s2)
                end
              else (Ok (Some book_data), s1)
          end
        end
      end
  | (Ok None, s1) => (Ok None, s1)
  | (Raise e, s1) => (Raise e, s1)
  end.
Proof.
  unfold _scrape_book_details, bind at 1.
  destruct (_make_request book_url 3 false s) as [[[response|]|e] s1]; try reflexivity.
  unfold bind at 1. cbn [get_world]. cbv zeta.
  unfold bind at 1, lift at 1.
  destruct (_extract_page_count _) as [page_count|e]; [|reflexivity].
  unfold bind at 1, lift at 1.
  destruct (_extract_rating _) as [old_rating|e]; [|reflexivity].
  unfold bind at 1, lift at 1.
  destruct (_extract_review_count _) as [old_review_count|e]; [|reflexivity].
  unfold bind at 1. cbn [get_self].
  fold (initial_book_data book_url (lxml (world s1) (resp_text response))
          page_count old_rating old_review_count).
  destruct (default false (includeReviews (config (self s1)))); reflexivity.
Qed.

Section BookData.
Context (book_url : string) (soup : Soup).
Context (page_count : option Z) (old_rating : option Q) (old_review_count : option Z).

Lemma initial_book_data_keys :
  map fst (initial_book_data book_url soup page_count old_rating old_review_count)
  = book_keys.
Proof.
  unfold initial_book_data. cbv zeta.
  repeat match goal with |- context [if ?b then _ else _] => destruct b end;
    rewrite ?dict_set_in_keys; reflexivity.
Qed.

Lemma initial_book_data_price :
  Py.dict_get "price"
    (initial_book_data book_url soup page_count old_rating old_review_count) =
    Some (price_entry (sp_price soup)) /\
  Py.dict_get "rating"
    (initial_book_data book_url soup page_count old_rating old_review_count) =
    Some (rating_entry old_rating old_review_count).
Proof.
  unfold initial_book_data, price_entry, rating_entry, no_price. cbv zeta.
  destruct (some_nonzero (sp_price soup));
    destruct (some_nonzero old_rating);
    destruct (some_nonzero (option_map inject_Z old_review_count));
    split; reflexivity.
Qed.

Lemma initial_book_data_plain :
  let book_data :=
    initial_book_data book_url soup page_count old_rating old_review_count in
  Py.dict_get "type" book_data = Some (Py.VStr "book") /\
  Py.dict_get "url" book_data = Some (Py.VStr book_url) /\
  Py.dict_get "asin" book_data = Some (opt_str (find_asin_from book_url)) /\
  Py.dict_get "listPrice" book_data = Some no_price.
Proof.
  unfold initial_book_data, no_price. cbv zeta.
  destruct (some_nonzero (sp_price soup));
    destruct (some_nonzero old_rating);
    destruct (some_nonzero (option_map inject_Z old_review_count));
    repeat split; reflexivity.
Qed.

Lemma enhanced_book_keys :
  map fst (_extract_enhanced_details soup
             (initial_book_data book_url soup page_count old_rating old_review_count))
  = book_keys.
Proof.
  rewrite enhanced_keys_same; rewrite initial_book_data_keys;
    [reflexivity | cbn; tauto | cbn; tauto].
Qed.

(** What the enhanced details and the reviews leave of the first entries. *)
Lemma enhanced_book_get (k : string) :
  ~ In k enhanced_keys ->
  Py.dict_get k
    (_extract_enhanced_details soup
       (initial_book_data book_url soup page_count old_rating old_review_count)) =
  Py.dict_get k (initial_book_data book_url soup page_count old_rating old_review_count).
Proof. apply enhanced_get_other. Qed.
End BookData.

Lemma numbers_readable_true (soup : Soup) (page_count : option Z)
    (old_rating : option Q) (old_review_count : option Z) :
  _extract_page_count soup = Ok page_count ->
  _extract_rating soup = Ok old_rating ->
  _extract_review_count soup = Ok old_review_count ->
  numbers_readable soup = true.
Proof. intros H1 H2 H3. unfold numbers_readable. by rewrite H1, H2, H3. Qed.

Lemma plain_keys_not_enhanced (k : string) :
  In k ["type"; "url"; "asin"; "listPrice"; "price"; "rating"] ->
  ~ In k enhanced_keys.
Proof.
  intros Hk Hk'. cbn in Hk, Hk'.
  repeat destruct Hk as [<-|Hk]; try contradiction;
    repeat destruct Hk' as [Hk'|Hk']; try contradiction; discriminate.
Qed.

(** X18: The layout of a scraped book.  When the fetch of the page returns
    nothing, so does [_scrape_book_details].  When it returns a page, the
    method returns a dictionary or raises [ValueError]: it raises when one of
    the three numbers of the page (pages, rating, number of reviews) is a
    text that [int] or [float] does not read, or when the reviews are asked
    for and [_scrape_reviews] raises; nothing in the method catches that.  A
    dictionary that is returned has the sixteen keys of [book_keys] in this
    order, followed by [reviews], with what [_scrape_reviews] returned, when
    the reviews are asked for; [type] is [book], [url] is the URL that was
    asked for, [asin] is the ASIN of that URL or [None], and [listPrice] is
    never filled in. *)
Theorem book_data_layout (book_url : string) (s : St) :
  let s1 := snd (_make_request book_url 3 false s) in
  match fst (_make_request book_url 3 false s) with
  | Raise _ => False
  | Ok None => fst (_scrape_book_details book_url s) = Ok None
  | Ok (Some response) =>
      let soup := lxml (world s) (resp_text response) in
      match fst (_scrape_book_details book_url s) with
      | Ok None => False
      | Ok (Some book_data) =>
          numbers_readable soup = true /\
          map fst book_data =
            book_keys ++ (if default false (includeReviews (config (self s)))
                          then ["reviews"] else []) /\
          Py.dict_get "type" book_data = Some (Py.VStr "book") /\
          Py.dict_get "url" book_data = Some (Py.VStr book_url) /\
          Py.dict_get "asin" book_data = Some (opt_str (find_asin_from book_url)) /\
          Py.dict_get "listPrice" book_data = Some no_price /\
          (default false (includeReviews (config (self s))) = true ->
           exists reviews,
             fst (_scrape_reviews book_url s1) = Ok reviews /\
             Py.dict_get "reviews" book_data = Some (Py.VList reviews))
      | Raise e =>
          e = ValueError /\
          (numbers_readable soup = false \/
           default false (includeReviews (config (self s))) = true /\
           fst (_scrape_reviews book_url s1) = Raise ValueError)
      end
  end.
Proof.
  cbv zeta. rewrite scrape_book_details_run.
  destruct (make_request_3_returns book_url false s) as (res & Hres & _).
  pose proof (keeps_fixed_make_request book_url 3 false s) as Hfix.
  destruct (_make_request book_url 3 false s) as [res' s1].
  cbn [fst snd] in Hres, Hfix |- *. subst res'.
  destruct res as [response|]; [|reflexivity]. cbv zeta.
  assert (Hcfg : config (self s1) = config (self s)) by (unfold fixed in Hfix; congruence).
  assert (Hlxml : lxml (world s1) = lxml (world s)) by (unfold fixed in Hfix; congruence).
  rewrite Hcfg, Hlxml.
  set (soup := lxml (world s) (resp_text response)).
  destruct (_extract_page_count soup) as [page_count|e] eqn:E1.
  2:{ cbn [fst]. split; [by apply (extract_page_count_raises soup)|].
      left. unfold numbers_readable. by rewrite E1. }
  destruct (_extract_rating soup) as [old_rating|e] eqn:E2.
  2:{ cbn [fst]. split; [by apply (extract_rating_raises soup)|].
      left. unfold numbers_readable. by rewrite E1, E2. }
  destruct (_extract_review_count soup) as [old_review_count|e] eqn:E3.
  2:{ cbn [fst]. split; [by apply (extract_review_count_raises soup)|].
      left. unfold numbers_readable. by rewrite E1, E2, E3. }
  pose proof (numbers_readable_true soup _ _ _ E1 E2 E3) as Hread.
  destruct (initial_book_data_plain book_url soup page_count old_rating old_review_count)
    as (Ht & Hu & Ha & Hl).
  pose proof (enhanced_book_get book_url soup page_count old_rating old_review_count)
    as Hget.
  pose proof plain_keys_not_enhanced as Hno.
  destruct (default false (includeReviews (config (self s)))).
  - pose proof (scrape_reviews_result book_url s1) as Hrev.
    destruct (_scrape_reviews book_url s1) as [[reviews|e] s2]; cbn [fst] in Hrev |- *.
    + split; [exact Hread|]. split.
      * rewrite dict_set_new_key.
        -- rewrite map_app, enhanced_book_keys. reflexivity.
        -- rewrite enhanced_book_keys. cbn. intros H.
           repeat destruct H as [H|H]; try discriminate. contradiction.
      * rewrite !dict_get_set_other by discriminate.
        rewrite !Hget by (apply Hno; cbn; tauto).
        repeat split; try assumption.
        intros _. exists reviews. split; [reflexivity|apply dict_get_set_same].
    + subst e. split; [reflexivity|]. right. split; reflexivity.
  - cbn [fst]. split; [exact Hread|]. split.
    + rewrite enhanced_book_keys, app_nil_r. reflexivity.
    + rewrite !Hget by (apply Hno; cbn; tauto).
      repeat split; try assumption. discriminate.
Qed.

(** X19: What a scraped book says of its price and its rating.  From a page
    whose three numbers can be read, and with no reviews asked for, the
    method returns a dictionary.  Every dictionary it returns has the price
    found on the page with the currency [$], the stars and the count of the
    reviews as the helpers converted them; and nothing, [None], where the
    page has none or has 0: a free book is recorded without price and
    currency. *)
Theorem book_price_and_rating (book_url : string) (response : Response) (s : St) :
  fst (_make_request book_url 3 false s) = Ok (Some response) ->
  let soup := lxml (world s) (resp_text response) in
  match fst (_scrape_book_details book_url s) with
  | Ok (Some book_data) =>
      exists old_rating old_review_count,
        _extract_rating soup = Ok old_rating /\
        _extract_review_count soup = Ok old_review_count /\
        Py.dict_get "price" book_data = Some (price_entry (sp_price soup)) /\
        Py.dict_get "rating" book_data =
          Some (rating_entry old_rating old_review_count)
  | Ok None => False
  | Raise e => e = ValueError
  end /\
  (numbers_readable soup = true ->
   default false (includeReviews (config (self s))) = false ->
   exists book_data, fst (_scrape_book_details book_url s) = Ok (Some book_data)).
Proof.
  intros Hres soup. subst soup. rewrite scrape_book_details_run.
  pose proof (keeps_fixed_make_request book_url 3 false s) as Hfix.
  destruct (_make_request book_url 3 false s) as [res' s1].
  cbn [fst snd] in Hres, Hfix. subst res'. cbv zeta.
  assert (Hcfg : config (self s1) = config (self s)) by (unfold fixed in Hfix; congruence).
  assert (Hlxml : lxml (world s1) = lxml (world s)) by (unfold fixed in Hfix; congruence).
  rewrite Hcfg, Hlxml.
  set (soup := lxml (world s) (resp_text response)).
  unfold numbers_readable.
  destruct (_extract_page_count soup) as [page_count|e] eqn:E1.
  2:{ cbn [fst]. split; [by apply (extract_page_count_raises soup)|discriminate]. }
  destruct (_extract_rating soup) as [old_rating|e] eqn:E2.
  2:{ cbn [fst]. split; [by apply (extract_rating_raises soup)|discriminate]. }
  destruct (_extract_review_count soup) as [old_review_count|e] eqn:E3.
  2:{ cbn [fst]. split; [by apply (extract_review_count_raises soup)|discriminate]. }
  destruct (initial_book_data_price book_url soup page_count old_rating old_review_count)
    as (Hp & Hr).
  pose proof (enhanced_book_get book_url soup page_count old_rating old_review_count)
    as Hget.
  pose proof plain_keys_not_enhanced as Hno.
  destruct (default false (includeReviews (config (self s)))).
  - split; [|discriminate].
    pose proof (scrape_reviews_result book_url s1) as Hrev.
    destruct (_scrape_reviews book_url s1) as [[reviews|e] s2]; cbn [fst] in Hrev |- *;
      [|exact Hrev].
    exists old_rating, old_review_count.
    rewrite !dict_get_set_other by discriminate.
    rewrite !Hget by (apply Hno; cbn; tauto). auto.
  - cbn [fst]. split; [|intros _ _; eexists; reflexivity].
    exists old_rating, old_review_count.
    rewrite !Hget by (apply Hno; cbn; tauto). auto.
Qed.

(** ** The numbers of a page *)

Lemma count_char_le (c : ascii) (s : string) :
  (count_char c s <= String.length s)%nat.
Proof.
  induction s as [|x s IH]; [reflexivity|]. cbn [count_char String.length].
  destruct (Ascii.eqb x c); lia.
Qed.

(** Among digits and points, the digits are what is no point. *)
Lemma decimal_no_point (s : string) :
  Py.all_chars digit_or_point s = true ->
  (Py.all_chars Py.is_decimal s = true <-> count_char "." s = 0%nat).
Proof.
  induction s as [|x s IH]; [by split|].
  cbn [Py.all_chars count_char]. intros [Hx Hs]%andb_prop. specialize (IH Hs).
  unfold digit_or_point in Hx.
  destruct (Ascii.eqb_spec x ".") as [->|Hne].
  - split; [intros H; apply andb_prop in H as [H _]; discriminate H|discriminate].
  - rewrite orb_false_r in Hx. rewrite Hx. cbn [andb]. rewrite IH. lia.
Qed.

Lemma split_point_spec (s : string) :
  Py.all_chars digit_or_point s = true ->
  let (whole, rest) := Py.split_point s in
  Py.all_chars Py.is_decimal whole = true /\
  match rest with
  | None =>
      count_char "." s = 0%nat /\ String.length s = String.length whole
  | Some frac =>
      Py.all_chars digit_or_point frac = true /\
      count_char "." s = S (count_char "." frac) /\
      String.length s = S (String.length whole + String.length frac)
  end.
Proof.
  induction s as [|x s IH]; [by repeat split|].
  cbn [Py.all_chars Py.split_point count_char String.length].
  intros [Hx Hs]%andb_prop. specialize (IH Hs). unfold digit_or_point in Hx.
  destruct (Ascii.eqb_spec x ".") as [->|Hne].
  - by repeat split.
  - rewrite orb_false_r in Hx.
    destruct (Py.split_point s) as [whole rest]. destruct IH as [Hw Hrest].
    cbn [Py.all_chars String.length]. rewrite Hx, Hw. split; [reflexivity|].
    destruct rest as [frac|].
    + destruct Hrest as (Hf & Hc & Hl). repeat split; [exact Hf|exact Hc|lia].
    + destruct Hrest as (Hc & Hl). split; [exact Hc|lia].
Qed.

Lemma length_zero_empty (s : string) : (s =? "")%string = true <-> String.length s = 0%nat.
Proof. destruct s; [by split|]. split; discriminate. Qed.

Lemma float_reads_exactly (g : string) :
  Py.all_chars digit_or_point g = true ->
  (Py.float g = Raise ValueError <->
   (2 <= count_char "." g)%nat \/ count_char "." g = String.length g).
Proof.
  intros Hg. pose proof (split_point_spec g Hg) as H. unfold Py.float.
  destruct (Py.split_point g) as [whole rest]. destruct H as [Hw Hrest].
  rewrite Hw. cbn [andb].
  destruct rest as [frac|]; cbn [default from_option id].
  - destruct Hrest as (Hf & Hc & Hl).
    pose proof (decimal_no_point frac Hf) as Hdec.
    pose proof (count_char_le "." frac) as Hle.
    pose proof (length_zero_empty whole) as Ew.
    pose proof (length_zero_empty frac) as Ef.
    destruct (Py.all_chars Py.is_decimal frac); cbn [andb].
    + assert (Hz : count_char "." frac = 0%nat) by (by apply Hdec).
      destruct (whole =? "")%string; destruct (frac =? "")%string; cbn [andb negb];
        (split; [intros H; try discriminate H|intros H]);
        try (right; destruct Ew as [Ew _], Ef as [Ef _];
             specialize (Ew eq_refl); specialize (Ef eq_refl); lia);
        try reflexivity.
      * exfalso. destruct Ew as [Ew Ew'], Ef as [Ef Ef'].
        destruct H as [H|H]; [lia|].
        assert (String.length frac = 0%nat) by lia. specialize (Ef' ltac:(assumption)).
        discriminate Ef'.
      * exfalso. destruct Ew as [Ew Ew'], Ef as [Ef Ef'].
        destruct H as [H|H]; [lia|].
        assert (String.length whole = 0%nat) by lia. specialize (Ew' ltac:(assumption)).
        discriminate Ew'.
      * exfalso. destruct Ew as [Ew Ew'], Ef as [Ef Ef'].
        destruct H as [H|H]; [lia|].
        assert (String.length whole = 0%nat) by lia. specialize (Ew' ltac:(assumption)).
        discriminate Ew'.
    + split; [intros _|reflexivity]. left.
      destruct (count_char "." frac) as [|n] eqn:E; [|lia].
      destruct Hdec as [_ Hdec]. specialize (Hdec eq_refl). discriminate Hdec.
  - destruct Hrest as (Hc & Hl). pose proof (length_zero_empty whole) as Ew.
    cbn [Py.all_chars andb String.eqb].
    destruct (whole =? "")%string; cbn [andb negb].
    + split; [intros _|reflexivity]. right. destruct Ew as [Ew _]. specialize (Ew eq_refl). lia.
    + split; [discriminate|]. intros [H|H]; [lia|]. exfalso.
      destruct Ew as [_ Ew]. assert (String.length whole = 0%nat) by lia.
      specialize (Ew ltac:(assumption)). discriminate Ew.
Qed.

(** X26: The rating of a page: the pattern [[\d\.]+] of [_extract_rating] takes
    any run of digits and points, and [float] reads it unless it has two
    points or more, or points only; in that case the helper raises
    [ValueError], as for [4.5.] at the end of a sentence. *)
Theorem extract_rating_raises_exactly (soup : Soup) (g : string) :
  sp_rating soup = Some g ->
  Py.all_chars digit_or_point g = true ->
  (_extract_rating soup = Raise ValueError <->
   (2 <= count_char "." g)%nat \/ count_char "." g = String.length g).
Proof.
  intros Hg Hchars. unfold _extract_rating, converted. rewrite Hg.
  rewrite <- (float_reads_exactly g Hchars).
  destruct (Py.float g) as [q|e] eqn:E; [by split|].
  apply float_raises in E. by subst e.
Qed.

Lemma remove_comma_decimal (g : string) :
  Py.all_chars digit_or_comma g = true ->
  Py.all_chars Py.is_decimal (Py.remove "," g) = true.
Proof.
  induction g as [|x g IH]; [reflexivity|].
  cbn [Py.all_chars Py.remove]. intros [Hx Hg]%andb_prop. unfold digit_or_comma in Hx.
  destruct (Ascii.eqb x ","); [by apply IH|].
  rewrite orb_false_r in Hx. cbn [Py.all_chars]. by rewrite Hx, IH.
Qed.

(** X27: The number of reviews of a page: the pattern [[\d,]+] of
    [_extract_review_count] takes any run of digits and commas; once the
    commas are gone [int] reads what is left unless nothing is left, as for
    a comma alone, or more than 4300 digits are; in that case the helper
    raises [ValueError]. *)
Theorem extract_review_count_raises_exactly (soup : Soup) (g : string) :
  sp_review_count soup = Some g ->
  Py.all_chars digit_or_comma g = true ->
  let digits := Z.of_nat (String.length (Py.remove "," g)) in
  (_extract_review_count soup = Raise ValueError <-> digits = 0 \/ 4300 < digits) /\
  (0 < digits <= 4300 ->
   _extract_review_count soup = Ok (Some (Py.digits_value 0 (Py.remove "," g)))).
Proof.
  intros Hg Hchars digits. subst digits.
  unfold _extract_review_count, converted, Py.int, Py.int_max_str_digits. rewrite Hg.
  rewrite (remove_comma_decimal g Hchars).
  pose proof (length_zero_empty (Py.remove "," g)) as He.
  destruct (Py.remove "," g =? "")%string; cbn [negb andb].
  - destruct He as [He _]. specialize (He eq_refl). rewrite He.
    split; [split; [intros _; by left|reflexivity]|]. cbn. lia.
  - assert (Hpos : 0 < Z.of_nat (String.length (Py.remove "," g))).
    { destruct (String.length (Py.remove "," g)) eqn:El; [|lia].
      destruct He as [_ He]. specialize (He eq_refl). discriminate He. }
    destruct (Z.leb_spec (Z.of_nat (String.length (Py.remove "," g))) 4300).
    + split; [split; [discriminate|lia]|reflexivity].
    + split; [split; [intros _; by right|reflexivity]|lia].
Qed.

(** ** Warm-up and search *)

Lemma emits_weaken {A} (P Q : Event -> Prop) (c : M A) :
  (forall e, P e -> Q e) -> emits P c -> emits Q c.
Proof.
  intros HPQ H s. destruct (H s) as (evs & Ht & HP). exists evs.
  split; [exact Ht|]. eapply Forall_impl; eauto.
Qed.

Lemma sends_when (n : nat) (b : bool) (c : M unit) : sends n c -> sends n (when b c).
Proof. destruct b; [trivial|]. intros _. apply (sends_more 0); [lia|apply sends_ret]. Qed.

Lemma sends_silent {A} (c : M A) : keeps silent c -> sends 0 c.
Proof. intros H. apply sends_keeps, keeps_silent_nsent, H. Qed.

Lemma keeps_silent_random : keeps silent random_random.
Proof. unfold random_random. keeps_auto. Qed.

Lemma warm_up_result (s : St) :
  fst (_warm_up_session s) =
  Ok (match fst (_make_request "https://www.amazon.com" 3 true s) with
      | Ok (Some _) => true
      | _ => false
      end).
Proof.
  unfold _warm_up_session, try_except. unfold bind at 1.
  destruct (make_request_3_returns "https://www.amazon.com" true s) as (res & Hres & Hok).
  destruct (_make_request "https://www.amazon.com" 3 true s) as [res' s1].
  cbn [fst] in Hres |- *. subst res'.
  destruct res as [r|]; [|reflexivity].
  destruct Hok as [E _]. unfold is_200 at 1. rewrite E. cbn [Z.eqb Pos.eqb].
  unfold bind, random_uniform, random_random, bind, get_world, update_world, ret,
    asyncio_sleep, update_world.
  cbn [fst snd world set_world drawn rng draws].
  destruct (Qlt_le_dec _ 0.7); [|reflexivity].
  match goal with |- context [_make_request ?u 3 true ?st] =>
    destruct (make_request_3_returns u true st) as (res2 & H2 & _);
    destruct (_make_request u 3 true st) as [r2 s3]; cbn [fst] in H2; subst r2
  end.
  destruct (is_200 res2); reflexivity.
Qed.

Lemma sends_warm_up : sends 6 _warm_up_session.
Proof.
  unfold _warm_up_session. apply (sends_try 6 0); [|intros e; apply sends_ret].
  apply (sends_bind 3 3); [apply (sends_make_request _ 3)|].
  intros homepage_response. destruct (is_200 homepage_response);
    [|apply (sends_more 0); [lia|apply sends_ret]].
  apply (sends_bind 0 3); [apply sends_silent, keeps_silent_uniform|]. intros d.
  apply (sends_bind 0 3); [apply sends_silent, keeps_silent_sleep|]. intros _.
  apply (sends_bind 0 3); [apply sends_silent, keeps_silent_random|]. intros u.
  apply (sends_bind 3 0); [|intros _; apply sends_ret].
  destruct (Qlt_le_dec u 0.7); [|apply (sends_more 0); [lia|apply sends_ret]].
  apply (sends_bind 3 0); [apply (sends_make_request _ 3)|].
  intros books_response. destruct (is_200 books_response); [|apply sends_ret].
  apply (sends_bind 0 0); [apply sends_silent, keeps_silent_uniform|]. intros d'.
  apply sends_silent, keeps_silent_sleep.
Qed.

Lemma emits_warm_up : emits warm_up_request _warm_up_session.
Proof.
  assert (Hhome : forall b, emits warm_up_request (_make_request "https://www.amazon.com" 3 b)).
  { intros b. eapply emits_weaken; [|apply emits_make_request].
    intros [| |]; cbn; auto. }
  assert (Hbooks : forall b, emits warm_up_request (_make_request books_section_url 3 b)).
  { intros b. eapply emits_weaken; [|apply emits_make_request].
    intros [| |]; cbn; auto. }
  unfold _warm_up_session, random_uniform, random_random, asyncio_sleep.
  emits_auto; auto.
Qed.

Lemma keeps_warmed_warm_up : keeps warmed _warm_up_session.
Proof.
  unfold _warm_up_session, random_uniform, random_random, asyncio_sleep.
  pose proof keeps_warmed_make_request. keeps_auto; auto.
Qed.

Lemma keeps_fixed_warm_up : keeps fixed _warm_up_session.
Proof.
  unfold _warm_up_session, random_uniform, random_random, asyncio_sleep.
  pose proof keeps_fixed_make_request. keeps_auto; auto.
Qed.

(** X20: The warm-up never raises; it reports [True] exactly when the fetch of
    the home page gives a response, whatever becomes of the visit to the
    books section; it sends at most six requests, to the home page and the
    books section only, and it does not mark the session as warmed: that is
    left to [search_books]. *)
Theorem warm_up_report (s : St) :
  let s' := snd (_warm_up_session s) in
  fst (_warm_up_session s) =
    Ok (match fst (_make_request "https://www.amazon.com" 3 true s) with
        | Ok (Some _) => true
        | _ => false
        end) /\
  (sent (world s) <= sent (world s') <= sent (world s) + 6)%nat /\
  (exists evs, trace (world s') = trace (world s) ++ evs /\
               Forall warm_up_request evs) /\
  warmed s' = warmed s.
Proof.
  split; [apply warm_up_result|]. split; [apply (sends_warm_up s)|].
  split; [apply emits_warm_up|apply keeps_warmed_warm_up].
Qed.

Lemma sends_scrape_book_details (url : string) : sends 6 (_scrape_book_details url).
Proof.
  unfold _scrape_book_details.
  apply (sends_bind 3 3); [apply (sends_make_request _ 3)|].
  intros [response|]; [|apply (sends_more 0); [lia|apply sends_ret]].
  apply (sends_bind 0 3); [apply sends_keeps; intros s; reflexivity|]. intros w. cbv zeta.
  apply (sends_bind 0 3); [apply sends_lift|]. intros page_count.
  apply (sends_bind 0 3); [apply sends_lift|]. intros old_rating.
  apply (sends_bind 0 3); [apply sends_lift|]. intros old_review_count.
  apply (sends_bind 0 3); [apply sends_keeps; intros s; reflexivity|]. intros o.
  destruct (default false (includeReviews (config o)));
    [|apply (sends_more 0); [lia|apply sends_ret]].
  apply (sends_bind 3 0); [apply sends_scrape_reviews|]. intros reviews. apply sends_ret.
Qed.

Lemma sends_scrape_links (links : list string) (i : nat) (books : list Dict) :
  sends (6 * length links) (scrape_links links i books).
Proof.
  revert i books. induction links as [|book_url rest IH]; intros i books;
    cbn [scrape_links length].
  - apply sends_ret.
  - apply (sends_more (0 + (0 + (6 + (0 + 6 * length rest))))); [lia|].
    apply sends_bind; [apply sends_keeps; intros s; reflexivity|]. intros o.
    apply sends_bind; [apply sends_when, sends_silent, keeps_silent_sleep|]. intros _.
    apply sends_bind; [apply sends_scrape_book_details|]. intros book_data.
    apply sends_bind; [|intros books'; apply IH].
    apply sends_keeps. unfold lift. destruct book_data as [data|]; keeps_auto.
    intros s. reflexivity.
Qed.

Lemma slice_to_length {A} (n : Z) (l : list A) :
  0 <= n -> (length (slice_to n l) <= Z.to_nat n)%nat.
Proof.
  intros Hn. unfold slice_to. destruct (Z.leb_spec 0 n); [|lia].
  rewrite length_firstn. lia.
Qed.

Lemma search_warmed_bound (search_term : string) (category : option string) (s : St) :
  0 <= default 100 (maxResults (config (self s))) ->
  (nsent (snd (search_warmed search_term category s)) <=
   nsent s + 3 + 6 * Z.to_nat (default 100%Z (maxResults (config (self s)))))%nat.
Proof.
  intros Hm. unfold search_warmed. unfold bind at 1. cbn [get_self]. cbv zeta.
  set (m := default 100 (maxResults (config (self s)))) in *.
  match goal with |- context [bind ?c ?k s] =>
    assert (H : sends (3 + 6 * Z.to_nat m) (bind c k)) end.
  { apply sends_bind; [apply (sends_make_request _ 3)|].
    intros [response|]; [|apply (sends_more 0); [lia|apply sends_ret]].
    apply (sends_more (0 + 6 * Z.to_nat m)); [lia|].
    apply sends_bind; [apply sends_keeps; intros s0; reflexivity|]. intros w.
    eapply sends_more; [|apply sends_scrape_links].
    pose proof (slice_to_length m (_extract_book_links (lxml w (resp_text response))) Hm).
    lia. }
  specialize (H s). lia.
Qed.

Lemma search_books_run (search_term : string) (category : option string) (s : St) :
  search_books search_term category s =
  if warmed s then search_warmed search_term category s
  else match _warm_up_session s with
       | (Ok _, s1) =>
           search_warmed search_term category (set_self (with_session_warmed true) s1)
       | (Raise e, s1) => (Raise e, s1)
       end.
Proof.
  unfold search_books, warmed. unfold bind at 1; cbn [get_self].
  destruct (_session_warmed (self s)); cbn [negb when]; [reflexivity|].
  unfold bind. destruct (_warm_up_session s) as [[b|e] s1]; reflexivity.
Qed.

(** X21: A search sends at most [3 + 6 * maxResults] requests when [maxResults]
    (100 when the configuration has none) is not negative: three for the
    result page, and for each book three for its page and three for its
    reviews; six more come first when the session is not warmed yet. *)
Theorem search_request_bound (search_term : string) (category : option string)
    (s : St) :
  0 <= default 100 (maxResults (config (self s))) ->
  let s' := snd (search_books search_term category s) in
  (sent (world s') <=
   sent (world s) + (if warmed s then 0 else 6) + 3
   + 6 * Z.to_nat (default 100%Z (maxResults (config (self s)))))%nat.
Proof.
  intros Hm s'. subst s'. rewrite search_books_run.
  destruct (warmed s).
  - pose proof (search_warmed_bound search_term category s Hm).
    unfold nsent in *. lia.
  - pose proof (sends_warm_up s) as Hw. pose proof (keeps_fixed_warm_up s) as Hf.
    destruct (_warm_up_session s) as [[b|e] s1]; cbn [fst snd] in *.
    + assert (Hcfg : config (self (set_self (with_session_warmed true) s1)) = config (self s)).
      { unfold fixed in Hf. cbn. congruence. }
      pose proof (search_warmed_bound search_term category
                    (set_self (with_session_warmed true) s1)) as H.
      rewrite Hcfg in H. specialize (H Hm). unfold nsent in *.
      change (sent (world (set_self (with_session_warmed true) s1)))
        with (sent (world s1)) in H. lia.
    + unfold nsent in *. lia.
Qed.

(** ** The cap of the adaptive delay *)

Lemma power_above (b : Z) (k a : nat) :
  0 < b -> (k <= a)%nat -> (inject_Z (b ^ Z.of_nat k) <= inject_Z (b ^ Z.of_nat a))%Q.
Proof. intros Hb Hka. rewrite <- Zle_Qle. apply Z.pow_le_mono_r; lia. Qed.

(** X22: From the sixth retry on after a 503, the fifth after a 403 and the
    ninth otherwise, the sleep of [_adaptive_delay_strategy] is the cap, 600
    seconds, whatever the jitter (for a draw that is not negative, and as long
    as the power still fits a float). *)
Theorem adaptive_delay_saturates (error_code : option Z) (attempt : nat) (s : St) :
  (0 <= rng (world s) (draws (world s)))%Q ->
  (saturated_from error_code <= attempt)%nat ->
  (attempt < overflow_from error_code)%nat ->
  _adaptive_delay_strategy attempt error_code s =
  (Ok tt,
   set_world (fun w => elapsed 600 (emit (Sleep (AdaptiveDelay attempt error_code) 600)
                                         (drawn w))) s).
Proof.
  intros Hu Hsat Hfit. rewrite adaptive_delay_run.
  destruct (Nat.leb_spec (overflow_from error_code) attempt) as [?|_]; [lia|].
  cbv zeta.
  assert (Hcap : Py.min (uncapped_delay error_code attempt
                           (rng (world s) (draws (world s)))) 600 = 600%Q).
  { unfold Py.min.
    destruct (Qlt_le_dec 600 _) as [_|Hle]; [reflexivity|]. exfalso.
    revert Hle Hsat. unfold uncapped_delay, saturated_from.
    set (u := rng (world s) (draws (world s))) in *.
    destruct (code_is error_code 503);
      [|destruct (code_is error_code 429); [|destruct (code_is error_code 403)]];
      intros Hle Hsat.
    - pose proof (power_above 3 6 attempt ltac:(lia) Hsat) as Hp.
      change (inject_Z (3 ^ Z.of_nat 6)) with (inject_Z 729) in Hp.
      assert (inject_Z 729 == 729)%Q by reflexivity. lra.
    - pose proof (power_above 2 9 attempt ltac:(lia) Hsat) as Hp.
      change (inject_Z (2 ^ Z.of_nat 9)) with (inject_Z 512) in Hp.
      assert (inject_Z 512 == 512)%Q by reflexivity. lra.
    - pose proof (power_above 4 5 attempt ltac:(lia) Hsat) as Hp.
      change (inject_Z (4 ^ Z.of_nat 5)) with (inject_Z 1024) in Hp.
      assert (inject_Z 1024 == 1024)%Q by reflexivity. lra.
    - pose proof (power_above 2 9 attempt ltac:(lia) Hsat) as Hp.
      change (inject_Z (2 ^ Z.of_nat 9)) with (inject_Z 512) in Hp.
      assert (inject_Z 512 == 512)%Q by reflexivity. lra. }
  rewrite Hcap. reflexivity.
Qed.

(** ** The filter on plain numbers *)

Lemma lt_num_number (x q : Q) :
  Py.lt_num (Py.VNum x) q = Ok (negb (Qle_bool q x)).
Proof.
  unfold Py.lt_num. cbn [Py.as_number]. destruct (Qlt_le_dec x q) as [Hlt|Hle].
  - destruct (Qle_bool q x) eqn:E; [|reflexivity].
    apply Qle_bool_iff in E. lra.
  - apply Qle_bool_iff in Hle. by rewrite Hle.
Qed.

(** X23: The filter as it reads for a book whose [rating] and [price] are plain
    numbers: the book passes when its rating is 0 or at least [minRating]
    (0 when absent) and its price is 0 or within [priceRange] (from 0, and
    without upper bound, when absent); a rating or a price of 0 counts as
    missing and passes every filter. *)
Theorem meets_criteria_on_numbers (cfg : Config) (book_data : Dict) (rating price : Q) :
  Py.dict_get "rating" book_data = Some (Py.VNum rating) ->
  Py.dict_get "price" book_data = Some (Py.VNum price) ->
  let price_range := default {| pr_min := None; pr_max := None |} (priceRange cfg) in
  _meets_criteria cfg book_data =
  Ok (passes rating (default 0%Q (minRating cfg)) None
      && passes price (default 0%Q (pr_min price_range)) (pr_max price_range)).
Proof.
  intros Hr Hp price_range. unfold _meets_criteria, passes. rewrite Hr, Hp.
  fold price_range. cbn [Py.truthy]. rewrite andb_true_r.
  destruct (Qeq_bool rating 0); cbn [negb orb].
  - destruct (Qeq_bool price 0); cbn [negb orb andb]; [reflexivity|].
    unfold Py.num_le, le_bound, Py.le_num. cbn [Py.as_number].
    destruct (Qle_bool (default 0%Q (pr_min price_range)) price); [|reflexivity].
    destruct (pr_max price_range) as [h|]; [|reflexivity].
    destruct (Qle_bool price h); reflexivity.
  - rewrite lt_num_number.
    destruct (Qle_bool (default 0%Q (minRating cfg)) rating); cbn [negb andb];
      [|reflexivity].
    destruct (Qeq_bool price 0); cbn [negb orb andb]; [reflexivity|].
    unfold Py.num_le, le_bound, Py.le_num. cbn [Py.as_number].
    destruct (Qle_bool (default 0%Q (pr_min price_range)) price); [|reflexivity].
    destruct (pr_max price_range) as [h|]; [|reflexivity].
    destruct (Qle_bool price h); reflexivity.
Qed.

(** ** Warming up once *)

Lemma keeps_warmed_scrape_reviews (url : string) : keeps warmed (_scrape_reviews url).
Proof.
  unfold _scrape_reviews. pose proof keeps_warmed_make_request. keeps_auto; auto.
Qed.

Lemma keeps_warmed_scrape_book_details (url : string) :
  keeps warmed (_scrape_book_details url).
Proof.
  unfold _scrape_book_details.
  pose proof keeps_warmed_make_request. pose proof keeps_warmed_scrape_reviews.
  keeps_auto; auto.
Qed.

Lemma keeps_warmed_scrape_links (links : list string) (i : nat) (books : list Dict) :
  keeps warmed (scrape_links links i books).
Proof.
  revert i books. induction links as [|u rest IH]; intros i books; cbn [scrape_links].
  - apply keeps_ret.
  - pose proof keeps_warmed_scrape_book_details.
    pose proof (fun a b => keeps_warmed_self _ (keeps_self_sleep a b)).
    keeps_auto; auto.
Qed.

Lemma keeps_warmed_search_warmed (t : string) (c : option string) :
  keeps warmed (search_warmed t c).
Proof.
  unfold search_warmed.
  pose proof keeps_warmed_make_request. pose proof keeps_warmed_scrape_links.
  keeps_auto; auto.
Qed.

(** X24: The session is warmed up once: after [search_books], however it ends,
    the session is marked as warmed, also when the warm-up failed; the
    search itself goes on in either case, with the report of the warm-up
    left unread. *)
Theorem search_warms_once (search_term : string) (category : option string) (s : St) :
  warmed (snd (search_books search_term category s)) = true /\
  (warmed s = false ->
   search_books search_term category s =
   search_warmed search_term category
     (set_self (with_session_warmed true) (snd (_warm_up_session s)))).
Proof.
  rewrite search_books_run.
  pose proof (warm_up_result s) as Hw.
  destruct (warmed s) eqn:E.
  - split; [|discriminate]. by rewrite keeps_warmed_search_warmed.
  - destruct (_warm_up_session s) as [[b|e] s1]; [|discriminate Hw].
    split; [|reflexivity]. by rewrite keeps_warmed_search_warmed.
Qed.

Lemma py_eqb_str (u : string) (v : Py.Val) :
  py_eqb (Py.VStr u) v = true <-> v = Py.VStr u.
Proof.
  destruct v; cbn; try (split; [discriminate|congruence]).
  rewrite String.eqb_eq. split; congruence.
Qed.

Lemma seen_str (u : string) (urls : list string) :
  existsb (py_eqb (Py.VStr u)) (map Py.VStr urls) = true <-> In u urls.
Proof.
  rewrite existsb_exists. split.
  - intros (v & Hv & E). apply py_eqb_str in E. subst v.
    apply in_map_iff in Hv as (u' & [= ->] & Hu). exact Hu.
  - intros Hu. exists (Py.VStr u). split; [by apply in_map|by apply py_eqb_str].
Qed.

Lemma url_of_get (book : Dict) (u : string) :
  url_of book = Some u -> Py.dict_get "url" book = Some (Py.VStr u).
Proof.
  unfold url_of. destruct (Py.dict_get "url" book) as [[]|]; try discriminate.
  by intros [= ->].
Qed.

Lemma unique_books_loop_spec (all_books : list Dict) :
  Forall (fun book => url_of book <> None) all_books ->
  forall unique urls,
    omap url_of unique = urls -> length urls = length unique -> NoDup urls ->
    exists more,
      unique_books_loop all_books unique (map Py.VStr urls) = inr (unique ++ more) /\
      sublist more all_books /\
      Forall (fun book => url_of book <> None) more /\
      NoDup (omap url_of (unique ++ more)) /\
      forall book u, In book all_books -> url_of book = Some u ->
                     In u (omap url_of (unique ++ more)).
Proof.
  induction 1 as [|book rest Hbook Hrest IH]; intros unique urls Hurls Hlen Hnd.
  - exists []. rewrite app_nil_r. cbn. rewrite Hurls.
    repeat split; [constructor | constructor | exact Hnd | contradiction].
  - destruct (url_of book) as [u|] eqn:Eu; [|contradiction].
    cbn [unique_books_loop]. rewrite (url_of_get _ _ Eu). cbn [hashable].
    destruct (existsb (py_eqb (Py.VStr u)) (map Py.VStr urls)) eqn:Eseen.
    + apply seen_str in Eseen.
      destruct (IH unique urls Hurls Hlen Hnd) as (more & Hrun & Hsub & Hall & Hnd' & Hin).
      exists more. split; [exact Hrun|]. split; [by apply sublist_cons|].
      split; [exact Hall|]. split; [exact Hnd'|].
      intros b u' [<-|Hb] Hu'.
      * rewrite Eu in Hu'. injection Hu' as <-.
        rewrite omap_app. apply in_app_iff. left. by rewrite Hurls.
      * by eapply Hin.
    + assert (Hnew : ~ In u urls).
      { intros Hu%seen_str. congruence. }
      assert (Hurls' : omap url_of (unique ++ [book]) = urls ++ [u]).
      { rewrite omap_app, Hurls. cbn. by rewrite Eu. }
      assert (Hnd1 : NoDup (urls ++ [u])).
      { apply NoDup_app. split; [exact Hnd|]. split; [|apply NoDup_singleton].
        intros x Hx ->%list_elem_of_singleton. by apply Hnew, list_elem_of_In. }
      destruct (IH (unique ++ [book]) (urls ++ [u]) Hurls')
        as (more & Hrun & Hsub & Hall & Hnd' & Hin);
        [rewrite !length_app; cbn; lia | exact Hnd1 |].
      exists (book :: more). rewrite map_app in Hrun. cbn [map] in Hrun.
      rewrite <- app_assoc in Hrun, Hnd', Hin. cbn [app] in Hrun, Hnd', Hin.
      split; [exact Hrun|]. split; [by apply sublist_skip|].
      split; [constructor; [congruence|exact Hall]|]. split; [exact Hnd'|].
      intros b u' [<-|Hb] Hu'.
      * rewrite Eu in Hu'. injection Hu' as <-.
        rewrite omap_app. apply in_app_iff. right. cbn. rewrite Eu. by left.
      * by eapply Hin.
Qed.

(** X25: The books that [main] pushes: for books that each have a string as
    their [url], as the scraped ones do, the loop raises nothing and keeps a
    subsequence of the books in which no URL comes twice and every URL of
    the books is found. *)
Theorem unique_books_spec (all_books : list Dict) :
  Forall (fun book => url_of book <> None) all_books ->
  exists unique,
    unique_books all_books = inr unique /\
    sublist unique all_books /\
    NoDup (omap url_of unique) /\
    length (omap url_of unique) = length unique /\
    forall book u, In book all_books -> url_of book = Some u ->
                   In u (omap url_of unique).
Proof.
  intros Hall.
  destruct (unique_books_loop_spec all_books Hall [] [] eq_refl eq_refl (NoDup_nil_2 (A:=string)))
    as (more & Hrun & Hsub & Hmore & Hnd & Hin).
  exists more. cbn in *. split; [exact Hrun|]. split; [exact Hsub|].
  split; [exact Hnd|]. split; [|exact Hin].
  clear -Hmore. induction Hmore as [|b l Hb Hl IH]; [reflexivity|].
  cbn. destruct (url_of b); [cbn; by rewrite IH|contradiction].
Qed.

(** ** The properties at work *)

(** Two equal URLs come from equal search terms. *)
Lemma build_search_url_injective_witness :
  "kindle unlimited"%string = "kindle unlimited"%string.
Proof.
  apply (build_search_url_injective plain_config "kindle unlimited" "kindle unlimited"
           None (Some "Books")).
  reflexivity.
Defined.

(** The thumbnails of [detail_page]. *)
Lemma thumbnails_are_distinct_witness :
  exists thumbnails,
    Py.dict_get "images"
      (_extract_enhanced_details detail_page
         (initial_book_data book_url detail_page None (Some 4.5%Q) (Some 0))) =
      Some (Py.VDict (Py.dict_set "thumbnails" (str_list thumbnails)
                        [("primary", Py.VStr ""); ("thumbnails", Py.VList [])])) /\
    NoDup thumbnails /\
    forall src, In src thumbnails <-> In src (sp_thumbnails detail_page) /\ src <> "".
Proof.
  apply (thumbnails_are_distinct detail_page
           (initial_book_data book_url detail_page None (Some 4.5%Q) (Some 0))
           [("primary", Py.VStr ""); ("thumbnails", Py.VList [])]);
    reflexivity.
Defined.

(** A book that is [Currently unavailable.] is in stock. *)
Lemma unavailable_is_in_stock_witness :
  exists availability',
    Py.dict_get "availability"
      (_extract_enhanced_details detail_page
         (initial_book_data book_url detail_page None (Some 4.5%Q) (Some 0)))
      = Some (Py.VDict availability') /\
    Py.dict_get "inStock" availability' = Some (Py.VBool true) /\
    Py.dict_get "stockText" availability' = Some (Py.VStr "Currently unavailable.").
Proof.
  apply (unavailable_is_in_stock detail_page
           (initial_book_data book_url detail_page None (Some 4.5%Q) (Some 0))
           [("inStock", Py.VNone); ("stockText", Py.VNone)] "Currently unavailable.");
    reflexivity.
Defined.

(** A fetch of no attempt. *)
Lemma make_request_no_attempts_witness :
  fst (_make_request book_url 0 false (start 0 (friendly empty_page))) = Ok None /\
  failures (snd (_make_request book_url 0 false (start 0 (friendly empty_page)))) = 0 + 1 /\
  sent (world (snd (_make_request book_url 0 false (start 0 (friendly empty_page))))) = 0%nat.
Proof.
  apply (make_request_no_attempts book_url 0 false (start 0 (friendly empty_page))). lia.
Defined.

(** A 200 at once, with two failures behind. *)
Lemma first_try_success_witness :
  fst (_make_request book_url 3 false (start 2 (friendly empty_page)))
    = Ok (Some (answer 200)) /\
  sent (world (snd (_make_request book_url 3 false (start 2 (friendly empty_page)))))
    = 1%nat.
Proof.
  destruct (first_try_success book_url 3 false (answer 200) (start 2 (friendly empty_page)))
    as (H1 & H2 & _);
    [lia | reflexivity | reflexivity | vm_compute; reflexivity |].
  split; [exact H1 | exact H2].
Defined.

(** The second CAPTCHA of a fetch. *)
Lemma captcha_delay_tiers_witness :
  exists d : Q,
    fst (_handle_captcha_scenario captcha_page 1 (start 0 (friendly empty_page)))
      = Ok true /\
    trace (world (snd (_handle_captcha_scenario captcha_page 1
                         (start 0 (friendly empty_page))))) =
      [] ++ [Sleep (CaptchaDelay 1) d] /\
    (30 <= d <= 60)%Q.
Proof.
  destruct (captcha_delay_tiers captcha_page 1 (start 0 (friendly empty_page)))
    as (d & H1 & H2 & H3 & _); [cbn; lra|].
  exists d. split; [exact H1|]. split; [exact H2 | exact H3].
Defined.

(** Three CAPTCHA pages in a row. *)
Lemma captcha_at_every_attempt_witness :
  let s := start 0 (world_of 0.5 (fun _ => Resp captcha_page) empty_page) in
  let s' := snd (_make_request book_url 3 false s) in
  fst (_make_request book_url 3 false s) = Ok None /\
  sent (world s') = 3%nat /\
  map kind (since (trace (world s)) (trace (world s'))) = captcha_kinds book_url 200 200 /\
  failures s' = 0 + 3 /\
  _session_cookies (self s') = ∅.
Proof.
  apply (captcha_at_every_attempt book_url false captcha_page captcha_page captcha_page
           (start 0 (world_of 0.5 (fun _ => Resp captcha_page) empty_page)));
    vm_compute; reflexivity.
Defined.

(** The requests of a fetch against a server that always answers 500. *)
Lemma requests_are_paced_witness :
  let s := start 0 (world_of 0.5 always_500 empty_page) in
  Paced (pacing_floor plain_config)
        (since (trace (world s)) (trace (world (snd (_make_request book_url 3 false s))))).
Proof.
  apply (requests_are_paced book_url 3 false (start 0 (world_of 0.5 always_500 empty_page))).
  - intros i. cbn. lra.
  - cbn. lra.
Defined.

(** The free book of [detail_page]: its numbers are read, it is returned,
    and it has no price. *)
Lemma book_price_and_rating_witness :
  exists book_data,
    fst (_scrape_book_details book_url (start 0 (friendly detail_page)))
      = Ok (Some book_data) /\
    Py.dict_get "price" book_data = Some no_price.
Proof.
  destruct (book_price_and_rating book_url (answer 200) (start 0 (friendly detail_page)))
    as [H1 H2]; [vm_compute; reflexivity|].
  destruct H2 as [book_data Hbook]; [vm_compute; reflexivity | reflexivity |].
  rewrite Hbook in H1. destruct H1 as (old_rating & old_review_count & _ & _ & Hp & _).
  exists book_data. split; [exact Hbook | exact Hp].
Defined.

(** A search with the default of a hundred results, from a session not
    warmed yet. *)
Lemma search_request_bound_witness :
  (sent (world (snd (search_books "rocq" None (start 0 (friendly result_page)))))
   <= 0 + 6 + 3 + 6 * 100)%nat.
Proof.
  apply (search_request_bound "rocq" None (start 0 (friendly result_page))).
  cbn. lia.
Defined.

(** A book without price passes a filter on the price. *)
Lemma meets_criteria_on_numbers_witness :
  _meets_criteria
    {| requestDelay := None; maxResults := None; minRating := Some 4%Q;
       priceRange := Some {| pr_min := Some 1%Q; pr_max := Some 20%Q |};
       sortBy := None; includeReviews := None |}
    [("rating", Py.VNum 4.5); ("price", Py.VNum 0)]
  = Ok true.
Proof.
  apply (meets_criteria_on_numbers
           {| requestDelay := None; maxResults := None; minRating := Some 4%Q;
              priceRange := Some {| pr_min := Some 1%Q; pr_max := Some 20%Q |};
              sortBy := None; includeReviews := None |}
           [("rating", Py.VNum 4.5); ("price", Py.VNum 0)] 4.5 0);
    reflexivity.
Defined.

(** The seventh attempt after a 503. *)
Lemma adaptive_delay_saturates_witness :
  trace (world (snd (_adaptive_delay_strategy 6 (Some 503)
                       (start 0 (friendly empty_page))))) =
  [Sleep (AdaptiveDelay 6 (Some 503)) 600].
Proof.
  rewrite (adaptive_delay_saturates (Some 503) 6 (start 0 (friendly empty_page)));
    [reflexivity | cbn; lra | cbn; lia | cbn; lia].
Defined.

(** Of [three_books] the first two are kept. *)
Lemma unique_books_spec_witness :
  exists unique,
    unique_books three_books = inr unique /\
    sublist unique three_books /\
    NoDup (omap url_of unique) /\
    length (omap url_of unique) = length unique /\
    forall book u, In book three_books -> url_of book = Some u ->
                   In u (omap url_of unique).
Proof.
  apply (unique_books_spec three_books).
  repeat constructor; discriminate.
Defined.

(** A fetch of three attempts against a server that always answers 500. *)
Lemma fetch_gives_200_or_none_witness :
  exists res,
    fst (_make_request book_url 3 false (start 0 (world_of 0.5 always_500 empty_page)))
      = Ok res /\
    match res with
    | Some r => status_code r = 200 /\ _is_captcha_page r = false
    | None => True
    end.
Proof.
  apply (fetch_gives_200_or_none book_url 3 false
           (start 0 (world_of 0.5 always_500 empty_page))).
  lia.
Defined.

(** The rating [4.5.] is no number. *)
Lemma extract_rating_raises_exactly_witness :
  _extract_rating odd_numbers_page = Raise ValueError.
Proof.
  apply (extract_rating_raises_exactly odd_numbers_page "4.5.");
    [reflexivity | reflexivity |].
  left. cbn. lia.
Defined.

(** A comma alone is no number of reviews. *)
Lemma extract_review_count_raises_exactly_witness :
  _extract_review_count odd_numbers_page = Raise ValueError.
Proof.
  destruct (extract_review_count_raises_exactly odd_numbers_page ",")
    as [[_ H] _]; [reflexivity | reflexivity |].
  apply H. left. reflexivity.
Defined.

(** Such a page ends the scraping of its book, and with it the search. *)
Lemma scrape_book_details_raises_example :
  fst (_scrape_book_details book_url (start 0 (friendly odd_numbers_page)))
  = Raise ValueError.
Proof. vm_compute. reflexivity. Qed.
